(** * Loadout: skill discovery, resource resolution and script execution

    A shallow embedding of the core of the loadout server
    (parser.ts, resources.ts, discovery.ts, tools.ts) together with the
    properties its design document states about it.

    JavaScript strings are sequences of UTF-16 code units.  The embedding
    covers the strings whose code units are below 256 and uses one [ascii]
    per code unit; [string] is the Standard Library's.  Numbers that the
    program only uses as integers (heading levels, line numbers, indices,
    exit codes) are [Z]. *)

From Stdlib Require Import String Ascii List ZArith Lia Bool Arith.
From Stdlib Require Import Numbers.DecimalString Numbers.DecimalPos.
Import ListNotations.

Local Open Scope list_scope.
Local Open Scope string_scope.

(* ===================================================================== *)
(** * JavaScript string and array primitives used by the program *)

Module Js.

(** [s.split(sep)] for a one-character separator: never the empty list. *)
Fixpoint split (sep : ascii) (s : string) : list string :=
  match s with
  | EmptyString => [EmptyString]
  | String c s' =>
      if Ascii.eqb c sep then EmptyString :: split sep s'
      else match split sep s' with
           | [] => [String c EmptyString]
           | seg :: rest => String c seg :: rest
           end
  end.

(** [parts.join(sep)]. *)
Definition join (sep : string) (parts : list string) : string :=
  String.concat sep parts.

(** [s.startsWith(p)]. *)
Definition startsWith (s p : string) : bool := String.prefix p s.

(** [s.includes(sub)]. *)
Fixpoint includes (s sub : string) : bool :=
  match s with
  | EmptyString => String.prefix sub EmptyString
  | String _ s' => String.prefix sub s || includes s' sub
  end.

(** Relative index of [slice]: negative counts from the end, then clamp. *)
Definition clampIndex (len i : Z) : Z :=
  if (i <? 0)%Z then Z.max (len + i) 0 else Z.min i len.

(** [s.slice(start, end)] on strings. *)
Definition slice (s : string) (start stop : Z) : string :=
  let len := Z.of_nat (String.length s) in
  let from := clampIndex len start in
  let to := clampIndex len stop in
  String.substring (Z.to_nat from) (Z.to_nat (Z.max (to - from) 0)) s.

(** [a.slice(start, end)] on arrays. *)
Definition arraySlice {A : Type} (a : list A) (start stop : Z) : list A :=
  let len := Z.of_nat (List.length a) in
  let from := clampIndex len start in
  let to := clampIndex len stop in
  firstn (Z.to_nat (Z.max (to - from) 0)) (skipn (Z.to_nat from) a).

(** [a.slice(start)] on arrays. *)
Definition arraySliceFrom {A : Type} (a : list A) (start : Z) : list A :=
  arraySlice a start (Z.of_nat (List.length a)).

(** White space in the sense of [trim] and [parseInt], for code units
    below 256: TAB, LF, VT, FF, CR, SP and NBSP. *)
Definition isWhiteSpace (c : ascii) : bool :=
  let n := nat_of_ascii c in
  (((9 <=? n) && (n <=? 13)) || (n =? 32) || (n =? 160))%nat.

Fixpoint trimStart (s : string) : string :=
  match s with
  | EmptyString => EmptyString
  | String c s' => if isWhiteSpace c then trimStart s' else s
  end.

Fixpoint trimEnd (s : string) : string :=
  match s with
  | EmptyString => EmptyString
  | String c s' =>
      match trimEnd s' with
      | EmptyString => if isWhiteSpace c then EmptyString else String c EmptyString
      | t => String c t
      end
  end.

(** [s.trim()]. *)
Definition trim (s : string) : string := trimEnd (trimStart s).

(** [s.toLowerCase()] on code units below 256: A-Z and the Latin-1
    capitals (0xC0-0xDE without the multiplication sign 0xD7). *)
Definition lowerChar (c : ascii) : ascii :=
  let n := nat_of_ascii c in
  if (((65 <=? n) && (n <=? 90))
      || ((192 <=? n) && (n <=? 222) && negb (n =? 215)))%nat
  then ascii_of_nat (n + 32) else c.

Fixpoint toLowerCase (s : string) : string :=
  match s with
  | EmptyString => EmptyString
  | String c s' => String (lowerChar c) (toLowerCase s')
  end.

Definition isDigit (c : ascii) : bool :=
  let n := nat_of_ascii c in ((48 <=? n) && (n <=? 57))%nat.

Definition digitValue (c : ascii) : Z := Z.of_nat (nat_of_ascii c) - 48.

(** The value of the longest prefix of decimal digits; [acc] is the value
    read so far and [seen] tells whether a digit was read at all. *)
Fixpoint readDigits (s : string) (acc : Z) (seen : bool) : option Z :=
  match s with
  | String c s' =>
      if isDigit c then readDigits s' (10 * acc + digitValue c)%Z true
      else if seen then Some acc else None
  | EmptyString => if seen then Some acc else None
  end.

(** [parseInt(s, 10)]: leading white space is skipped, one sign is
    accepted, the longest prefix of digits is read and what follows is
    ignored; [None] is NaN.  (The result is compared with array bounds
    only, where the mathematical value and its nearest double agree.) *)
Definition parseInt (s : string) : option Z :=
  match trimStart s with
  | String "-" r => option_map Z.opp (readDigits r 0%Z false)
  | String "+" r => readDigits r 0%Z false
  | r => readDigits r 0%Z false
  end.

(** The string of an integer, as a template literal prints it. *)
Definition numberToString (z : Z) : string :=
  NilZero.string_of_int (Z.to_int z).

End Js.

(* ===================================================================== *)
(** * types.ts *)

(** A value of the open [metadata] bag. *)
#[warnings="-register-all"]
Inductive YamlValue : Type :=
| YNull
| YBool (b : bool)
| YNum (z : Z)
| YStr (s : string)
| YSeq (items : list YamlValue)
| YMap (fields : list (string * YamlValue)).

Record SkillFrontmatter : Type := mkFrontmatter {
  fm_name : string;
  fm_description : string;
  fm_license : option string;
  fm_version : option string;
  fm_author : option string;
  fm_metadata : option YamlValue
}.

Record TocEntry : Type := mkTocEntry {
  toc_level : Z;
  toc_text : string;
  toc_slug : string;
  toc_line : Z
}.

Record CodeBlock : Type := mkCodeBlock {
  cb_lang : option string;
  cb_line : Z;
  cb_content : string
}.

Record Link : Type := mkLink {
  link_text : string;
  link_href : string;
  link_isInternal : bool
}.

Record SkillFiles : Type := mkSkillFiles {
  files_scripts : list string;
  files_references : list string;
  files_assets : list string
}.

Record ParsedSkill : Type := mkParsedSkill {
  frontmatter : SkillFrontmatter;
  body : string;
  toc : list TocEntry;
  codeBlocks : list CodeBlock;
  links : list Link;
  files : SkillFiles
}.

Record DiscoveredSkill : Type := mkDiscoveredSkill {
  skill_name : string;
  skill_description : string;
  skill_path : string;
  skillMdPath : string;
  parsed : option ParsedSkill
}.

Record CodeBlockPreview : Type := mkCodeBlockPreview {
  cbp_lang : option string;
  cbp_line : Z;
  preview : string
}.

Record SkillManifest : Type := mkSkillManifest {
  m_name : string;
  m_description : string;
  m_license : option string;
  m_version : option string;
  m_author : option string;
  m_toc : list TocEntry;
  m_codeBlocks : list CodeBlockPreview;
  m_links : list Link;
  m_files : SkillFiles
}.

(* ===================================================================== *)
(** * Results of operations that may throw *)

Inductive Outcome (A : Type) : Type :=
| Ok (value : A)
| Throw (message : string).
Arguments Ok {A} value.
Arguments Throw {A} message.

Definition bindOutcome {A B : Type} (m : Outcome A) (k : A -> Outcome B) : Outcome B :=
  match m with
  | Ok a => k a
  | Throw e => Throw e
  end.

Notation "'do' x <- m ; k" := (bindOutcome m (fun x => k))
  (at level 10, x name, m at level 100, k at level 200).

(** The line feed, and a text followed by it. *)
Definition LF : ascii := ascii_of_nat 10.
Definition nl : string := String LF EmptyString.

(* ===================================================================== *)
(** * parser.ts *)

Module Parser.

Definition isInternalHref (href : string) : bool :=
  Js.startsWith href "references/"
  || Js.startsWith href "scripts/"
  || Js.startsWith href "assets/"
  || Js.startsWith href "./references/"
  || Js.startsWith href "./scripts/"
  || Js.startsWith href "./assets/".

(** What gray-matter hands back: the front matter as read, fields that
    are missing being absent, and the text after it. *)
Record MatterData : Type := mkMatterData {
  data_name : option string;
  data_description : option string;
  data_license : option string;
  data_version : option string;
  data_author : option string;
  data_metadata : option YamlValue
}.

(** The markdown tree of remark, as far as [visit] looks at it: headings,
    code blocks and links, any other node with children, and leaves.
    [line] is [position?.start.line]. *)
#[warnings="-register-all"]
Inductive Node : Type :=
| heading (depth : Z) (line : option Z) (children : list Node)
| code (lang : option string) (line : option Z) (value : string)
| link (url : string) (children : list Node)
| parent (children : list Node)
| leaf (value : string).

Section ParseSkillMd.

(** The libraries: gray-matter, remark, mdast-util-to-string and
    github-slugger (an object with a memory of the slugs it gave).
    The first two may throw. *)
Variable matter : string -> Outcome (MatterData * string).
Variable remarkParse : string -> Outcome Node.
Variable toString : Node -> string.
Variable Slugger : Type.
Variable newSlugger : Slugger.
Variable slug : Slugger -> string -> string * Slugger.

(** The slugger and the three arrays that [visit] fills. *)
Record Collected : Type := mkCollected {
  col_slugger : Slugger;
  col_toc : list TocEntry;
  col_codeBlocks : list CodeBlock;
  col_links : list Link
}.

Definition orElse {A : Type} (o : option A) (d : A) : A :=
  match o with Some a => a | None => d end.

Definition pushHeading (node : Node) (depth : Z) (line : option Z) (acc : Collected)
  : Collected :=
  let text := toString node in
  let '(sl, slugger') := slug (col_slugger acc) text in
  {| col_slugger := slugger';
     col_toc := (col_toc acc
                   ++ [{| toc_level := depth; toc_text := text; toc_slug := sl;
                          toc_line := orElse line 0%Z |}])%list;
     col_codeBlocks := col_codeBlocks acc;
     col_links := col_links acc |}.

Definition pushCode (lang : option string) (line : option Z) (value : string)
           (acc : Collected) : Collected :=
  {| col_slugger := col_slugger acc;
     col_toc := col_toc acc;
     col_codeBlocks := (col_codeBlocks acc
                          ++ [{| cb_lang := lang; cb_line := orElse line 0%Z;
                                 cb_content := value |}])%list;
     col_links := col_links acc |}.

Definition pushLink (node : Node) (url : string) (acc : Collected) : Collected :=
  {| col_slugger := col_slugger acc;
     col_toc := col_toc acc;
     col_codeBlocks := col_codeBlocks acc;
     col_links := (col_links acc
                     ++ [{| link_text := toString node; link_href := url;
                            link_isInternal := isInternalHref url |}])%list |}.

(** Children first, then the node itself. *)
Fixpoint visit (node : Node) (acc : Collected) {struct node} : Collected :=
  let visitAll :=
    fix visitAll (children : list Node) (acc : Collected) {struct children}
      : Collected :=
      match children with
      | [] => acc
      | child :: rest => visitAll rest (visit child acc)
      end in
  match node with
  | heading depth line children => pushHeading node depth line (visitAll children acc)
  | code lang line value => pushCode lang line value acc
  | link url children => pushLink node url (visitAll children acc)
  | parent children => visitAll children acc
  | leaf _ => acc
  end.

Definition parseSkillMd (content : string) : Outcome ParsedSkill :=
  do parts <- matter content;
  let '(data, body) := parts in
  let frontmatter :=
    {| fm_name := orElse (data_name data) EmptyString;
       fm_description := orElse (data_description data) EmptyString;
       fm_license := data_license data;
       fm_version := data_version data;
       fm_author := data_author data;
       fm_metadata := data_metadata data |} in
  do tree <- remarkParse body;
  let collected := visit tree (mkCollected newSlugger [] [] []) in
  Ok {| frontmatter := frontmatter;
        body := body;
        toc := col_toc collected;
        codeBlocks := col_codeBlocks collected;
        links := col_links collected;
        files := {| files_scripts := []; files_references := [];
                    files_assets := [] |} |}.

End ParseSkillMd.

Definition createManifest (p : ParsedSkill) : SkillManifest :=
  {| m_name := fm_name (frontmatter p);
     m_description := fm_description (frontmatter p);
     m_license := fm_license (frontmatter p);
     m_version := fm_version (frontmatter p);
     m_author := fm_author (frontmatter p);
     m_toc := toc p;
     m_codeBlocks :=
       map (fun block =>
              {| cbp_lang := cb_lang block;
                 cbp_line := cb_line block;
                 preview := Js.slice (cb_content block) 0 100 |})
           (codeBlocks p);
     m_links := links p;
     m_files := files p |}.

End Parser.

(* ===================================================================== *)
(** * node:path, POSIX flavour *)

Module NodePath.

Definition sep : ascii := "/"%char.

Definition nonEmpty (s : string) : bool := negb (String.eqb s EmptyString).

(** One step of [normalizeString] on the segments seen so far, kept in
    reverse: a segment [..] removes the last kept segment unless that is
    itself [..] (or nothing is kept), in which case it is kept only when
    the path may climb above its root. *)
Definition pushSegment (allowAboveRoot : bool) (kept : list string) (seg : string)
  : list string :=
  if String.eqb seg EmptyString || String.eqb seg "." then kept
  else if String.eqb seg ".." then
    match kept with
    | top :: below =>
        if String.eqb top ".." then
          (if allowAboveRoot then seg :: kept else kept)
        else below
    | [] => if allowAboveRoot then [seg] else []
    end
  else seg :: kept.

(** [normalizeString(path, allowAboveRoot, '/', isPosixPathSeparator)]. *)
Definition normalizeString (path : string) (allowAboveRoot : bool) : string :=
  Js.join "/" (rev (fold_left (pushSegment allowAboveRoot) (Js.split sep path) [])).

Definition endsWithSlash (path : string) : bool :=
  match rev (list_ascii_of_string path) with
  | c :: _ => Ascii.eqb c sep
  | [] => false
  end.

Definition normalize (path : string) : string :=
  if String.eqb path EmptyString then "."
  else
    let isAbsolute := Js.startsWith path "/" in
    let trailingSeparator := endsWithSlash path in
    let p := normalizeString path (negb isAbsolute) in
    if String.eqb p EmptyString then
      (if isAbsolute then "/" else if trailingSeparator then "./" else ".")
    else
      let p' := if trailingSeparator then p ++ "/" else p in
      if isAbsolute then "/" ++ p' else p'.

Definition join (args : list string) : string :=
  match filter nonEmpty args with
  | [] => "."
  | parts => normalize (Js.join "/" parts)
  end.

(** The loop of [resolve]: [paths] are the arguments from the last to the
    first, followed by the working directory. *)
Fixpoint resolveLoop (paths : list string) (resolvedPath : string) : string * bool :=
  match paths with
  | [] => (resolvedPath, false)
  | path :: rest =>
      if String.eqb path EmptyString then resolveLoop rest resolvedPath
      else
        let resolvedPath' := path ++ "/" ++ resolvedPath in
        if Js.startsWith path "/" then (resolvedPath', true)
        else resolveLoop rest resolvedPath'
  end.

Definition resolve (cwd : string) (args : list string) : string :=
  let '(resolvedPath, resolvedAbsolute) := resolveLoop (rev args ++ [cwd])%list EmptyString in
  let p := normalizeString resolvedPath (negb resolvedAbsolute) in
  if resolvedAbsolute then "/" ++ p
  else if String.eqb p EmptyString then "." else p.

(** [basename(path)]: the last non-empty segment, or the empty string. *)
Definition basename (path : string) : string :=
  last (filter nonEmpty (Js.split sep path)) EmptyString.

(** Position of the last dot of a segment, if any. *)
Fixpoint lastDot (s : string) : option nat :=
  match s with
  | EmptyString => None
  | String c s' =>
      match lastDot s' with
      | Some i => Some (S i)
      | None => if Ascii.eqb c "."%char then Some 0 else None
      end
  end.

(** [extname(path)]: from the last dot of the last segment to its end;
    empty when there is no dot, when the only dot leads the segment, or
    when the segment is [..]. *)
Definition extname (path : string) : string :=
  let b := basename path in
  match lastDot b with
  | None => EmptyString
  | Some 0 => EmptyString
  | Some i =>
      if String.eqb b ".." then EmptyString
      else String.substring i (String.length b - i) b
  end.

(** Drop the separators at the front of a reversed path, but never its
    first character. *)
Fixpoint dropSlashes (r : list ascii) : list ascii :=
  match r with
  | c :: ((_ :: _) as r') => if Ascii.eqb c sep then dropSlashes r' else r
  | _ => r
  end.

(** Drop the last segment of a reversed path: everything up to and
    including the first separator that is not the path's first character;
    [None] when there is no such separator. *)
Fixpoint dropSegment (r : list ascii) : option (list ascii) :=
  match r with
  | c :: ((_ :: _) as r') => if Ascii.eqb c sep then Some r' else dropSegment r'
  | _ => None
  end.

Definition dirname (path : string) : string :=
  if String.eqb path EmptyString then "."
  else
    let hasRoot := Js.startsWith path "/" in
    match dropSegment (dropSlashes (rev (list_ascii_of_string path))) with
    | None => if hasRoot then "/" else "."
    | Some r =>
        if hasRoot && (List.length r =? 1)%nat then "//"
        else string_of_list_ascii (rev r)
    end.

End NodePath.

(* ===================================================================== *)
(** * The file system and the libraries, as the program sees them *)

Record Dirent : Type := mkDirent {
  dirent_name : string;
  dirent_isDirectory : bool
}.

(** What the program reads from disk.  [fs_parseSkillMd] is
    [Parser.parseSkillMd] with the libraries in place, which decide its
    result; it may throw. *)
Record FileSystem : Type := mkFileSystem {
  fs_access : string -> bool;
  fs_isDirectory : string -> Outcome bool;
  fs_readdir : string -> Outcome (list string);
  fs_readdirTyped : string -> Outcome (list Dirent);
  fs_readFile : string -> Outcome string;
  fs_parseSkillMd : string -> Outcome ParsedSkill
}.

(* ===================================================================== *)
(** * The registry: a JavaScript [Map], which keeps insertion order *)

Module JsMap.

Definition t (V : Type) : Type := list (string * V).

Fixpoint get {V : Type} (m : t V) (k : string) : option V :=
  match m with
  | [] => None
  | (k', v) :: rest => if String.eqb k' k then Some v else get rest k
  end.

(** [m.set(k, v)]: a present key keeps its place, a new key goes last. *)
Fixpoint set {V : Type} (m : t V) (k : string) (v : V) : t V :=
  match m with
  | [] => [(k, v)]
  | (k', v') :: rest =>
      if String.eqb k' k then (k', v) :: rest else (k', v') :: set rest k v
  end.

Fixpoint delete {V : Type} (m : t V) (k : string) : t V :=
  match m with
  | [] => []
  | (k', v') :: rest =>
      if String.eqb k' k then rest else (k', v') :: delete rest k
  end.

Definition values {V : Type} (m : t V) : list V := map snd m.

Definition keys {V : Type} (m : t V) : list string := map fst m.

End JsMap.

(* ===================================================================== *)
(** * parser.ts, the part that reads the disk *)

Module ParserIO.

Definition parseSkillFile (fs : FileSystem) (filePath : string) : Outcome ParsedSkill :=
  do content <- fs_readFile fs filePath;
  fs_parseSkillMd fs content.

Definition startsWithDot (f : string) : bool := Js.startsWith f ".".

(** One subdirectory of [listSkillFiles]; every failure leaves the list
    empty. *)
Definition listSubdir (fs : FileSystem) (skillDir subdir : string) : list string :=
  let dirPath := NodePath.join [skillDir; subdir] in
  match fs_isDirectory fs dirPath with
  | Ok true =>
      match fs_readdir fs dirPath with
      | Ok entries => filter (fun f => negb (startsWithDot f)) entries
      | Throw _ => []
      end
  | _ => []
  end.

Definition listSkillFiles (fs : FileSystem) (skillDir : string) : SkillFiles :=
  {| files_scripts := listSubdir fs skillDir "scripts";
     files_references := listSubdir fs skillDir "references";
     files_assets := listSubdir fs skillDir "assets" |}.

End ParserIO.

(* ===================================================================== *)
(** * discovery.ts *)

Module Discovery.

Inductive Event : Type :=
| SkillDiscovered (skill : DiscoveredSkill)
| SkillUpdated (skill : DiscoveredSkill) (previous : option DiscoveredSkill)
| SkillRemoved (name path : string)
| ErrorEvent (message : string).

(** A chokidar watcher: the object [chokidarWatch] returns, told apart by
    the order of creation, with the patterns it was given. *)
Record FSWatcher : Type := mkFSWatcher {
  watcher_id : nat;
  watcher_patterns : list string
}.

(** The fields of a [SkillDiscovery] object, the events it has emitted so
    far (oldest first) and its dealings with chokidar: how many watchers it
    has created and which of them it has closed. *)
Record State : Type := mkState {
  skills : JsMap.t DiscoveredSkill;
  watcher : option FSWatcher;
  searchPaths : list string;
  emitted : list Event;
  watchersCreated : nat;
  watchersClosed : list nat
}.

(** [this.emit(...)]: the event joins those emitted.  (Listeners are
    outside the object; one for [error] is taken to be registered, as the
    server does.) *)
Definition emit (st : State) (e : Event) : State :=
  {| skills := skills st; watcher := watcher st; searchPaths := searchPaths st;
     emitted := (emitted st ++ [e])%list;
     watchersCreated := watchersCreated st; watchersClosed := watchersClosed st |}.

Definition setSkill (st : State) (name : string) (skill : DiscoveredSkill) : State :=
  {| skills := JsMap.set (skills st) name skill;
     watcher := watcher st; searchPaths := searchPaths st; emitted := emitted st;
     watchersCreated := watchersCreated st; watchersClosed := watchersClosed st |}.

Definition deleteSkill (st : State) (name : string) : State :=
  {| skills := JsMap.delete (skills st) name;
     watcher := watcher st; searchPaths := searchPaths st; emitted := emitted st;
     watchersCreated := watchersCreated st; watchersClosed := watchersClosed st |}.

(** [new SkillDiscovery(customPaths)], the default search paths being
    computed from the environment of the process. *)
Definition create (defaultPaths customPaths : list string) : State :=
  {| skills := []; watcher := None;
     searchPaths := (defaultPaths ++ customPaths)%list;
     emitted := []; watchersCreated := 0; watchersClosed := [] |}.

Definition directoryExists (fs : FileSystem) (dirPath : string) : bool :=
  if fs_access fs dirPath then
    match fs_isDirectory fs dirPath with
    | Ok b => b
    | Throw _ => false
    end
  else false.

(** A string is truthy when it is not empty. *)
Definition truthy (s : string) : bool := negb (String.eqb s EmptyString).

Definition discoverSkillFromPath (fs : FileSystem) (st : State) (skillMdPath : string)
  : State * option DiscoveredSkill :=
  match ParserIO.parseSkillFile fs skillMdPath with
  | Ok p =>
      let skillDir := NodePath.dirname skillMdPath in
      let files' := ParserIO.listSkillFiles fs skillDir in
      let p' := {| frontmatter := frontmatter p; body := body p; toc := toc p;
                   codeBlocks := codeBlocks p; links := links p; files := files' |} in
      (st, Some {| skill_name := fm_name (frontmatter p');
                   skill_description := fm_description (frontmatter p');
                   skill_path := skillDir;
                   skillMdPath := skillMdPath;
                   parsed := Some p' |})
  | Throw message => (emit st (ErrorEvent message), None)
  end.

(** The body of the loop of [scanPath] for one directory entry. *)
Definition scanEntry (fs : FileSystem) (searchPath : string) (st : State) (entry : Dirent)
  : State :=
  if dirent_isDirectory entry then
    let skillMdPath := NodePath.join [searchPath; dirent_name entry; "SKILL.md"] in
    if fs_access fs skillMdPath then
      match discoverSkillFromPath fs st skillMdPath with
      | (st1, Some skill) =>
          if truthy (skill_name skill) then
            emit (setSkill st1 (skill_name skill) skill) (SkillDiscovered skill)
          else st1
      | (st1, None) => st1
      end
    else st
  else st.

Definition scanPath (fs : FileSystem) (st : State) (searchPath : string) : State :=
  if directoryExists fs searchPath then
    match fs_readdirTyped fs searchPath with
    | Ok entries => fold_left (scanEntry fs searchPath) entries st
    | Throw message => emit st (ErrorEvent message)
    end
  else st.

Definition scan (fs : FileSystem) (st : State) : State :=
  fold_left (scanPath fs) (searchPaths st) st.

Definition watch (st : State) : State :=
  match watcher st with
  | Some _ => st
  | None =>
      let patterns := map (fun p => NodePath.join [p; "*"; "SKILL.md"]) (searchPaths st) in
      {| skills := skills st;
         watcher := Some {| watcher_id := watchersCreated st;
                            watcher_patterns := patterns |};
         searchPaths := searchPaths st; emitted := emitted st;
         watchersCreated := S (watchersCreated st);
         watchersClosed := watchersClosed st |}
  end.

Definition onAdd (fs : FileSystem) (st : State) (filePath : string) : State :=
  match discoverSkillFromPath fs st filePath with
  | (st1, Some skill) =>
      if truthy (skill_name skill) then
        let previous := JsMap.get (skills st1) (skill_name skill) in
        let st2 := setSkill st1 (skill_name skill) skill in
        match previous with
        | Some _ => emit st2 (SkillUpdated skill previous)
        | None => emit st2 (SkillDiscovered skill)
        end
      else st1
  | (st1, None) => st1
  end.

Definition onChange (fs : FileSystem) (st : State) (filePath : string) : State :=
  match discoverSkillFromPath fs st filePath with
  | (st1, Some skill) =>
      if truthy (skill_name skill) then
        let previous := JsMap.get (skills st1) (skill_name skill) in
        emit (setSkill st1 (skill_name skill) skill) (SkillUpdated skill previous)
      else st1
  | (st1, None) => st1
  end.

(** The loop of the [unlink] handler over [this.skills.entries()]: the
    first entry whose manifest path is the deleted file, if any. *)
Fixpoint findByManifest (entries : list (string * DiscoveredSkill)) (filePath : string)
  : option (string * DiscoveredSkill) :=
  match entries with
  | [] => None
  | (name, skill) :: rest =>
      if String.eqb (skillMdPath skill) filePath then Some (name, skill)
      else findByManifest rest filePath
  end.

Definition onUnlink (st : State) (filePath : string) : State :=
  let skillDir := NodePath.dirname filePath in
  match findByManifest (skills st) filePath with
  | Some (name, _) => emit (deleteSkill st name) (SkillRemoved name skillDir)
  | None => st
  end.

Definition onError (st : State) (message : string) : State :=
  emit st (ErrorEvent message).

Definition close (st : State) : State :=
  match watcher st with
  | Some w =>
      {| skills := skills st; watcher := None;
         searchPaths := searchPaths st; emitted := emitted st;
         watchersCreated := watchersCreated st;
         watchersClosed := (watchersClosed st ++ [watcher_id w])%list |}
  | None => st
  end.

Definition getSkill (st : State) (name : string) : option DiscoveredSkill :=
  JsMap.get (skills st) name.

Definition getAllSkills (st : State) : list DiscoveredSkill :=
  JsMap.values (skills st).


Definition getSearchPaths (st : State) : list string := searchPaths st.

(** What chokidar reports to the handlers registered by [watch]. *)
Inductive WatchEvent : Type :=
| FileAdded (filePath : string)
| FileChanged (filePath : string)
| FileUnlinked (filePath : string)
| WatchError (message : string).

(** The handlers that [watch] registers on its watcher. *)
Definition dispatch (fs : FileSystem) (st : State) (e : WatchEvent) : State :=
  match e with
  | FileAdded f => onAdd fs st f
  | FileChanged f => onChange fs st f
  | FileUnlinked f => onUnlink st f
  | WatchError m => onError st m
  end.

(** A watcher calls the handlers while it is open; with no open watcher
    nothing is delivered. *)
Definition deliver (fs : FileSystem) (st : State) (e : WatchEvent) : State :=
  match watcher st with
  | None => st
  | Some _ => dispatch fs st e
  end.

(** What happens to a [SkillDiscovery] object, one call or one watcher
    report at a time; the file system may differ from step to step. *)
Inductive Op : Type :=
| DoScan (fs : FileSystem)
| DoWatch
| DoClose
| Report (fs : FileSystem) (e : WatchEvent).

Definition step (st : State) (op : Op) : State :=
  match op with
  | DoScan fs => scan fs st
  | DoWatch => watch st
  | DoClose => close st
  | Report fs e => deliver fs st e
  end.

Definition run (st : State) (ops : list Op) : State := fold_left step ops st.

End Discovery.

(* ===================================================================== *)
(** * resources.ts *)

Module Resources.

Inductive ResourceType : Type :=
| content | manifest | section | code | references | scripts | assets.

Definition typeName (t : ResourceType) : string :=
  match t with
  | content => "content" | manifest => "manifest" | section => "section"
  | code => "code" | references => "references" | scripts => "scripts"
  | assets => "assets"
  end.

Record ParsedSkillUri : Type := mkParsedSkillUri {
  uri_name : string;
  uri_type : ResourceType;
  uri_param : option string
}.

Definition scheme : string := "loadout://".

Definition parseSkillUri (uri : string) : option ParsedSkillUri :=
  if negb (Js.startsWith uri scheme) then None
  else
    let path := Js.slice uri (Z.of_nat (String.length scheme))
                         (Z.of_nat (String.length uri)) in
    let segments := filter (fun s => (0 <? String.length s)%nat) (Js.split "/" path) in
    if (List.length segments =? 0)%nat then None
    else
      let name := nth 0 segments EmptyString in
      if (List.length segments =? 1)%nat then
        Some {| uri_name := name; uri_type := content; uri_param := None |}
      else
        let resourceType := nth 1 segments EmptyString in
        if String.eqb resourceType "manifest" && (List.length segments =? 2)%nat then
          Some {| uri_name := name; uri_type := manifest; uri_param := None |}
        else if String.eqb resourceType "section" && (List.length segments =? 3)%nat then
          Some {| uri_name := name; uri_type := section;
                  uri_param := Some (nth 2 segments EmptyString) |}
        else if String.eqb resourceType "code" && (List.length segments =? 3)%nat then
          Some {| uri_name := name; uri_type := code;
                  uri_param := Some (nth 2 segments EmptyString) |}
        else if String.eqb resourceType "references" && (3 <=? List.length segments)%nat then
          Some {| uri_name := name; uri_type := references;
                  uri_param := Some (Js.join "/" (Js.arraySliceFrom segments 2)) |}
        else if String.eqb resourceType "scripts" && (3 <=? List.length segments)%nat then
          Some {| uri_name := name; uri_type := scripts;
                  uri_param := Some (Js.join "/" (Js.arraySliceFrom segments 2)) |}
        else if String.eqb resourceType "assets" && (3 <=? List.length segments)%nat then
          Some {| uri_name := name; uri_type := assets;
                  uri_param := Some (Js.join "/" (Js.arraySliceFrom segments 2)) |}
        else None.

(** The loop that looks for the end of a section: the first entry of the
    outline, in its order, that lies below [entry] and is not deeper. *)
Fixpoint sectionEnd (entry : TocEntry) (others : list TocEntry) (endLine : Z) : Z :=
  match others with
  | [] => endLine
  | otherEntry :: rest =>
      if ((toc_line entry <? toc_line otherEntry)
          && (toc_level otherEntry <=? toc_level entry))%Z
      then (toc_line otherEntry - 1)%Z
      else sectionEnd entry rest endLine
  end.

Definition extractSectionContent (body slug : string) (toc : list TocEntry)
  : option string :=
  match find (fun t => String.eqb (toc_slug t) slug) toc with
  | None => None
  | Some entry =>
      let lines := Js.split LF body in
      let startLine := (toc_line entry - 1)%Z in
      if ((startLine <? 0) || (Z.of_nat (List.length lines) <=? startLine))%Z then None
      else
        let endLine := sectionEnd entry toc (Z.of_nat (List.length lines)) in
        let sectionLines := Js.arraySlice lines startLine endLine in
        Some (Js.trim (Js.join nl sectionLines))
  end.

(** One entry of [contents] in a [ReadResourceResult]. *)
Record ResourceContents : Type := mkResourceContents {
  rc_uri : string;
  rc_mimeType : string;
  rc_text : string
}.

(** A value is falsy when it is absent or the empty string. *)
Definition falsy (o : option string) : bool :=
  match o with
  | None => true
  | Some s => String.eqb s EmptyString
  end.

Definition codeMimeType (lang : option string) : string :=
  if falsy lang then "text/plain"
  else "text/x-" ++ match lang with Some l => l | None => EmptyString end.

(** An entry of the list of resources. *)
Record Resource : Type := mkResource {
  res_uri : string;
  res_name : string;
  res_description : string;
  res_mimeType : string
}.

(** The double quote. *)
Definition quote : string := String (ascii_of_nat 34) EmptyString.

Section ReadResource.

(** The help text, the MIME table and the serializer of the manifest
    are used as they are. *)
Variable helpContent : string.
Variable guessMimeType : string -> string.
Variable stringify : SkillManifest -> string.
Variable fs : FileSystem.
Variable discovery : Discovery.State.

Definition readCode (uri : string) (name : string) (param : option string)
           (skill : DiscoveredSkill) : Outcome ResourceContents :=
  match parsed skill with
  | None => Throw ("Skill not parsed: " ++ name)
  | Some p =>
      if falsy param then Throw "Code block index required"
      else
        let paramText := match param with Some s => s | None => EmptyString end in
        let count := Z.of_nat (List.length (codeBlocks p)) in
        let invalid :=
          Throw ("Invalid code block index: " ++ paramText
                 ++ ". Valid range: 0-" ++ Js.numberToString (count - 1)) in
        match Js.parseInt paramText with
        | None => invalid
        | Some index =>
            if ((index <? 0) || (count <=? index))%Z then invalid
            else
              match nth_error (codeBlocks p) (Z.to_nat index) with
              | Some codeBlock =>
                  Ok {| rc_uri := uri;
                        rc_mimeType := codeMimeType (cb_lang codeBlock);
                        rc_text := cb_content codeBlock |}
              | None => invalid
              end
        end
  end.

Definition readFileResource (uri : string) (t : ResourceType) (param : option string)
           (skill : DiscoveredSkill) : Outcome ResourceContents :=
  if falsy param then Throw "File name required"
  else
    let paramText := match param with Some s => s | None => EmptyString end in
    let filePath := NodePath.join [skill_path skill; typeName t; paramText] in
    match fs_readFile fs filePath with
    | Ok text =>
        Ok {| rc_uri := uri; rc_mimeType := guessMimeType paramText; rc_text := text |}
    | Throw _ => Throw ("File not found: " ++ typeName t ++ "/" ++ paramText)
    end.

Definition readResource (uri : string) : Outcome ResourceContents :=
  if String.eqb uri "loadout://help" then
    Ok {| rc_uri := uri; rc_mimeType := "text/markdown"; rc_text := helpContent |}
  else
    match parseSkillUri uri with
    | None => Throw ("Invalid skill URI: " ++ uri)
    | Some u =>
        match Discovery.getSkill discovery (uri_name u) with
        | None => Throw ("Skill not found: " ++ uri_name u)
        | Some skill =>
            match uri_type u with
            | content =>
                do text <- fs_readFile fs (skillMdPath skill);
                Ok {| rc_uri := uri; rc_mimeType := "text/markdown"; rc_text := text |}
            | manifest =>
                match parsed skill with
                | None => Throw ("Skill not parsed: " ++ uri_name u)
                | Some p =>
                    Ok {| rc_uri := uri; rc_mimeType := "application/json";
                          rc_text := stringify (Parser.createManifest p) |}
                end
            | section =>
                match parsed skill with
                | None => Throw ("Skill not parsed: " ++ uri_name u)
                | Some p =>
                    if falsy (uri_param u) then Throw "Section slug required"
                    else
                      let slug := match uri_param u with
                                  | Some s => s | None => EmptyString end in
                      match extractSectionContent (body p) slug (toc p) with
                      | None => Throw ("Section not found: " ++ slug)
                      | Some text =>
                          Ok {| rc_uri := uri; rc_mimeType := "text/markdown";
                                rc_text := text |}
                      end
                end
            | code => readCode uri (uri_name u) (uri_param u) skill
            | references | scripts | assets =>
                readFileResource uri (uri_type u) (uri_param u) skill
            end
        end
    end.

(** The resources of one skill, in the order [listResources] pushes
    them. *)
Definition contentResource (skill : DiscoveredSkill) : Resource :=
  {| res_uri := "loadout://" ++ skill_name skill;
     res_name := skill_name skill ++ " - Full Content";
     res_description := skill_description skill;
     res_mimeType := "text/markdown" |}.

Definition manifestResource (skill : DiscoveredSkill) : Resource :=
  {| res_uri := "loadout://" ++ skill_name skill ++ "/manifest";
     res_name := skill_name skill ++ " - Manifest";
     res_description := "JSON manifest for " ++ skill_name skill ++ " skill";
     res_mimeType := "application/json" |}.

Definition sectionResource (name : string) (tocEntry : TocEntry) : Resource :=
  {| res_uri := "loadout://" ++ name ++ "/section/" ++ toc_slug tocEntry;
     res_name := name ++ " - Section: " ++ toc_text tocEntry;
     res_description :=
       "Section " ++ quote ++ toc_text tocEntry ++ quote ++ " from " ++ name ++ " skill";
     res_mimeType := "text/markdown" |}.

Definition codeResource (name : string) (i : nat) (block : CodeBlock) : Resource :=
  let index := Js.numberToString (Z.of_nat i) in
  let langInfo :=
    if falsy (cb_lang block) then EmptyString
    else " (" ++ match cb_lang block with Some l => l | None => EmptyString end ++ ")" in
  {| res_uri := "loadout://" ++ name ++ "/code/" ++ index;
     res_name := name ++ " - Code Block " ++ index ++ langInfo;
     res_description :=
       "Code block " ++ index ++ " from " ++ name ++ " skill at line "
       ++ Js.numberToString (cb_line block);
     res_mimeType := codeMimeType (cb_lang block) |}.

(** The loop over the code blocks, [i] being the index of the first. *)
Fixpoint codeResources (name : string) (i : nat) (blocks : list CodeBlock)
  : list Resource :=
  match blocks with
  | [] => []
  | block :: rest => codeResource name i block :: codeResources name (S i) rest
  end.

Definition fileResource (name : string) (t : ResourceType) (label : string)
           (file : string) : Resource :=
  {| res_uri := "loadout://" ++ name ++ "/" ++ typeName t ++ "/" ++ file;
     res_name := name ++ " - " ++ label ++ ": " ++ file;
     res_description :=
       label ++ " file " ++ quote ++ file ++ quote ++ " from " ++ name ++ " skill";
     res_mimeType := guessMimeType file |}.

Definition skillResources (skill : DiscoveredSkill) : list Resource :=
  let name := skill_name skill in
  (contentResource skill :: manifestResource skill
     :: match parsed skill with
        | None => []
        | Some p =>
            map (sectionResource name) (toc p)
            ++ codeResources name 0 (codeBlocks p)
            ++ map (fileResource name references "Reference") (files_references (files p))
            ++ map (fileResource name scripts "Script") (files_scripts (files p))
            ++ map (fileResource name assets "Asset") (files_assets (files p))
        end)%list.

Definition helpResource : Resource :=
  {| res_uri := "loadout://help";
     res_name := "Loadout Help";
     res_description := "Documentation for Loadout";
     res_mimeType := "text/markdown" |}.

Definition listResources : list Resource :=
  helpResource :: flat_map skillResources (Discovery.getAllSkills discovery).

End ReadResource.

End Resources.

(* ===================================================================== *)
(** * tools.ts *)

Module Tools.

Definition ALLOWED_EXTENSIONS : list string := [".sh"; ".js"; ".ts"; ".py"].

Definition DEFAULT_TIMEOUT_MS : Z := 30000.

Definition allowedExtension (ext : string) : bool :=
  existsb (String.eqb ext) ALLOWED_EXTENSIONS.

Record Validation : Type := mkValidation {
  valid : bool;
  error : option string;
  fullPath : option string
}.

Definition traversalError : string :=
  "Invalid script path: path traversal not allowed".

Definition outsideError : string :=
  "Invalid script path: must be within scripts directory".

(** [cwd] is the working directory of the process, which [resolve]
    consults when the scripts directory is relative. *)
Definition validateScriptPath (cwd scriptName skillPath : string) : Validation :=
  let normalizedScript := NodePath.normalize scriptName in
  if Js.includes normalizedScript ".."
     || Js.startsWith normalizedScript "/"
     || Js.includes normalizedScript "\"
  then {| valid := false; error := Some traversalError; fullPath := None |}
  else
    let ext := Js.toLowerCase (NodePath.extname scriptName) in
    if negb (allowedExtension ext) then
      {| valid := false;
         error := Some ("Invalid script extension: " ++ ext
                        ++ ". Allowed extensions: " ++ Js.join ", " ALLOWED_EXTENSIONS);
         fullPath := None |}
    else
      let scriptsDir := NodePath.join [skillPath; "scripts"] in
      let full := NodePath.resolve cwd [scriptsDir; NodePath.basename scriptName] in
      if negb (Js.startsWith full scriptsDir) then
        {| valid := false; error := Some outsideError; fullPath := None |}
      else {| valid := true; error := None; fullPath := Some full |}.

Definition getScriptCommand (scriptPath : string) : string * list string :=
  let ext := Js.toLowerCase (NodePath.extname scriptPath) in
  if String.eqb ext ".sh" then ("bash", [scriptPath])
  else if String.eqb ext ".js" then ("node", [scriptPath])
  else if String.eqb ext ".ts" then ("npx", ["tsx"; scriptPath])
  else if String.eqb ext ".py" then ("python3", [scriptPath])
  else ("bash", [scriptPath]).

Record ScriptResult : Type := mkScriptResult {
  stdout : string;
  stderr : string;
  exitCode : option Z
}.

Inductive Signal : Type := SIGTERM | SIGKILL.

(** What the event loop delivers to the callbacks that [executeScript]
    registers: output of the child, the two timers, and the [close] and
    [error] events of the child.  [delivered] is what [proc.kill] returns,
    which also becomes [proc.killed]. *)
Inductive ProcEvent : Type :=
| StdoutData (data : string)
| StderrData (data : string)
| TimeoutFired (delivered : bool)
| GraceFired (delivered : bool)
| Closed (code : option Z)
| Errored (message : string).

(** The variables of the closure of [executeScript]: the captured output,
    the [killed] flag, the child's own [killed] property, whether the two
    timers are pending, the signals sent, and the value the promise was
    resolved with, if it was. *)
Record Exec : Type := mkExec {
  x_stdout : string;
  x_stderr : string;
  x_killed : bool;
  x_procKilled : bool;
  x_timeoutPending : bool;
  x_gracePending : bool;
  x_signals : list Signal;
  x_resolved : option ScriptResult
}.

Definition started : Exec :=
  {| x_stdout := EmptyString; x_stderr := EmptyString; x_killed := false;
     x_procKilled := false; x_timeoutPending := true; x_gracePending := false;
     x_signals := []; x_resolved := None |}.

Definition timeoutMarker : string := nl ++ "[Script execution timed out]".

Definition errorMarker (message : string) : string :=
  nl ++ "[Script execution error: " ++ message ++ "]".

(** A promise keeps the first value it is resolved with. *)
Definition resolveWith (x : Exec) (r : ScriptResult) : option ScriptResult :=
  match x_resolved x with
  | Some r0 => Some r0
  | None => Some r
  end.

Definition handle (x : Exec) (e : ProcEvent) : Exec :=
  match e with
  | StdoutData data =>
      {| x_stdout := x_stdout x ++ data; x_stderr := x_stderr x;
         x_killed := x_killed x; x_procKilled := x_procKilled x;
         x_timeoutPending := x_timeoutPending x; x_gracePending := x_gracePending x;
         x_signals := x_signals x; x_resolved := x_resolved x |}
  | StderrData data =>
      {| x_stdout := x_stdout x; x_stderr := x_stderr x ++ data;
         x_killed := x_killed x; x_procKilled := x_procKilled x;
         x_timeoutPending := x_timeoutPending x; x_gracePending := x_gracePending x;
         x_signals := x_signals x; x_resolved := x_resolved x |}
  | TimeoutFired delivered =>
      if x_timeoutPending x then
        {| x_stdout := x_stdout x; x_stderr := x_stderr x;
           x_killed := true; x_procKilled := x_procKilled x || delivered;
           x_timeoutPending := false; x_gracePending := true;
           x_signals := (x_signals x ++ [SIGTERM])%list; x_resolved := x_resolved x |}
      else x
  | GraceFired delivered =>
      if x_gracePending x then
        if x_procKilled x then
          {| x_stdout := x_stdout x; x_stderr := x_stderr x;
             x_killed := x_killed x; x_procKilled := x_procKilled x;
             x_timeoutPending := x_timeoutPending x; x_gracePending := false;
             x_signals := x_signals x; x_resolved := x_resolved x |}
        else
          {| x_stdout := x_stdout x; x_stderr := x_stderr x;
             x_killed := x_killed x; x_procKilled := delivered;
             x_timeoutPending := x_timeoutPending x; x_gracePending := false;
             x_signals := (x_signals x ++ [SIGKILL])%list; x_resolved := x_resolved x |}
      else x
  | Closed c =>
      {| x_stdout := x_stdout x; x_stderr := x_stderr x;
         x_killed := x_killed x; x_procKilled := x_procKilled x;
         x_timeoutPending := false; x_gracePending := x_gracePending x;
         x_signals := x_signals x;
         x_resolved :=
           resolveWith x
             (if x_killed x then
                {| stdout := x_stdout x; stderr := x_stderr x ++ timeoutMarker;
                   exitCode := None |}
              else
                {| stdout := x_stdout x; stderr := x_stderr x; exitCode := c |}) |}
  | Errored message =>
      {| x_stdout := x_stdout x; x_stderr := x_stderr x;
         x_killed := x_killed x; x_procKilled := x_procKilled x;
         x_timeoutPending := false; x_gracePending := x_gracePending x;
         x_signals := x_signals x;
         x_resolved :=
           resolveWith x
             {| stdout := x_stdout x; stderr := x_stderr x ++ errorMarker message;
                exitCode := None |} |}
  end.

(** [executeScript], given what the child and the timers do after the
    spawn: the value of the promise, [None] while it is pending. *)
Definition executeScript (events : list ProcEvent) : option ScriptResult :=
  x_resolved (fold_left handle events started).

(** A call of [spawn]. *)
Record Spawn : Type := mkSpawn {
  spawn_command : string;
  spawn_args : list string;
  spawn_cwd : string;
  spawn_timeout : Z
}.

Inductive ToolResult : Type :=
| errorResult (message : string)
| successResult (result : ScriptResult)
| pendingResult.

(** The operating system, as [run_skill_script] meets it: the working
    directory, which files can be accessed, and what a spawned child and
    the timers deliver. *)
Record System : Type := mkSystem {
  sys_cwd : string;
  sys_access : string -> bool;
  sys_events : Spawn -> list ProcEvent
}.

(** [run_skill_script] after its input has passed the schema: the result
    and the processes spawned on the way. *)
Definition run_skill_script (sys : System) (discovery : Discovery.State)
           (allowScripts : bool) (scriptTimeout : Z)
           (skillName script : string) (scriptArgs : list string)
  : ToolResult * list Spawn :=
  if negb allowScripts then
    (errorResult "Script execution is disabled. Enable with --allow-scripts flag.", [])
  else
    match Discovery.getSkill discovery skillName with
    | None => (errorResult ("Skill not found: " ++ skillName), [])
    | Some skill =>
        let validation := validateScriptPath (sys_cwd sys) script (skill_path skill) in
        if negb (valid validation) then
          (errorResult (match error validation with Some e => e | None => EmptyString end),
           [])
        else
          let scriptPath :=
            match fullPath validation with Some p => p | None => EmptyString end in
          if negb (sys_access sys scriptPath) then
            (errorResult ("Script not found: " ++ script), [])
          else
            let '(command, cmdArgs) := getScriptCommand scriptPath in
            let sp := {| spawn_command := command;
                         spawn_args := (cmdArgs ++ scriptArgs)%list;
                         spawn_cwd := skill_path skill;
                         spawn_timeout := scriptTimeout |} in
            match executeScript (sys_events sys sp) with
            | Some result => (successResult result, [sp])
            | None => (pendingResult, [sp])
            end
    end.

End Tools.

(* ===================================================================== *)
(** * Notions of the design document *)

(** The first [n] characters of a text, all of it when it is shorter. *)
Fixpoint firstChars (n : nat) (s : string) : string :=
  match n, s with
  | S n', String c s' => String c (firstChars n' s')
  | _, _ => EmptyString
  end.

(** The segments of a path: what lies between the separators, empty
    segments discarded. *)
Definition pathSegments (path : string) : list string :=
  filter (fun s => negb (String.eqb s EmptyString)) (Js.split "/" path).

(** The parsing rule of the addressing scheme, read off its table: the
    first segment is the skill name; the second selects the kind of
    resource and fixes how many segments may follow. *)
Definition uriShape (segments : list string) : option Resources.ParsedSkillUri :=
  match segments with
  | [] => None
  | [name] => Some (Resources.mkParsedSkillUri name Resources.content None)
  | name :: kind :: params =>
      if String.eqb kind "manifest" then
        match params with
        | [] => Some (Resources.mkParsedSkillUri name Resources.manifest None)
        | _ => None
        end
      else if String.eqb kind "section" then
        match params with
        | [slug] => Some (Resources.mkParsedSkillUri name Resources.section (Some slug))
        | _ => None
        end
      else if String.eqb kind "code" then
        match params with
        | [index] => Some (Resources.mkParsedSkillUri name Resources.code (Some index))
        | _ => None
        end
      else if String.eqb kind "references" then
        match params with
        | [] => None
        | _ => Some (Resources.mkParsedSkillUri name Resources.references
                       (Some (Js.join "/" params)))
        end
      else if String.eqb kind "scripts" then
        match params with
        | [] => None
        | _ => Some (Resources.mkParsedSkillUri name Resources.scripts
                       (Some (Js.join "/" params)))
        end
      else if String.eqb kind "assets" then
        match params with
        | [] => None
        | _ => Some (Resources.mkParsedSkillUri name Resources.assets
                       (Some (Js.join "/" params)))
        end
      else None
  end.

(** What follows a prefix of a text, when the text starts with it. *)
Fixpoint stripPrefix (p s : string) : option string :=
  match p, s with
  | EmptyString, _ => Some s
  | String a p', String b s' => if Ascii.eqb a b then stripPrefix p' s' else None
  | String _ _, EmptyString => None
  end.












(** The records announced as discovered, oldest first. *)
Fixpoint discoveredOf (events : list Discovery.Event) : list DiscoveredSkill :=
  match events with
  | [] => []
  | Discovery.SkillDiscovered skill :: rest => skill :: discoveredOf rest
  | _ :: rest => discoveredOf rest
  end.

(** The events a scan may emit. *)
Definition scanEvent (e : Discovery.Event) : bool :=
  match e with
  | Discovery.SkillDiscovered _ | Discovery.ErrorEvent _ => true
  | Discovery.SkillUpdated _ _ | Discovery.SkillRemoved _ _ => false
  end.

(** Filing a record under its name. *)
Definition insertRecord (m : JsMap.t DiscoveredSkill) (skill : DiscoveredSkill)
  : JsMap.t DiscoveredSkill :=
  JsMap.set m (skill_name skill) skill.

(** A record as [discoverSkillFromPath] builds it. *)
Definition builtRecord (skill : DiscoveredSkill) : Prop :=
  skill_path skill = NodePath.dirname (skillMdPath skill).

(** What a scan may do to the state: add events, all of them discoveries or
    errors, and file one record per discovery, in the order of the events. *)
Definition scanned (st st' : Discovery.State) : Prop :=
  exists new,
    Discovery.emitted st' = (Discovery.emitted st ++ new)%list
    /\ forallb scanEvent new = true
    /\ Forall builtRecord (discoveredOf new)
    /\ Discovery.skills st'
       = fold_left insertRecord (discoveredOf new) (Discovery.skills st)
    /\ Discovery.watcher st' = Discovery.watcher st
    /\ Discovery.searchPaths st' = Discovery.searchPaths st
    /\ Discovery.watchersCreated st' = Discovery.watchersCreated st
    /\ Discovery.watchersClosed st' = Discovery.watchersClosed st.

(** Steps that leave the watcher and the search paths alone. *)
Definition sameWatcher (st st' : Discovery.State) : Prop :=
  Discovery.watcher st' = Discovery.watcher st
  /\ Discovery.searchPaths st' = Discovery.searchPaths st
  /\ Discovery.watchersCreated st' = Discovery.watchersCreated st
  /\ Discovery.watchersClosed st' = Discovery.watchersClosed st.

(* --------------------------------------------------------------------- *)
(** ** Sample data *)

(** A registry holding one skill [foo] with two code blocks. *)
Definition fooDocument : ParsedSkill :=
  {| frontmatter := mkFrontmatter "foo" "demo" None None None None;
     body := "## Installation" ++ nl ++ "npm install" ++ nl ++ "## Usage" ++ nl ++ "run it";
     toc := [mkTocEntry 2 "Installation" "installation" 1;
             mkTocEntry 2 "Usage" "usage" 3];
     codeBlocks := [mkCodeBlock (Some "bash") 2 "npm install";
                    mkCodeBlock None 4 "run it"];
     links := [];
     files := mkSkillFiles [] [] [] |}.

Definition fooSkill : DiscoveredSkill :=
  {| skill_name := "foo"; skill_description := "demo";
     skill_path := "/skills/foo"; skillMdPath := "/skills/foo/SKILL.md";
     parsed := Some fooDocument |}.

Definition fooDiscovery : Discovery.State :=
  {| Discovery.skills := [("foo", fooSkill)]; Discovery.watcher := None;
     Discovery.searchPaths := ["/skills"]; Discovery.emitted := [];
     Discovery.watchersCreated := 0; Discovery.watchersClosed := [] |}.

Definition emptyDisk : FileSystem :=
  {| fs_access := fun _ => false;
     fs_isDirectory := fun _ => Throw "ENOENT";
     fs_readdir := fun _ => Throw "ENOENT";
     fs_readdirTyped := fun _ => Throw "ENOENT";
     fs_readFile := fun _ => Throw "ENOENT";
     fs_parseSkillMd := fun _ => Throw "no parser" |}.

(** A disk with one search root [/skills] holding the skill [foo]. *)
Definition fooDisk : FileSystem :=
  {| fs_access := fun p => String.eqb p "/skills" || String.eqb p "/skills/foo/SKILL.md";
     fs_isDirectory := fun p => if String.eqb p "/skills" then Ok true else Throw "ENOENT";
     fs_readdir := fun _ => Throw "ENOENT";
     fs_readdirTyped := fun p => if String.eqb p "/skills" then Ok [mkDirent "foo" true]
                                 else Throw "ENOENT";
     fs_readFile := fun p => if String.eqb p "/skills/foo/SKILL.md" then Ok "text"
                             else Throw "ENOENT";
     fs_parseSkillMd := fun _ => Ok fooDocument |}.

(* --------------------------------------------------------------------- *)
(** ** The course of a script *)







(* --------------------------------------------------------------------- *)
(** ** Script names *)

(** A name that is one segment of a path: not empty, not [.] or [..], and
    free of separators. *)
Definition plainName (b : string) : Prop :=
  b <> EmptyString /\ b <> "." /\ b <> ".." /\ Js.split "/" b = [b].

(** The segments [normalizeString] keeps: not empty, not [.], free of
    separators. *)
Definition properSegment (s : string) : Prop :=
  s <> EmptyString /\ s <> "." /\ Js.split NodePath.sep s = [s].

(** The entry [name] of the directory [dir], for a resolved [dir]. *)
Definition childOf (dir name : string) : string :=
  if String.eqb dir "/" then "/" ++ name
  else if String.eqb dir "." then name
  else dir ++ "/" ++ name.

(** A refusal of [validateScriptPath]. *)
Definition refusal (reason : string) : Tools.Validation :=
  Tools.mkValidation false (Some reason) None.

(** A disk and a system on which the script [run.sh] of [foo] exists and
    exits with code 0 after printing a line. *)
Definition fooSystem : Tools.System :=
  {| Tools.sys_cwd := "/";
     Tools.sys_access := fun p => String.eqb p "/skills/foo/scripts/run.sh";
     Tools.sys_events := fun _ => [Tools.StdoutData "done"; Tools.Closed (Some 0%Z)] |}.

(* --------------------------------------------------------------------- *)
(** ** Links and the markdown tree *)

(** A path into one of the three folders of a skill. *)
Definition inSkillFolder (href : string) : bool :=
  String.prefix "references/" href || String.prefix "scripts/" href
  || String.prefix "assets/" href.

(** A path without one leading [./]. *)
Definition withoutDotSlash (href : string) : string :=
  match stripPrefix "./" href with
  | Some rest => rest
  | None => href
  end.

(** Induction on the markdown tree, the children of a node being covered
    by the hypothesis. *)
Fixpoint Node_induction (P : Parser.Node -> Prop)
  (Hheading : forall depth line children,
      Forall P children -> P (Parser.heading depth line children))
  (Hcode : forall lang line value, P (Parser.code lang line value))
  (Hlink : forall url children, Forall P children -> P (Parser.link url children))
  (Hparent : forall children, Forall P children -> P (Parser.parent children))
  (Hleaf : forall value, P (Parser.leaf value))
  (node : Parser.Node) {struct node} : P node :=
  let all := fix all (children : list Parser.Node) : Forall P children :=
    match children with
    | [] => Forall_nil P
    | child :: rest =>
        Forall_cons child
          (Node_induction P Hheading Hcode Hlink Hparent Hleaf child) (all rest)
    end in
  match node with
  | Parser.heading depth line children => Hheading depth line children (all children)
  | Parser.code lang line value => Hcode lang line value
  | Parser.link url children => Hlink url children (all children)
  | Parser.parent children => Hparent children (all children)
  | Parser.leaf value => Hleaf value
  end.

(** The code blocks of a tree, children before their parent. *)
Fixpoint codesOf (node : Parser.Node) : list CodeBlock :=
  let all := fix all (children : list Parser.Node) : list CodeBlock :=
    match children with
    | [] => []
    | child :: rest => (codesOf child ++ all rest)%list
    end in
  match node with
  | Parser.heading _ _ children => all children
  | Parser.code lang line value => [mkCodeBlock lang (Parser.orElse line 0%Z) value]
  | Parser.link _ children => all children
  | Parser.parent children => all children
  | Parser.leaf _ => []
  end.

(** The headings of a tree, children before their parent: level, text as
    the library renders it, and line. *)
Fixpoint headingsOf (toString : Parser.Node -> string) (node : Parser.Node)
  : list (Z * string * Z) :=
  let all := fix all (children : list Parser.Node) : list (Z * string * Z) :=
    match children with
    | [] => []
    | child :: rest => (headingsOf toString child ++ all rest)%list
    end in
  match node with
  | Parser.heading depth line children =>
      (all children ++ [(depth, toString node, Parser.orElse line 0%Z)])%list
  | Parser.code _ _ _ => []
  | Parser.link _ children => all children
  | Parser.parent children => all children
  | Parser.leaf _ => []
  end.

(** The links of a tree, children before their parent. *)
Fixpoint linksOf (toString : Parser.Node -> string) (node : Parser.Node) : list Link :=
  let all := fix all (children : list Parser.Node) : list Link :=
    match children with
    | [] => []
    | child :: rest => (linksOf toString child ++ all rest)%list
    end in
  match node with
  | Parser.heading _ _ children => all children
  | Parser.code _ _ _ => []
  | Parser.link url children =>
      (all children ++ [mkLink (toString node) url (Parser.isInternalHref url)])%list
  | Parser.parent children => all children
  | Parser.leaf _ => []
  end.

(** Slugging headings one after the other with the same slugger. *)
Fixpoint slugged {Slugger : Type} (slug : Slugger -> string -> string * Slugger)
         (slugger : Slugger) (headings : list (Z * string * Z))
  : list TocEntry * Slugger :=
  match headings with
  | [] => ([], slugger)
  | (level, text, line) :: rest =>
      let '(sl, slugger') := slug slugger text in
      let '(entries, final) := slugged slug slugger' rest in
      (mkTocEntry level text sl line :: entries, final)
  end.

(** The loop of [visit] over the children of a node. *)
Definition visitChildren {Slugger : Type} (toString : Parser.Node -> string)
           (slug : Slugger -> string -> string * Slugger)
  : list Parser.Node -> Parser.Collected Slugger -> Parser.Collected Slugger :=
  fix visitAll children acc :=
    match children with
    | [] => acc
    | child :: rest => visitAll rest (Parser.visit toString Slugger slug child acc)
    end.

(** What a node adds to the three arrays and how it leaves the slugger:
    its code blocks, its links, and its headings slugged in order. *)
Definition collects {Slugger : Type} (toString : Parser.Node -> string)
           (slug : Slugger -> string -> string * Slugger) (node : Parser.Node) : Prop :=
  forall acc : Parser.Collected Slugger,
    let r := Parser.visit toString Slugger slug node acc in
    let s := slugged slug (Parser.col_slugger Slugger acc) (headingsOf toString node) in
    Parser.col_codeBlocks Slugger r
    = (Parser.col_codeBlocks Slugger acc ++ codesOf node)%list
    /\ Parser.col_links Slugger r
       = (Parser.col_links Slugger acc ++ linksOf toString node)%list
    /\ Parser.col_toc Slugger r = (Parser.col_toc Slugger acc ++ fst s)%list
    /\ Parser.col_slugger Slugger r = snd s.

(* --------------------------------------------------------------------- *)
(** ** More on the registry *)

Definition noDotFiles (names : list string) : Prop :=
  Forall (fun f => Js.startsWith f "." = false) names.

(** What holds of every record the registry ever holds: it is filed under
    its own name, which is not empty; it is parsed, and its name and
    description are those of its front matter; its directory is the one of
    its manifest file; and its file lists hold no hidden entries. *)
Definition goodRecord (entry : string * DiscoveredSkill) : Prop :=
  let skill := snd entry in
  fst entry = skill_name skill
  /\ skill_name skill <> EmptyString
  /\ skill_path skill = NodePath.dirname (skillMdPath skill)
  /\ exists p,
      parsed skill = Some p
      /\ fm_name (frontmatter p) = skill_name skill
      /\ fm_description (frontmatter p) = skill_description skill
      /\ noDotFiles (files_scripts (files p))
      /\ noDotFiles (files_references (files p))
      /\ noDotFiles (files_assets (files p)).

Definition allGood (st : Discovery.State) : Prop :=
  Forall goodRecord (Discovery.skills st).

(** The state with nothing in it. *)
Definition emptyState : Discovery.State := Discovery.create [] [].

(** The events of a scan, as the disk decides them: entry by entry, root by
    root. *)
Definition entryEvents (fs : FileSystem) (searchPath : string) (entry : Dirent)
  : list Discovery.Event :=
  Discovery.emitted (Discovery.scanEntry fs searchPath emptyState entry).

Definition pathEvents (fs : FileSystem) (searchPath : string) : list Discovery.Event :=
  if Discovery.directoryExists fs searchPath then
    match fs_readdirTyped fs searchPath with
    | Ok entries => flat_map (entryEvents fs searchPath) entries
    | Throw message => [Discovery.ErrorEvent message]
    end
  else [].

Definition scanEvents (fs : FileSystem) (searchPaths : list string)
  : list Discovery.Event :=
  flat_map (pathEvents fs) searchPaths.

(** A state after more events: they join the emitted ones, and each
    discovery among them files its record. *)
Definition applyEvents (events : list Discovery.Event) (st : Discovery.State)
  : Discovery.State :=
  {| Discovery.skills := fold_left insertRecord (discoveredOf events) (Discovery.skills st);
     Discovery.watcher := Discovery.watcher st;
     Discovery.searchPaths := Discovery.searchPaths st;
     Discovery.emitted := (Discovery.emitted st ++ events)%list;
     Discovery.watchersCreated := Discovery.watchersCreated st;
     Discovery.watchersClosed := Discovery.watchersClosed st |}.

(** The last record of a list that bears a name. *)
Definition lastNamed (name : string) (records : list DiscoveredSkill)
  : option DiscoveredSkill :=
  find (fun s => String.eqb (skill_name s) name) (rev records).

(** The reports of a watcher that delete. *)
Definition isUnlink (op : Discovery.Op) : bool :=
  match op with
  | Discovery.Report _ (Discovery.FileUnlinked _) => true
  | _ => false
  end.

(** The books of the watchers: they are closed in the order of their
    creation, and the open one, if any, is the latest and watches the
    manifest files below the search paths. *)
Definition watcherBooks (st : Discovery.State) : Prop :=
  Discovery.watchersClosed st = seq 0 (List.length (Discovery.watchersClosed st))
  /\ match Discovery.watcher st with
     | Some w =>
         Discovery.watcher_id w = List.length (Discovery.watchersClosed st)
         /\ Discovery.watchersCreated st = S (List.length (Discovery.watchersClosed st))
         /\ Discovery.watcher_patterns w
            = map (fun p => NodePath.join [p; "*"; "SKILL.md"]) (Discovery.searchPaths st)
     | None => Discovery.watchersCreated st = List.length (Discovery.watchersClosed st)
     end.

(* --------------------------------------------------------------------- *)
(** ** Sample libraries *)

(** A tree with a heading, a code block, and a link inside a paragraph. *)
Definition sampleTree : Parser.Node :=
  Parser.parent
    [Parser.heading 1 (Some 1%Z) [Parser.leaf "Title"];
     Parser.code (Some "sh") (Some 3%Z) "ls";
     Parser.parent [Parser.link "./scripts/run.sh" [Parser.leaf "run"]]].

(** The text of a node: that of its leaves. *)
Fixpoint sampleToString (node : Parser.Node) : string :=
  let all := fix all (children : list Parser.Node) : string :=
    match children with
    | [] => EmptyString
    | child :: rest => sampleToString child ++ all rest
    end in
  match node with
  | Parser.heading _ _ children => all children
  | Parser.code _ _ value => value
  | Parser.link _ children => all children
  | Parser.parent children => all children
  | Parser.leaf value => value
  end.

(** Libraries that read no front matter, parse every body to the sample
    tree and slug a text by itself, counting the slugs given. *)
Definition sampleMatter (content : string) : Outcome (Parser.MatterData * string) :=
  Ok (Parser.mkMatterData None None None None None None, content).

Definition sampleParse (_ : string) : Outcome Parser.Node := Ok sampleTree.

Definition sampleSlug (given : nat) (text : string) : string * nat := (text, S given).

(* --------------------------------------------------------------------- *)
(** ** More on scripts *)


(** The interpreter of an extension and the arguments in front of the
    caller's. *)
Definition interpreter (ext scriptPath : string) : option (string * list string) :=
  if String.eqb ext ".sh" then Some ("bash", [scriptPath])
  else if String.eqb ext ".js" then Some ("node", [scriptPath])
  else if String.eqb ext ".ts" then Some ("npx", ["tsx"; scriptPath])
  else if String.eqb ext ".py" then Some ("python3", [scriptPath])
  else None.



(* --------------------------------------------------------------------- *)
(** ** More on resources *)

(** A segment of the path of a URI: not empty and free of separators. *)
Definition uriSegment (s : string) : Prop :=
  s <> EmptyString /\ Js.split "/" s = [s].

(** The files of a kind of resource, and the label [listResources] gives
    the kind. *)
Definition filesOf (t : Resources.ResourceType) (fl : SkillFiles) : list string :=
  match t with
  | Resources.references => files_references fl
  | Resources.scripts => files_scripts fl
  | Resources.assets => files_assets fl
  | _ => []
  end.

Definition labelOf (t : Resources.ResourceType) : string :=
  match t with
  | Resources.references => "Reference"
  | Resources.scripts => "Script"
  | Resources.assets => "Asset"
  | _ => EmptyString
  end.

Definition fileKind (t : Resources.ResourceType) : Prop :=
  t = Resources.references \/ t = Resources.scripts \/ t = Resources.assets.

(** What the reading of the file at [path] answers to [uri]. *)
Definition fileAnswer (guessMimeType : string -> string) (fs : FileSystem)
           (uri : string) (t : Resources.ResourceType) (param path : string)
  : Outcome Resources.ResourceContents :=
  match fs_readFile fs path with
  | Ok text => Ok (Resources.mkResourceContents uri (guessMimeType param) text)
  | Throw _ => Throw ("File not found: " ++ Resources.typeName t ++ "/" ++ param)
  end.

(** Every entry of the outline points at a line of the body. *)
Definition outlineInBody (p : ParsedSkill) : Prop :=
  Forall (fun e => (1 <= toc_line e <= Z.of_nat (List.length (Js.split LF (body p))))%Z)
         (toc p).

(** A registry holding one skill [bar] with a script and a reference, and
    a disk with its files. *)
Definition barSkill : DiscoveredSkill :=
  {| skill_name := "bar"; skill_description := "files";
     skill_path := "/skills/bar"; skillMdPath := "/skills/bar/SKILL.md";
     parsed :=
       Some {| frontmatter := mkFrontmatter "bar" "files" None None None None;
               body := "text"; toc := []; codeBlocks := []; links := [];
               files := mkSkillFiles ["run.sh"] ["guide.md"] [] |} |}.

Definition barDiscovery : Discovery.State :=
  {| Discovery.skills := [("bar", barSkill)]; Discovery.watcher := None;
     Discovery.searchPaths := ["/skills"]; Discovery.emitted := [];
     Discovery.watchersCreated := 0; Discovery.watchersClosed := [] |}.

Definition barDisk : FileSystem :=
  {| fs_access := fun _ => true;
     fs_isDirectory := fun _ => Throw "ENOENT";
     fs_readdir := fun _ => Throw "ENOENT";
     fs_readdirTyped := fun _ => Throw "ENOENT";
     fs_readFile := fun p =>
       if String.eqb p "/skills/bar/references/guide.md" then Ok "guide"
       else if String.eqb p "/skills/bar/SKILL.md" then Ok "manifest file"
       else Throw "ENOENT";
     fs_parseSkillMd := fun _ => Throw "no parser" |}.

(* ===================================================================== *)
(** * Facts about strings and arrays *)

Section StringFacts.

Lemma substring_0_firstChars (n : nat) (s : string) :
  String.substring 0 n s = firstChars n s.
Proof.
  revert n; induction s as [|c s IH]; intros [|n]; simpl; try reflexivity.
  now rewrite IH.
Qed.

Lemma firstChars_length (n : nat) (s : string) :
  String.length (firstChars n s) = Nat.min n (String.length s).
Proof.
  revert n; induction s as [|c s IH]; intros [|n]; simpl; try reflexivity.
  now rewrite IH.
Qed.

Lemma firstChars_prefix (n : nat) (s : string) :
  String.prefix (firstChars n s) s = true.
Proof.
  revert n; induction s as [|c s IH]; intros [|n]; simpl; try reflexivity.
  destruct (ascii_dec c c) as [_|Hne]; [apply IH | now elim Hne].
Qed.

Lemma firstChars_all (n : nat) (s : string) :
  String.length s <= n -> firstChars n s = s.
Proof.
  revert n; induction s as [|c s IH]; intros [|n] Hle; simpl in *;
    try reflexivity; try lia.
  f_equal; apply IH; lia.
Qed.

Lemma firstChars_min (n : nat) (s : string) :
  firstChars (Nat.min n (String.length s)) s = firstChars n s.
Proof.
  revert n; induction s as [|c s IH]; intros [|n]; simpl; try reflexivity.
  now rewrite IH.
Qed.

(** [s.slice(0, n)] is the first [n] characters. *)
Lemma slice_0_firstChars (s : string) (n : nat) :
  Js.slice s 0 (Z.of_nat n) = firstChars n s.
Proof.
  unfold Js.slice, Js.clampIndex.
  replace (0 <? 0)%Z with false by reflexivity.
  replace (Z.of_nat n <? 0)%Z with false by (symmetry; apply Z.ltb_ge; lia).
  rewrite Z.min_l by lia. simpl Z.to_nat.
  rewrite substring_0_firstChars.
  replace (Z.to_nat (Z.max (Z.min (Z.of_nat n) (Z.of_nat (String.length s)) - 0) 0))
    with (Nat.min n (String.length s)) by lia.
  apply firstChars_min.
Qed.

Lemma prefix_append (p s : string) : String.prefix p (p ++ s) = true.
Proof.
  induction p as [|c p IH]; simpl; [now destruct s|].
  destruct (ascii_dec c c) as [_|Hne]; [exact IH | now elim Hne].
Qed.

Lemma substring_drop (p s : string) :
  String.substring (String.length p) (String.length s) (p ++ s) = s.
Proof.
  induction p as [|c p IH]; simpl; [|exact IH].
  rewrite substring_0_firstChars. apply firstChars_all. lia.
Qed.

Lemma append_length (p s : string) :
  String.length (p ++ s) = String.length p + String.length s.
Proof. induction p as [|c p IH]; simpl; [reflexivity | now rewrite IH]. Qed.

(** [(p + s).slice(p.length)] is [s]. *)
Lemma slice_drop_prefix (p s : string) :
  Js.slice (p ++ s) (Z.of_nat (String.length p)) (Z.of_nat (String.length (p ++ s))) = s.
Proof.
  unfold Js.slice, Js.clampIndex. rewrite append_length.
  replace (Z.of_nat (String.length p) <? 0)%Z with false
    by (symmetry; apply Z.ltb_ge; lia).
  replace (Z.of_nat (String.length p + String.length s) <? 0)%Z with false
    by (symmetry; apply Z.ltb_ge; lia).
  rewrite Z.min_l by lia. rewrite Z.min_id.
  replace (Z.to_nat (Z.max (Z.of_nat (String.length p + String.length s)
                            - Z.of_nat (String.length p)) 0))
    with (String.length s) by lia.
  rewrite Nat2Z.id. apply substring_drop.
Qed.

Lemma length_pos_nonempty (s : string) :
  (0 <? String.length s)%nat = negb (String.eqb s EmptyString).
Proof. now destruct s. Qed.

(** [a.slice(n)] drops the first [n] elements. *)
Lemma arraySliceFrom_skipn {A : Type} (a : list A) (n : nat) :
  Js.arraySliceFrom a (Z.of_nat n) = skipn n a.
Proof.
  unfold Js.arraySliceFrom, Js.arraySlice, Js.clampIndex.
  replace (Z.of_nat n <? 0)%Z with false by (symmetry; apply Z.ltb_ge; lia).
  replace (Z.of_nat (List.length a) <? 0)%Z with false
    by (symmetry; apply Z.ltb_ge; lia).
  rewrite Z.min_id.
  destruct (Nat.le_gt_cases n (List.length a)) as [Hle|Hgt].
  - rewrite Z.min_l by lia. rewrite Nat2Z.id.
    apply firstn_all2. rewrite length_skipn. lia.
  - rewrite Z.min_r by lia. rewrite Nat2Z.id.
    rewrite (skipn_all2 a (n := n)) by lia.
    rewrite skipn_all. now rewrite firstn_nil.
Qed.

End StringFacts.

(* ===================================================================== *)
(** * The manifest parser *)

Section ParseSkillMdFacts.

Variable matter : string -> Outcome (Parser.MatterData * string).
Variable remarkParse : string -> Outcome Parser.Node.
Variable toString : Parser.Node -> string.
Variable Slugger : Type.
Variable newSlugger : Slugger.
Variable slug : Slugger -> string -> string * Slugger.

Local Abbreviation parseSkillMd :=
  (Parser.parseSkillMd matter remarkParse toString Slugger newSlugger slug).

(** [parseSkillMd] returns exactly when the two parsing libraries do: it
    catches nothing and throws nothing of its own. *)
Lemma parseSkillMd_returns (content : string) :
  (exists p, parseSkillMd content = Ok p)
  <-> (exists data body tree,
          matter content = Ok (data, body) /\ remarkParse body = Ok tree).
Proof.
  unfold Parser.parseSkillMd, bindOutcome. split.
  - intros [p H]. destruct (matter content) as [[data body]|m]; [|discriminate H].
    destruct (remarkParse body) as [tree|m] eqn:Et; [|discriminate H].
    exists data, body, tree. split; [reflexivity | exact Et].
  - intros [data [body [tree [Hm Ht]]]]. rewrite Hm, Ht. eauto.
Qed.

(** Missing front-matter fields become empty texts, and the body is the
    text gray-matter leaves after the front matter. *)
Lemma parseSkillMd_defaults (content rest : string) (data : Parser.MatterData)
      (p : ParsedSkill) :
  matter content = Ok (data, rest) ->
  parseSkillMd content = Ok p ->
  fm_name (frontmatter p) = Parser.orElse (Parser.data_name data) EmptyString
  /\ fm_description (frontmatter p)
     = Parser.orElse (Parser.data_description data) EmptyString
  /\ body p = rest
  /\ files p = mkSkillFiles [] [] [].
Proof.
  unfold Parser.parseSkillMd, bindOutcome. intros Hm. rewrite Hm.
  destruct (remarkParse rest) as [tree|m]; [|discriminate].
  intros H; inversion H; subst. now repeat split.
Qed.

End ParseSkillMdFacts.

(* ===================================================================== *)
(** * The manifest's previews *)

(** C7.  For every parsed document and every index, the manifest has an
    entry at that index exactly when the document has a code block there,
    and the entry's preview is the block's content cut to its first 100
    characters: a prefix of the content, never longer than 100 characters,
    and shorter than that exactly when the content is. *)
Theorem createManifest_preview_is_truncated_content (p : ParsedSkill) (i : nat) :
  match nth_error (codeBlocks p) i,
        nth_error (m_codeBlocks (Parser.createManifest p)) i with
  | Some block, Some entry =>
      preview entry = firstChars 100 (cb_content block)
      /\ String.prefix (preview entry) (cb_content block) = true
      /\ String.length (preview entry) <= 100
      /\ (String.length (preview entry) < 100 <-> String.length (cb_content block) < 100)
      /\ (String.length (cb_content block) <= 100 -> preview entry = cb_content block)
      /\ cbp_lang entry = cb_lang block
      /\ cbp_line entry = cb_line block
  | None, None => True
  | _, _ => False
  end.
Proof.
  unfold Parser.createManifest; simpl.
  rewrite nth_error_map.
  destruct (nth_error (codeBlocks p) i) as [block|]; simpl; [|exact I].
  change 100%Z with (Z.of_nat 100).
  rewrite slice_0_firstChars.
  repeat split.
  - apply firstChars_prefix.
  - rewrite firstChars_length; lia.
  - rewrite firstChars_length; lia.
  - rewrite firstChars_length; lia.
  - apply firstChars_all.
Qed.

(* ===================================================================== *)
(** * The URI parser *)

Section ParseSkillUri.

Lemma stripPrefix_Some (p s r : string) :
  stripPrefix p s = Some r -> s = p ++ r.
Proof.
  revert s; induction p as [|a p IH]; intros s H; simpl in *.
  - now inversion H.
  - destruct s as [|b s]; [discriminate|].
    destruct (Ascii.eqb_spec a b) as [->|]; [|discriminate].
    now rewrite (IH _ H).
Qed.

Lemma stripPrefix_None (p s : string) :
  stripPrefix p s = None -> String.prefix p s = false.
Proof.
  revert s; induction p as [|a p IH]; intros s H; simpl in H |- *.
  - discriminate.
  - destruct s as [|b s]; [reflexivity|].
    simpl. destruct (ascii_dec a b) as [Heq|Hne]; [|reflexivity].
    subst b. rewrite Ascii.eqb_refl in H. now apply IH.
Qed.

(** The chain of tests on the array of segments computes the shape. *)
Lemma segments_shape (segments : list string) :
  (if (List.length segments =? 0)%nat then None
   else
     let name := nth 0 segments EmptyString in
     if (List.length segments =? 1)%nat then
       Some (Resources.mkParsedSkillUri name Resources.content None)
     else
       let resourceType := nth 1 segments EmptyString in
       if String.eqb resourceType "manifest" && (List.length segments =? 2)%nat then
         Some (Resources.mkParsedSkillUri name Resources.manifest None)
       else if String.eqb resourceType "section" && (List.length segments =? 3)%nat then
         Some (Resources.mkParsedSkillUri name Resources.section
                 (Some (nth 2 segments EmptyString)))
       else if String.eqb resourceType "code" && (List.length segments =? 3)%nat then
         Some (Resources.mkParsedSkillUri name Resources.code
                 (Some (nth 2 segments EmptyString)))
       else if String.eqb resourceType "references" && (3 <=? List.length segments)%nat then
         Some (Resources.mkParsedSkillUri name Resources.references
                 (Some (Js.join "/" (Js.arraySliceFrom segments 2))))
       else if String.eqb resourceType "scripts" && (3 <=? List.length segments)%nat then
         Some (Resources.mkParsedSkillUri name Resources.scripts
                 (Some (Js.join "/" (Js.arraySliceFrom segments 2))))
       else if String.eqb resourceType "assets" && (3 <=? List.length segments)%nat then
         Some (Resources.mkParsedSkillUri name Resources.assets
                 (Some (Js.join "/" (Js.arraySliceFrom segments 2))))
       else None)
  = uriShape segments.
Proof.
  change 2%Z with (Z.of_nat 2). rewrite arraySliceFrom_skipn.
  destruct segments as [|name [|kind params]]; try reflexivity.
  cbn [List.length Nat.eqb nth skipn uriShape].
  destruct (String.eqb kind "manifest") eqn:Em.
  { apply String.eqb_eq in Em; subst kind.
    destruct params as [|a [|b l]]; reflexivity. }
  destruct (String.eqb kind "section") eqn:Es.
  { apply String.eqb_eq in Es; subst kind.
    destruct params as [|a [|b l]]; reflexivity. }
  destruct (String.eqb kind "code") eqn:Ec.
  { apply String.eqb_eq in Ec; subst kind.
    destruct params as [|a [|b l]]; reflexivity. }
  destruct (String.eqb kind "references") eqn:Er.
  { apply String.eqb_eq in Er; subst kind.
    destruct params as [|a l]; reflexivity. }
  destruct (String.eqb kind "scripts") eqn:Ep.
  { apply String.eqb_eq in Ep; subst kind.
    destruct params as [|a l]; reflexivity. }
  destruct (String.eqb kind "assets") eqn:Ea.
  { apply String.eqb_eq in Ea; subst kind.
    destruct params as [|a l]; reflexivity. }
  reflexivity.
Qed.

Lemma parseSkillUri_of_path (path : string) :
  Resources.parseSkillUri (Resources.scheme ++ path) = uriShape (pathSegments path).
Proof.
  unfold Resources.parseSkillUri, Js.startsWith.
  rewrite prefix_append. cbn [negb].
  rewrite slice_drop_prefix.
  rewrite (filter_ext _ _ length_pos_nonempty).
  apply segments_shape.
Qed.

Lemma parseSkillUri_other_scheme (uri : string) :
  Js.startsWith uri Resources.scheme = false -> Resources.parseSkillUri uri = None.
Proof. unfold Resources.parseSkillUri. now intros ->. Qed.

End ParseSkillUri.

(** C3.  For every URI, the parser takes what follows the scheme, splits it
    on the separator, discards the empty segments and answers by the shape
    of what remains: content for a lone skill name, manifest when nothing
    follows [manifest], section or code when exactly one segment follows,
    a file under references, scripts or assets when at least one segment
    follows (joined back with the separator), and no result for every other
    shape and for a text that does not start with the scheme. *)
Theorem parseSkillUri_follows_the_shape (uri : string) :
  Resources.parseSkillUri uri =
  match stripPrefix Resources.scheme uri with
  | Some path => uriShape (pathSegments path)
  | None => None
  end.
Proof.
  destruct (stripPrefix Resources.scheme uri) as [path|] eqn:E.
  - rewrite (stripPrefix_Some _ _ _ E). apply parseSkillUri_of_path.
  - apply parseSkillUri_other_scheme. now apply stripPrefix_None.
Qed.

(** The shapes at work on the URIs of the unit tests. *)
Example parseSkillUri_examples :
  Resources.parseSkillUri "loadout://my-skill"
    = Some (Resources.mkParsedSkillUri "my-skill" Resources.content None)
  /\ Resources.parseSkillUri "loadout://my-skill/manifest/extra" = None
  /\ Resources.parseSkillUri "loadout://my-skill/section" = None
  /\ Resources.parseSkillUri "loadout://my-skill/references/docs/api/v2.md"
    = Some (Resources.mkParsedSkillUri "my-skill" Resources.references
              (Some "docs/api/v2.md"))
  /\ Resources.parseSkillUri "loadout:///" = None
  /\ Resources.parseSkillUri "http://example.com" = None
  /\ Resources.parseSkillUri "loadout://my-skill//code//5/"
    = Some (Resources.mkParsedSkillUri "my-skill" Resources.code (Some "5")).
Proof. repeat split; reflexivity. Qed.

(* ===================================================================== *)
(** * Code blocks by index *)

Section ReadCode.

Variable helpContent : string.
Variable guessMimeType : string -> string.
Variable stringify : SkillManifest -> string.
Variable fs : FileSystem.
Variable discovery : Discovery.State.

Lemma pathSegments_nonEmpty (path seg : string) :
  In seg (pathSegments path) -> seg <> EmptyString.
Proof.
  unfold pathSegments. intros H. apply filter_In in H. destruct H as [_ H].
  intros ->. discriminate H.
Qed.

(** Only the shape [name/code/index] yields a code request. *)
Lemma uriShape_code (segments : list string) (name param : string) :
  uriShape segments
    = Some (Resources.mkParsedSkillUri name Resources.code (Some param)) ->
  segments = [name; "code"; param].
Proof.
  destruct segments as [|n [|kind params]]; cbn [uriShape]; try discriminate.
  destruct (String.eqb kind "manifest") eqn:Em.
  { destruct params; discriminate. }
  destruct (String.eqb kind "section") eqn:Es.
  { destruct params as [|a [|b l]]; discriminate. }
  destruct (String.eqb kind "code") eqn:Ec.
  { apply String.eqb_eq in Ec; subst kind.
    destruct params as [|a [|b l]]; try discriminate.
    intros H; now inversion H. }
  destruct (String.eqb kind "references"); [destruct params; discriminate|].
  destruct (String.eqb kind "scripts"); [destruct params; discriminate|].
  destruct (String.eqb kind "assets"); [destruct params; discriminate|].
  discriminate.
Qed.

Lemma parseSkillUri_code_param (uri name param : string) :
  Resources.parseSkillUri uri
    = Some (Resources.mkParsedSkillUri name Resources.code (Some param)) ->
  param <> EmptyString /\ uri <> "loadout://help".
Proof.
  intros H. split.
  - destruct (stripPrefix Resources.scheme uri) as [path|] eqn:E.
    + rewrite (stripPrefix_Some _ _ _ E), parseSkillUri_of_path in H.
      apply uriShape_code in H.
      apply (pathSegments_nonEmpty path). rewrite H. simpl; auto.
    + rewrite parseSkillUri_other_scheme in H by now apply stripPrefix_None.
      discriminate.
  - intros ->. vm_compute in H. discriminate.
Qed.

Lemma falsy_Some (s : string) :
  s <> EmptyString -> Resources.falsy (Some s) = false.
Proof. intros H. simpl. now apply String.eqb_neq. Qed.

(** C6.  For a registered, parsed skill with [n] code blocks, a code
    request whose parameter does not parse as an integer from 0 to n-1
    fails, and the failure names the parameter and the range 0-(n-1). *)
Theorem readResource_code_out_of_range
  (uri name param : string) (skill : DiscoveredSkill) (p : ParsedSkill) :
  Resources.parseSkillUri uri
    = Some (Resources.mkParsedSkillUri name Resources.code (Some param)) ->
  Discovery.getSkill discovery name = Some skill ->
  parsed skill = Some p ->
  (forall index, Js.parseInt param = Some index ->
                 (index < 0 \/ Z.of_nat (List.length (codeBlocks p)) <= index)%Z) ->
  Resources.readResource helpContent guessMimeType stringify fs discovery uri
  = Throw ("Invalid code block index: " ++ param ++ ". Valid range: 0-"
           ++ Js.numberToString (Z.of_nat (List.length (codeBlocks p)) - 1)).
Proof.
  intros Huri Hskill Hparsed Hrange.
  destruct (parseSkillUri_code_param _ _ _ Huri) as [Hparam Hhelp].
  unfold Resources.readResource.
  apply String.eqb_neq in Hhelp. rewrite Hhelp, Huri.
  cbn [Resources.uri_name Resources.uri_type Resources.uri_param].
  rewrite Hskill. unfold Resources.readCode. rewrite Hparsed.
  rewrite (falsy_Some _ Hparam).
  destruct (Js.parseInt param) as [index|] eqn:Eint; [|reflexivity].
  destruct (Hrange index eq_refl) as [Hneg|Hbig].
  - apply Z.ltb_lt in Hneg. now rewrite Hneg.
  - apply Z.leb_le in Hbig. rewrite Hbig. now rewrite orb_true_r.
Qed.

(** A parameter that parses as an index in range yields that block. *)
Lemma readResource_code_in_range
  (uri name param : string) (skill : DiscoveredSkill) (p : ParsedSkill)
  (index : nat) (block : CodeBlock) :
  Resources.parseSkillUri uri
    = Some (Resources.mkParsedSkillUri name Resources.code (Some param)) ->
  Discovery.getSkill discovery name = Some skill ->
  parsed skill = Some p ->
  Js.parseInt param = Some (Z.of_nat index) ->
  nth_error (codeBlocks p) index = Some block ->
  Resources.readResource helpContent guessMimeType stringify fs discovery uri
  = Ok (Resources.mkResourceContents uri (Resources.codeMimeType (cb_lang block))
          (cb_content block)).
Proof.
  intros Huri Hskill Hparsed Hint Hnth.
  destruct (parseSkillUri_code_param _ _ _ Huri) as [Hparam Hhelp].
  unfold Resources.readResource.
  apply String.eqb_neq in Hhelp. rewrite Hhelp, Huri.
  cbn [Resources.uri_name Resources.uri_type Resources.uri_param].
  rewrite Hskill. unfold Resources.readCode. rewrite Hparsed.
  rewrite (falsy_Some _ Hparam), Hint.
  assert (Hlt : index < List.length (codeBlocks p))
    by (apply nth_error_Some; now rewrite Hnth).
  replace (Z.of_nat index <? 0)%Z with false by (symmetry; apply Z.ltb_ge; lia).
  replace (Z.of_nat (List.length (codeBlocks p)) <=? Z.of_nat index)%Z with false
    by (symmetry; apply Z.leb_gt; lia).
  cbn [orb]. now rewrite Nat2Z.id, Hnth.
Qed.

End ReadCode.

(** The scenario of the design document: code block 5 of a skill that has
    two is refused, and the refusal names the range 0-1. *)
Lemma readResource_code_out_of_range_witness :
  Resources.readResource "help" (fun _ => "text/plain") (fun _ => "{}")
                         emptyDisk fooDiscovery "loadout://foo/code/5"
  = Throw "Invalid code block index: 5. Valid range: 0-1".
Proof.
  apply (readResource_code_out_of_range "help" (fun _ => "text/plain") (fun _ => "{}")
           emptyDisk fooDiscovery "loadout://foo/code/5" "foo" "5" fooSkill fooDocument).
  - reflexivity.
  - reflexivity.
  - reflexivity.
  - intros index H. vm_compute in H. inversion H. right. vm_compute. discriminate.
Defined.

(* ===================================================================== *)
(** * Section extraction *)

Section Trim.





Lemma snoc_inj (s t : string) (c d : ascii) :
  s ++ String c EmptyString = t ++ String d EmptyString -> s = t /\ c = d.
Proof.
  revert t; induction s as [|a s IH]; intros [|b t] H; simpl in H.
  - now inversion H.
  - inversion H as [[Ha Ht]]. destruct t; discriminate.
  - inversion H as [[Ha Hs]]. destruct s; discriminate.
  - inversion H as [[Ha Hs]]. destruct (IH _ Hs) as [-> ->]. now split.
Qed.



End Trim.

Section Slices.





End Slices.




(* ===================================================================== *)
(** * The registry *)

Section MapFacts.

Context {V : Type}.
Implicit Types (m : JsMap.t V) (k : string) (v : V).

Lemma get_set_same m k v : JsMap.get (JsMap.set m k v) k = Some v.
Proof.
  induction m as [|[k' v'] m IH]; simpl.
  - now rewrite String.eqb_refl.
  - destruct (String.eqb_spec k' k) as [->|Hne]; simpl.
    + now rewrite String.eqb_refl.
    + apply String.eqb_neq in Hne. now rewrite Hne.
Qed.

Lemma get_set_other m k k' v :
  k <> k' -> JsMap.get (JsMap.set m k v) k' = JsMap.get m k'.
Proof.
  intros Hne. induction m as [|[k0 v0] m IH]; simpl.
  - apply String.eqb_neq in Hne. now rewrite Hne.
  - destruct (String.eqb_spec k0 k) as [->|Hk]; simpl.
    + apply String.eqb_neq in Hne. now rewrite Hne.
    + now rewrite IH.
Qed.

Lemma get_None_keys m k : JsMap.get m k = None <-> ~ In k (JsMap.keys m).
Proof.
  induction m as [|[k0 v0] m IH]; simpl.
  - tauto.
  - destruct (String.eqb_spec k0 k) as [->|Hk].
    + split; [discriminate | intros H; elim H; now left].
    + rewrite IH. tauto.
Qed.

Lemma keys_set m k v :
  JsMap.keys (JsMap.set m k v)
  = if in_dec string_dec k (JsMap.keys m) then JsMap.keys m
    else (JsMap.keys m ++ [k])%list.
Proof.
  induction m as [|[k0 v0] m IH]; simpl; [reflexivity|].
  destruct (String.eqb_spec k0 k) as [->|Hk]; simpl.
  - destruct (string_dec k k) as [He|Hn]; [reflexivity | now elim Hn].
  - rewrite IH. destruct (string_dec k0 k) as [He|Hn]; [now elim Hk|].
    now destruct (in_dec string_dec k (JsMap.keys m)).
Qed.


Lemma set_Forall (P : string * V -> Prop) m k v :
  Forall P m -> P (k, v) -> Forall P (JsMap.set m k v).
Proof.
  intros Hm Hkv. induction Hm as [|[k0 v0] m H0 Hm IH]; simpl.
  - now constructor.
  - destruct (String.eqb_spec k0 k) as [->|Hk]; now constructor.
Qed.



Lemma delete_Forall (P : string * V -> Prop) m k :
  Forall P m -> Forall P (JsMap.delete m k).
Proof.
  intros Hm. induction Hm as [|[k0 v0] m H0 Hm IH]; simpl; [constructor|].
  destruct (String.eqb_spec k0 k); [exact Hm | now constructor].
Qed.




End MapFacts.

Section Unlink.



End Unlink.


(* ===================================================================== *)
(** * Scanning *)

Section Scan.

Variable fs : FileSystem.

Lemma discover_Some (st st1 : Discovery.State) (path : string) (skill : DiscoveredSkill) :
  Discovery.discoverSkillFromPath fs st path = (st1, Some skill) ->
  st1 = st /\ builtRecord skill /\ skillMdPath skill = path.
Proof.
  unfold Discovery.discoverSkillFromPath.
  destruct (ParserIO.parseSkillFile fs path) as [p|message]; intros H; inversion H.
  now repeat split.
Qed.

Lemma discover_None (st st1 : Discovery.State) (path : string) :
  Discovery.discoverSkillFromPath fs st path = (st1, None) ->
  exists message, st1 = Discovery.emit st (Discovery.ErrorEvent message).
Proof.
  unfold Discovery.discoverSkillFromPath.
  destruct (ParserIO.parseSkillFile fs path) as [p|message]; intros H; inversion H.
  now exists message.
Qed.

Lemma discoveredOf_app (a b : list Discovery.Event) :
  discoveredOf (a ++ b) = (discoveredOf a ++ discoveredOf b)%list.
Proof.
  induction a as [|e a IH]; simpl; [reflexivity|].
  destruct e; simpl; now rewrite IH.
Qed.

Lemma scanned_refl (st : Discovery.State) : scanned st st.
Proof.
  exists []. rewrite app_nil_r. repeat split. constructor.
Qed.

Lemma scanned_trans (a b c : Discovery.State) :
  scanned a b -> scanned b c -> scanned a c.
Proof.
  intros [n1 [He1 [Hs1 [Hb1 [Hk1 [Hw1 [Hp1 [Hc1 Hd1]]]]]]]]
         [n2 [He2 [Hs2 [Hb2 [Hk2 [Hw2 [Hp2 [Hc2 Hd2]]]]]]]].
  exists (n1 ++ n2)%list.
  rewrite He2, He1, app_assoc, forallb_app, Hs1, Hs2, discoveredOf_app, fold_left_app.
  rewrite <- Hk1, <- Hk2.
  repeat split; try congruence.
  apply Forall_app; now split.
Qed.

Lemma scanned_error (st : Discovery.State) (message : string) :
  scanned st (Discovery.emit st (Discovery.ErrorEvent message)).
Proof.
  exists [Discovery.ErrorEvent message]. repeat split. constructor.
Qed.

Lemma scanned_insert (st : Discovery.State) (skill : DiscoveredSkill) :
  builtRecord skill ->
  scanned st (Discovery.emit (Discovery.setSkill st (skill_name skill) skill)
                             (Discovery.SkillDiscovered skill)).
Proof.
  intros Hb. exists [Discovery.SkillDiscovered skill]. repeat split.
  now repeat constructor.
Qed.

Lemma scanEntry_scanned (searchPath : string) (st : Discovery.State) (entry : Dirent) :
  scanned st (Discovery.scanEntry fs searchPath st entry).
Proof.
  unfold Discovery.scanEntry.
  destruct (dirent_isDirectory entry); [|apply scanned_refl].
  destruct (fs_access fs _); [|apply scanned_refl].
  destruct (Discovery.discoverSkillFromPath fs st _) as [st1 [skill|]] eqn:E.
  - destruct (discover_Some _ _ _ _ E) as [-> [Hb _]].
    destruct (Discovery.truthy (skill_name skill));
      [now apply scanned_insert | apply scanned_refl].
  - destruct (discover_None _ _ _ E) as [message ->]. apply scanned_error.
Qed.

Lemma fold_scanned {A : Type} (f : Discovery.State -> A -> Discovery.State) (l : list A) :
  (forall st x, scanned st (f st x)) ->
  forall st, scanned st (fold_left f l st).
Proof.
  intros Hf. induction l as [|x l IH]; intros st; simpl.
  - apply scanned_refl.
  - eapply scanned_trans; [apply Hf | apply IH].
Qed.

Lemma scanPath_scanned (st : Discovery.State) (searchPath : string) :
  scanned st (Discovery.scanPath fs st searchPath).
Proof.
  unfold Discovery.scanPath.
  destruct (Discovery.directoryExists fs searchPath); [|apply scanned_refl].
  destruct (fs_readdirTyped fs searchPath) as [entries|message].
  - apply fold_scanned. intros; apply scanEntry_scanned.
  - apply scanned_error.
Qed.

Lemma scan_scanned (st : Discovery.State) : scanned st (Discovery.scan fs st).
Proof. apply fold_scanned. intros; apply scanPath_scanned. Qed.

End Scan.

(** C9.  A scan files one record per discovery it announces and announces
    nothing but discoveries and errors, so it never announces an update.
    In the loop of the scan a record with a name is filed and announced as
    discovered whether or not its name was in the registry before.  The
    handlers of the watcher are the ones that announce updates: on
    creation when the name was present (with the previous record), on
    modification always. *)
Theorem scan_announces_discoveries_only (fs : FileSystem) (st : Discovery.State) :
  (exists new,
      Discovery.emitted (Discovery.scan fs st) = (Discovery.emitted st ++ new)%list
      /\ forallb scanEvent new = true
      /\ Discovery.skills (Discovery.scan fs st)
         = fold_left insertRecord (discoveredOf new) (Discovery.skills st))
  /\ (forall searchPath entry skill,
         dirent_isDirectory entry = true ->
         fs_access fs (NodePath.join [searchPath; dirent_name entry; "SKILL.md"]) = true ->
         Discovery.discoverSkillFromPath fs st
           (NodePath.join [searchPath; dirent_name entry; "SKILL.md"]) = (st, Some skill) ->
         skill_name skill <> EmptyString ->
         Discovery.scanEntry fs searchPath st entry
         = Discovery.emit (Discovery.setSkill st (skill_name skill) skill)
                          (Discovery.SkillDiscovered skill))
  /\ (forall filePath skill,
         Discovery.discoverSkillFromPath fs st filePath = (st, Some skill) ->
         skill_name skill <> EmptyString ->
         Discovery.onChange fs st filePath
         = Discovery.emit (Discovery.setSkill st (skill_name skill) skill)
             (Discovery.SkillUpdated skill (Discovery.getSkill st (skill_name skill)))
         /\ Discovery.onAdd fs st filePath
            = Discovery.emit (Discovery.setSkill st (skill_name skill) skill)
                (match Discovery.getSkill st (skill_name skill) with
                 | Some previous => Discovery.SkillUpdated skill (Some previous)
                 | None => Discovery.SkillDiscovered skill
                 end)).
Proof.
  split; [|split].
  - destruct (scan_scanned fs st) as [new [He [Hs [_ [Hk _]]]]].
    exists new. now repeat split.
  - intros searchPath entry skill Hdir Hacc Hdisc Hname.
    unfold Discovery.scanEntry. rewrite Hdir, Hacc, Hdisc.
    unfold Discovery.truthy. apply String.eqb_neq in Hname. now rewrite Hname.
  - intros filePath skill Hdisc Hname. apply String.eqb_neq in Hname.
    unfold Discovery.onChange, Discovery.onAdd, Discovery.truthy, Discovery.getSkill.
    rewrite Hdisc, Hname. cbn [negb].
    split; [reflexivity|].
    now destruct (JsMap.get (Discovery.skills st) (skill_name skill)).
Qed.

(** Scanning the disk that holds [foo] when [foo] is registered already:
    the record is replaced and announced as discovered. *)
Lemma scan_announces_discoveries_only_witness :
  exists skill,
    Discovery.getSkill fooDiscovery "foo" = Some fooSkill
    /\ Discovery.emitted (Discovery.scan fooDisk fooDiscovery)
       = [Discovery.SkillDiscovered skill]
    /\ Discovery.getSkill (Discovery.scan fooDisk fooDiscovery) "foo" = Some skill
    /\ Discovery.scanEntry fooDisk "/skills" fooDiscovery (mkDirent "foo" true)
       = Discovery.emit (Discovery.setSkill fooDiscovery "foo" skill)
                        (Discovery.SkillDiscovered skill).
Proof.
  exists fooSkill. split; [reflexivity|]. split; [reflexivity|]. split; [reflexivity|].
  apply (proj1 (proj2 (scan_announces_discoveries_only fooDisk fooDiscovery))
           "/skills" (mkDirent "foo" true) fooSkill).
  - reflexivity.
  - reflexivity.
  - reflexivity.
  - discriminate.
Defined.

(* ===================================================================== *)
(** * Reachable states *)

Section Reachable.




Lemma scanned_sameWatcher (st st' : Discovery.State) : scanned st st' -> sameWatcher st st'.
Proof. intros [new [_ [_ [_ [_ H]]]]]. exact H. Qed.

Lemma dispatch_sameWatcher (fs : FileSystem) (st : Discovery.State)
      (e : Discovery.WatchEvent) :
  sameWatcher st (Discovery.dispatch fs st e).
Proof.
  destruct e as [f|f|f|m]; cbn [Discovery.dispatch].
  - unfold Discovery.onAdd.
    destruct (Discovery.discoverSkillFromPath fs st f) as [st1 [skill|]] eqn:E.
    + destruct (discover_Some _ _ _ _ _ E) as [-> _].
      destruct (Discovery.truthy _); [|now repeat split].
      destruct (JsMap.get _ _); now repeat split.
    + destruct (discover_None _ _ _ _ E) as [message ->]. now repeat split.
  - unfold Discovery.onChange.
    destruct (Discovery.discoverSkillFromPath fs st f) as [st1 [skill|]] eqn:E.
    + destruct (discover_Some _ _ _ _ _ E) as [-> _].
      destruct (Discovery.truthy _); now repeat split.
    + destruct (discover_None _ _ _ _ E) as [message ->]. now repeat split.
  - unfold Discovery.onUnlink.
    destruct (Discovery.findByManifest _ _) as [[name skill]|]; now repeat split.
  - now repeat split.
Qed.








End Reachable.





(* ===================================================================== *)
(** * Script execution *)

Section Execute.

Lemma string_append_assoc (a b c : string) : (a ++ b) ++ c = a ++ (b ++ c).
Proof. induction a as [|x a IH]; simpl; [reflexivity | now rewrite IH]. Qed.








End Execute.


(** The three outcomes on sample runs: a child that outlives the timeout,
    one that exits with code 3 in time, and one that cannot be spawned. *)
Example executeScript_examples :
  Tools.executeScript [Tools.StderrData "late"; Tools.TimeoutFired true; Tools.Closed None]
  = Some (Tools.mkScriptResult "" ("late" ++ nl ++ "[Script execution timed out]") None)
  /\ Tools.executeScript [Tools.StdoutData "ok"; Tools.StderrData "warn";
                          Tools.Closed (Some 3%Z)]
     = Some (Tools.mkScriptResult "ok" "warn" (Some 3%Z))
  /\ Tools.executeScript [Tools.Errored "spawn bash ENOENT"; Tools.Closed (Some (-2)%Z)]
     = Some (Tools.mkScriptResult ""
               (nl ++ "[Script execution error: spawn bash ENOENT]") None).
Proof. repeat split; reflexivity. Qed.

(* ===================================================================== *)
(** * Paths *)

Section PathFacts.

Lemma split_not_nil (sep : ascii) (s : string) : Js.split sep s <> [].
Proof.
  induction s as [|c s IH]; simpl; [discriminate|].
  destruct (Ascii.eqb c sep); [discriminate|].
  destruct (Js.split sep s); [now elim IH | discriminate].
Qed.

Lemma split_app_sep (sep : ascii) (s t : string) :
  Js.split sep (s ++ String sep t) = (Js.split sep s ++ Js.split sep t)%list.
Proof.
  induction s as [|c s IH]; simpl.
  - now rewrite Ascii.eqb_refl.
  - destruct (Ascii.eqb c sep); [now rewrite IH|].
    rewrite IH. destruct (Js.split sep s) as [|seg rest] eqn:E; [|reflexivity].
    now elim (split_not_nil sep s).
Qed.

(** A text without separators is its own single segment, and the
    segments of a text are such texts. *)
Lemma split_segment (sep : ascii) (s seg : string) :
  In seg (Js.split sep s) -> Js.split sep seg = [seg].
Proof.
  revert seg; induction s as [|c s IH]; intros seg; simpl.
  - intros [<-|[]]. reflexivity.
  - destruct (Ascii.eqb c sep) eqn:Ec.
    + intros [<-|Hin]; [reflexivity | now apply IH].
    + destruct (Js.split sep s) as [|first rest] eqn:E.
      * intros [<-|[]]. simpl. now rewrite Ec.
      * intros [<-|Hin].
        -- simpl. rewrite Ec. rewrite (IH first); [reflexivity | now left].
        -- apply IH. now right.
Qed.

Lemma prefix_split (p s : string) :
  String.prefix p s = true -> exists r, s = p ++ r.
Proof.
  revert s; induction p as [|a p IH]; intros s; simpl.
  - now exists s.
  - destruct s as [|b s]; simpl; [intros H; discriminate H|].
    destruct (ascii_dec a b) as [->|]; [|intros H; discriminate H].
    intros H. destruct (IH _ H) as [r ->]. now exists r.
Qed.

Lemma prefix_app (p s t : string) :
  String.prefix p s = true -> String.prefix p (s ++ t) = true.
Proof.
  intros H. destruct (prefix_split _ _ H) as [r ->].
  rewrite string_append_assoc. apply prefix_append.
Qed.

Lemma prefix_includes (s sub : string) :
  String.prefix sub s = true -> Js.includes s sub = true.
Proof.
  destruct s as [|c s]; simpl; [trivial|]. intros H.
  simpl in H. rewrite H. reflexivity.
Qed.

Lemma plainName_relative (b : string) :
  plainName b -> Js.startsWith b "/" = false /\ String.eqb b EmptyString = false.
Proof.
  intros [Hne [_ [_ Hsplit]]]. split; [|now apply String.eqb_neq].
  destruct b as [|c b]; [reflexivity|].
  unfold Js.startsWith. cbn [String.prefix].
  destruct (ascii_dec "/" c) as [<-|]; [|reflexivity].
  simpl in Hsplit. discriminate Hsplit.
Qed.

Lemma pushSegment_plain (allowAboveRoot : bool) (kept : list string) (b : string) :
  plainName b -> NodePath.pushSegment allowAboveRoot kept b = b :: kept.
Proof.
  intros [H1 [H2 [H3 _]]]. unfold NodePath.pushSegment.
  apply String.eqb_neq in H1, H2, H3. now rewrite H1, H2, H3.
Qed.

Lemma pushSegment_empty (allowAboveRoot : bool) (kept : list string) :
  NodePath.pushSegment allowAboveRoot kept EmptyString = kept.
Proof. reflexivity. Qed.

Lemma pushSegment_proper (allowAboveRoot : bool) (kept : list string) (seg : string) :
  Js.split NodePath.sep seg = [seg] ->
  Forall properSegment kept ->
  Forall properSegment (NodePath.pushSegment allowAboveRoot kept seg).
Proof.
  intros Hseg Hk. unfold NodePath.pushSegment.
  destruct (String.eqb_spec seg EmptyString) as [|H1]; [exact Hk|].
  destruct (String.eqb_spec seg ".") as [|H2]; [exact Hk|]. cbn [orb].
  assert (Hp : properSegment seg) by now repeat split.
  destruct (String.eqb seg "..").
  - destruct kept as [|top below].
    + destruct allowAboveRoot; [|constructor]. now repeat constructor.
    + destruct (String.eqb top "..").
      * destruct allowAboveRoot; [|exact Hk]. now constructor.
      * now inversion Hk.
  - now constructor.
Qed.

Lemma fold_pushSegment_proper (allowAboveRoot : bool) (segs kept : list string) :
  Forall (fun seg => Js.split NodePath.sep seg = [seg]) segs ->
  Forall properSegment kept ->
  Forall properSegment (fold_left (NodePath.pushSegment allowAboveRoot) segs kept).
Proof.
  revert kept; induction segs as [|seg segs IH]; intros kept Hs Hk; simpl; [exact Hk|].
  inversion Hs; subst. apply IH; [assumption | now apply pushSegment_proper].
Qed.

Lemma split_segments (s : string) :
  Forall (fun seg => Js.split NodePath.sep seg = [seg]) (Js.split NodePath.sep s).
Proof. apply Forall_forall. intros seg. apply split_segment. Qed.

Lemma join_snoc (sep : string) (l : list string) (b : string) :
  l <> [] -> Js.join sep (l ++ [b]) = Js.join sep l ++ sep ++ b.
Proof.
  unfold Js.join. induction l as [|x l IH]; intros Hne; [now elim Hne|].
  destruct l as [|y l].
  - reflexivity.
  - change (String.concat sep ((x :: y :: l) ++ [b]))
      with (x ++ sep ++ String.concat sep ((y :: l) ++ [b])).
    rewrite IH by discriminate.
    change (String.concat sep (x :: y :: l)) with (x ++ sep ++ String.concat sep (y :: l)).
    now rewrite !string_append_assoc.
Qed.

Lemma append_eq_nil (a b : string) : a ++ b = EmptyString -> a = EmptyString.
Proof. destruct a; [reflexivity | discriminate]. Qed.

Lemma join_proper (l : list string) :
  Forall properSegment l -> l <> [] ->
  Js.join "/" l <> EmptyString /\ Js.join "/" l <> "." /\ Js.join "/" l <> "/".
Proof.
  unfold Js.join. intros Hl Hne. destruct l as [|x l]; [now elim Hne|].
  inversion Hl as [|? ? [Hx1 [Hx2 Hx3]] _]; subst.
  destruct l as [|y l].
  - cbn. repeat split; try assumption. intros ->. discriminate Hx3.
  - change (String.concat "/" (x :: y :: l)) with (x ++ "/" ++ String.concat "/" (y :: l)).
    destruct x as [|c x]; [now elim Hx1|]. simpl.
    repeat split; try discriminate; intros H; inversion H as [[Hc Hx]];
      destruct x; discriminate.
Qed.

Lemma resolveLoop_acc (paths : list string) (acc : string) :
  NodePath.resolveLoop paths acc
  = (fst (NodePath.resolveLoop paths EmptyString) ++ acc,
     snd (NodePath.resolveLoop paths EmptyString)).
Proof.
  revert acc; induction paths as [|p paths IH]; intros acc;
    cbn [NodePath.resolveLoop]; [reflexivity|].
  destruct (String.eqb p EmptyString); [apply IH|].
  destruct (Js.startsWith p "/"); cbn [fst snd].
  - now rewrite !string_append_assoc.
  - rewrite (IH (p ++ "/" ++ acc)), (IH (p ++ "/" ++ EmptyString)). cbn [fst snd].
    now rewrite !string_append_assoc.
Qed.

(** What [resolve] has put together ends with a separator. *)
Lemma resolveLoop_shape (paths : list string) :
  fst (NodePath.resolveLoop paths EmptyString) = EmptyString
  \/ exists r, fst (NodePath.resolveLoop paths EmptyString) = r ++ "/".
Proof.
  induction paths as [|p paths IH]; cbn [NodePath.resolveLoop]; [now left|].
  destruct (String.eqb p EmptyString); [exact IH|].
  destruct (Js.startsWith p "/"); cbn [fst snd].
  - right. now exists p.
  - right. rewrite resolveLoop_acc. cbn [fst snd].
    exists (fst (NodePath.resolveLoop paths EmptyString) ++ p).
    now rewrite !string_append_assoc.
Qed.

Lemma resolveLoop_plain (b : string) (rest : list string) :
  plainName b ->
  NodePath.resolveLoop (b :: rest) EmptyString
  = NodePath.resolveLoop rest (b ++ "/" ++ EmptyString).
Proof.
  intros Hb. destruct (plainName_relative b Hb) as [Hrel Hne].
  cbn [NodePath.resolveLoop]. now rewrite Hne, Hrel.
Qed.

(** Resolving a plain name against a directory names the entry of that
    name in the resolved directory. *)
Lemma resolve_child (cwd dir b : string) :
  plainName b ->
  NodePath.resolve cwd [dir; b] = childOf (NodePath.resolve cwd [dir]) b.
Proof.
  intros Hb. destruct (plainName_relative b Hb) as [Hrel Hne].
  unfold NodePath.resolve.
  change (rev [dir; b] ++ [cwd])%list with (b :: [dir; cwd]).
  change (rev [dir] ++ [cwd])%list with [dir; cwd].
  rewrite (resolveLoop_plain b [dir; cwd] Hb), resolveLoop_acc.
  destruct (NodePath.resolveLoop [dir; cwd] EmptyString) as [r absolute] eqn:E.
  cbn [fst snd].
  assert (Hshape := resolveLoop_shape [dir; cwd]). rewrite E in Hshape. cbn [fst] in Hshape.
  unfold NodePath.normalizeString.
  set (push := NodePath.pushSegment (negb absolute)).
  assert (Hsplit : Js.split NodePath.sep b = [b]) by (destruct Hb as [_ [_ [_ H]]]; exact H).
  assert (Hkept : fold_left push (Js.split NodePath.sep (r ++ b ++ "/" ++ EmptyString)) []
                  = b :: fold_left push (Js.split NodePath.sep r) []).
  { destruct Hshape as [->|[r0 ->]].
    - change (EmptyString ++ b ++ "/" ++ EmptyString)
        with (b ++ String NodePath.sep EmptyString).
      rewrite split_app_sep, Hsplit. cbn [app fold_left Js.split].
      unfold push. rewrite !pushSegment_empty.
      now rewrite (pushSegment_plain _ _ b Hb).
    - rewrite string_append_assoc.
      change ("/" ++ b ++ "/" ++ EmptyString)
        with (String NodePath.sep (b ++ String NodePath.sep EmptyString)).
      change (r0 ++ "/") with (r0 ++ String NodePath.sep EmptyString).
      rewrite !split_app_sep, Hsplit. cbn [Js.split].
      rewrite !fold_left_app. cbn [fold_left].
      unfold push. rewrite !pushSegment_empty.
      now rewrite (pushSegment_plain _ _ b Hb). }
  rewrite Hkept. cbn [rev].
  set (kept := fold_left push (Js.split NodePath.sep r) []).
  assert (Hproper : Forall properSegment (rev kept)).
  { apply Forall_rev. apply fold_pushSegment_proper; [apply split_segments | constructor]. }
  destruct (rev kept) as [|x l] eqn:Ek.
  - cbn. unfold childOf. destruct absolute; cbn; [reflexivity|].
    apply String.eqb_neq in Hne. destruct b; [now elim Hne | reflexivity].
  - rewrite join_snoc by discriminate.
    destruct (join_proper (x :: l) Hproper) as [J1 [J2 J3]]; [discriminate|].
    set (J := Js.join "/" (x :: l)) in *.
    unfold childOf. destruct absolute.
    + assert (H1 : String.eqb ("/" ++ J) "/" = false).
      { apply String.eqb_neq. intros H. destruct J; [now elim J1 | discriminate]. }
      assert (H2 : String.eqb ("/" ++ J) "." = false) by reflexivity.
      rewrite H1, H2. now rewrite string_append_assoc.
    + assert (Hjb : String.eqb (J ++ "/" ++ b) EmptyString = false).
      { apply String.eqb_neq. intros H. apply append_eq_nil in H. contradiction. }
      apply String.eqb_neq in J1, J2, J3. now rewrite Hjb, J1, J2, J3.
Qed.

End PathFacts.

(* ===================================================================== *)
(** * Validation of script names *)

Section Validate.

Lemma last_In {A : Type} (l : list A) (d : A) : l <> [] -> In (last l d) l.
Proof.
  induction l as [|x l IH]; intros Hne; [now elim Hne|].
  destruct l as [|y l]; [now left|]. right. apply IH. discriminate.
Qed.

Lemma basename_segment (path : string) :
  NodePath.basename path <> EmptyString ->
  Js.split NodePath.sep (NodePath.basename path) = [NodePath.basename path].
Proof.
  unfold NodePath.basename. intros Hne.
  destruct (filter NodePath.nonEmpty (Js.split NodePath.sep path)) as [|x l] eqn:E;
    [now elim Hne|].
  apply (split_segment NodePath.sep path).
  assert (Hin : In (last (x :: l) EmptyString) (x :: l)) by (apply last_In; discriminate).
  rewrite <- E in Hin |- *. now apply filter_In in Hin.
Qed.

(** A name with an allowed extension has a plain last segment. *)
Lemma allowed_basename_plain (scriptName : string) :
  Tools.allowedExtension (Js.toLowerCase (NodePath.extname scriptName)) = true ->
  plainName (NodePath.basename scriptName).
Proof.
  unfold NodePath.extname.
  destruct (NodePath.lastDot (NodePath.basename scriptName)) as [[|i]|] eqn:Edot;
    try (intros H; discriminate H).
  destruct (String.eqb_spec (NodePath.basename scriptName) "..") as [|Hdd];
    [intros H; discriminate H|].
  intros _.
  assert (Hne : NodePath.basename scriptName <> EmptyString)
    by (intros H; rewrite H in Edot; discriminate Edot).
  repeat split; try assumption.
  - intros H; rewrite H in Edot; discriminate Edot.
  - now apply basename_segment.
Qed.

Lemma normalize_absolute (path : string) :
  Js.startsWith path "/" = true -> Js.startsWith (NodePath.normalize path) "/" = true.
Proof.
  intros H. unfold NodePath.normalize. rewrite H.
  destruct (String.eqb_spec path EmptyString) as [->|_]; [discriminate H|].
  cbn [negb]. unfold Js.startsWith.
  destruct (String.eqb _ EmptyString); [reflexivity|].
  destruct (NodePath.endsWithSlash path); apply (prefix_append "/").
Qed.

(** Once the kept segments start with [..], they keep doing so. *)
Lemma pushSegment_climbing (kept : list string) (seg : string) :
  (exists front, kept = front ++ [".."])%list ->
  (exists front, NodePath.pushSegment true kept seg = front ++ [".."])%list.
Proof.
  intros [front ->]. unfold NodePath.pushSegment.
  destruct (String.eqb seg EmptyString || String.eqb seg "."); [now exists front|].
  destruct (String.eqb seg "..").
  - destruct front as [|top front]; cbn [app].
    + now exists [seg].
    + destruct (String.eqb top ".."); [now exists (seg :: top :: front)|].
      now exists front.
  - now exists (seg :: front).
Qed.

Lemma fold_pushSegment_climbing (segs kept : list string) :
  (exists front, kept = front ++ [".."])%list ->
  (exists front, fold_left (NodePath.pushSegment true) segs kept = front ++ [".."])%list.
Proof.
  revert kept; induction segs as [|seg segs IH]; intros kept Hk; simpl; [exact Hk|].
  apply IH. now apply pushSegment_climbing.
Qed.

Lemma normalize_climbing (path : string) :
  Js.startsWith path "../" = true -> Js.includes (NodePath.normalize path) ".." = true.
Proof.
  intros H. destruct (prefix_split _ _ H) as [r ->].
  apply prefix_includes.
  unfold NodePath.normalize.
  change (String.eqb ("../" ++ r) EmptyString) with false.
  change (Js.startsWith ("../" ++ r) "/") with false. cbn [negb].
  unfold NodePath.normalizeString.
  change ("../" ++ r) with (".." ++ String NodePath.sep r).
  rewrite split_app_sep. change (Js.split NodePath.sep "..") with [".."].
  cbn [app fold_left].
  destruct (fold_pushSegment_climbing (Js.split NodePath.sep r)
              (NodePath.pushSegment true [] "..")) as [front ->];
    [now exists []|].
  rewrite rev_app_distr. cbn [rev app].
  assert (Hj : exists q, Js.join "/" (".." :: rev front) = ".." ++ q).
  { unfold Js.join. destruct (rev front) as [|y l]; [now exists EmptyString|].
    now exists ("/" ++ String.concat "/" (y :: l)). }
  destruct Hj as [q ->].
  change (String.eqb (".." ++ q) EmptyString) with false. cbn iota.
  destruct (NodePath.endsWithSlash _);
    rewrite ?string_append_assoc; apply (prefix_append "..").
Qed.

End Validate.

(** C1, as the program has it.  A script name is refused, as a path
    traversal, when its normalized form contains [..], starts with the
    separator or contains a backslash; so is every absolute name and every
    name that starts by climbing to the parent directory.  A name that
    passes validation has an allowed extension and resolves to one file
    directly inside the skill's scripts directory: the entry named by the
    last segment of the script name, whatever directories the name went
    through.  A refused request ends with the refusal and spawns
    nothing. *)
Theorem validateScriptPath_guards (cwd scriptName skillPath : string) :
  let scriptsDir := NodePath.join [skillPath; "scripts"] in
  ((Js.includes (NodePath.normalize scriptName) ".."
    || Js.startsWith (NodePath.normalize scriptName) "/"
    || Js.includes (NodePath.normalize scriptName) "\") = true ->
   Tools.validateScriptPath cwd scriptName skillPath = refusal Tools.traversalError)
  /\ (Js.startsWith scriptName "/" = true ->
      Tools.validateScriptPath cwd scriptName skillPath = refusal Tools.traversalError)
  /\ (Js.startsWith scriptName "../" = true ->
      Tools.validateScriptPath cwd scriptName skillPath = refusal Tools.traversalError)
  /\ (Tools.valid (Tools.validateScriptPath cwd scriptName skillPath) = true ->
      plainName (NodePath.basename scriptName)
      /\ Tools.allowedExtension (Js.toLowerCase (NodePath.extname scriptName)) = true
      /\ Tools.fullPath (Tools.validateScriptPath cwd scriptName skillPath)
         = Some (childOf (NodePath.resolve cwd [scriptsDir]) (NodePath.basename scriptName)))
  /\ (forall sys discovery timeout skillName args skill,
         Tools.sys_cwd sys = cwd ->
         Discovery.getSkill discovery skillName = Some skill ->
         skill_path skill = skillPath ->
         Tools.valid (Tools.validateScriptPath cwd scriptName skillPath) = false ->
         exists message,
           Tools.error (Tools.validateScriptPath cwd scriptName skillPath) = Some message
           /\ Tools.run_skill_script sys discovery true timeout skillName scriptName args
              = (Tools.errorResult message, [])).
Proof.
  intros scriptsDir.
  assert (A : (Js.includes (NodePath.normalize scriptName) ".."
               || Js.startsWith (NodePath.normalize scriptName) "/"
               || Js.includes (NodePath.normalize scriptName) "\") = true ->
              Tools.validateScriptPath cwd scriptName skillPath
              = refusal Tools.traversalError).
  { intros H. unfold Tools.validateScriptPath. now rewrite H. }
  split; [exact A|]. split; [|split; [|split]].
  - intros H. apply A. rewrite (normalize_absolute _ H). now rewrite orb_true_r.
  - intros H. apply A. now rewrite (normalize_climbing _ H).
  - unfold Tools.validateScriptPath. fold scriptsDir.
    destruct (Js.includes (NodePath.normalize scriptName) ".."
              || Js.startsWith (NodePath.normalize scriptName) "/"
              || Js.includes (NodePath.normalize scriptName) "\");
      [intros H; discriminate H|].
    destruct (Tools.allowedExtension (Js.toLowerCase (NodePath.extname scriptName)))
      eqn:Eext; cbn [negb]; [|intros H; discriminate H].
    assert (Hplain := allowed_basename_plain scriptName Eext).
    rewrite (resolve_child cwd scriptsDir _ Hplain).
    destruct (Js.startsWith _ scriptsDir); cbn [negb]; [|intros H; discriminate H].
    intros _. cbn. split; [exact Hplain | split; reflexivity].
  - intros sys discovery timeout skillName args skill Hcwd Hskill Hpath Hinvalid.
    unfold Tools.run_skill_script. cbn [negb]. rewrite Hskill, Hcwd, Hpath, Hinvalid.
    cbn [negb].
    revert Hinvalid. unfold Tools.validateScriptPath.
    destruct (Js.includes _ _ || Js.startsWith _ _ || Js.includes _ _);
      [intros _; eexists; split; reflexivity|].
    destruct (Tools.allowedExtension _); cbn [negb];
      [|intros _; eexists; split; reflexivity].
    destruct (Js.startsWith _ _); cbn [negb];
      [intros H; discriminate H | intros _; eexists; split; reflexivity].
Qed.

(** The rule of the design document fails on nested names: a name with a
    directory in front passes validation, and so does a name that goes
    through a parent segment and comes back. *)
Lemma validateScriptPath_nested_counterexample :
  ~ (forall cwd scriptName skillPath,
        In ".." (Js.split "/" scriptName)
        \/ Js.startsWith scriptName "/" = true
        \/ Js.includes scriptName "/" = true ->
        Tools.valid (Tools.validateScriptPath cwd scriptName skillPath) = false).
Proof.
  intros H.
  assert (H1 := H "/" "sub/run.sh" "/skills/foo" (or_intror (or_intror eq_refl))).
  vm_compute in H1. discriminate H1.
Qed.

(** What the program does with such names. *)
Example validateScriptPath_nested_names :
  Tools.validateScriptPath "/" "sub/run.sh" "/skills/foo"
  = Tools.mkValidation true None (Some "/skills/foo/scripts/run.sh")
  /\ Tools.validateScriptPath "/" "lib/../run.sh" "/skills/foo"
     = Tools.mkValidation true None (Some "/skills/foo/scripts/run.sh")
  /\ Tools.validateScriptPath "/" "../run.sh" "/skills/foo"
     = refusal Tools.traversalError
  /\ Tools.validateScriptPath "/" "/bin/run.sh" "/skills/foo"
     = refusal Tools.traversalError
  /\ Tools.validateScriptPath "/" "run.sh" "/skills/foo"
     = Tools.mkValidation true None (Some "/skills/foo/scripts/run.sh")
  /\ Tools.run_skill_script fooSystem fooDiscovery true 30000 "foo" "sub/run.sh" []
     = (Tools.successResult (Tools.mkScriptResult "done" "" (Some 0%Z)),
        [Tools.mkSpawn "bash" ["/skills/foo/scripts/run.sh"] "/skills/foo" 30000]).
Proof. repeat split; reflexivity. Qed.

(** A climbing name is refused and nothing is spawned; the plain name
    [run.sh] passes and names [scripts/run.sh]. *)
Lemma validateScriptPath_guards_witness :
  Tools.validateScriptPath "/" "../../etc/passwd" "/skills/foo"
  = refusal Tools.traversalError
  /\ Tools.fullPath (Tools.validateScriptPath "/" "run.sh" "/skills/foo")
     = Some "/skills/foo/scripts/run.sh"
  /\ Tools.run_skill_script fooSystem fooDiscovery true 30000 "foo" "../../etc/passwd" []
     = (Tools.errorResult Tools.traversalError, []).
Proof.
  assert (G1 := validateScriptPath_guards "/" "../../etc/passwd" "/skills/foo").
  assert (G2 := validateScriptPath_guards "/" "run.sh" "/skills/foo").
  cbv zeta in G1, G2.
  destruct G1 as [_ [_ [Hclimb [_ Hrun]]]]. destruct G2 as [_ [_ [_ [Hvalid _]]]].
  split; [apply Hclimb; reflexivity|].
  split; [apply Hvalid; reflexivity|].
  destruct (Hrun fooSystem fooDiscovery 30000%Z "foo" [] fooSkill
              eq_refl eq_refl eq_refl eq_refl) as [message [Hm Hr]].
  rewrite Hr. vm_compute in Hm. inversion Hm. reflexivity.
Defined.

(* ===================================================================== *)
(** * More on the parser *)

Section LinkKinds.

Lemma prefix_of_append (p q s : string) :
  String.prefix (p ++ q) s = true -> String.prefix p s = true.
Proof.
  intros H. destruct (prefix_split _ _ H) as [r ->].
  rewrite string_append_assoc. apply prefix_append.
Qed.

Lemma stripPrefix_append (p r : string) : stripPrefix p (p ++ r) = Some r.
Proof.
  induction p as [|a p IH]; simpl; [reflexivity|]. now rewrite Ascii.eqb_refl.
Qed.

Lemma prefix_cancel (p q s : string) :
  String.prefix (p ++ q) (p ++ s) = String.prefix q s.
Proof.
  induction p as [|a p IH]; simpl; [reflexivity|].
  destruct (ascii_dec a a) as [_|Hne]; [exact IH | now elim Hne].
Qed.

Lemma prefix_false_of_shorter (p q s : string) :
  String.prefix p s = false -> String.prefix (p ++ q) s = false.
Proof.
  intros H. destruct (String.prefix (p ++ q) s) eqn:E; [|reflexivity].
  apply prefix_of_append in E. congruence.
Qed.

End LinkKinds.

(** X1.  A link is internal exactly when its target, after one leading
    [./] is taken off, starts with [references/], [scripts/] or
    [assets/]. *)
Theorem isInternalHref_folders (href : string) :
  Parser.isInternalHref href = inSkillFolder (withoutDotSlash href).
Proof.
  unfold Parser.isInternalHref, inSkillFolder, withoutDotSlash, Js.startsWith.
  destruct (stripPrefix "./" href) as [rest|] eqn:E.
  - apply stripPrefix_Some in E. subst href.
    change "./references/" with ("./" ++ "references/").
    change "./scripts/" with ("./" ++ "scripts/").
    change "./assets/" with ("./" ++ "assets/").
    rewrite !prefix_cancel.
    now replace (String.prefix "references/" ("./" ++ rest)) with false by reflexivity.
  - apply stripPrefix_None in E.
    change "./references/" with ("./" ++ "references/").
    change "./scripts/" with ("./" ++ "scripts/").
    change "./assets/" with ("./" ++ "assets/").
    rewrite !(prefix_false_of_shorter "./" _ href E).
    now rewrite !orb_false_r.
Qed.

Section Visit.

Variable toString : Parser.Node -> string.
Variable Slugger : Type.
Variable slug : Slugger -> string -> string * Slugger.

Local Abbreviation visit := (Parser.visit toString Slugger slug).

Lemma slugged_app (slugger : Slugger) (a b : list (Z * string * Z)) :
  slugged slug slugger (a ++ b)
  = (fst (slugged slug slugger a)
       ++ fst (slugged slug (snd (slugged slug slugger a)) b),
     snd (slugged slug (snd (slugged slug slugger a)) b))%list.
Proof.
  revert slugger; induction a as [|[[level text] line] a IH]; intros slugger; simpl.
  - now destruct (slugged slug slugger b).
  - destruct (slug slugger text) as [sl slugger'].
    rewrite IH.
    destruct (slugged slug slugger' a) as [ea sa]. cbn [fst snd].
    now destruct (slugged slug sa b).
Qed.

Local Abbreviation collects := (collects toString slug).

Lemma visitChildren_cons (child : Parser.Node) (rest : list Parser.Node)
      (acc : Parser.Collected Slugger) :
  visitChildren toString slug (child :: rest) acc
  = visitChildren toString slug rest (visit child acc).
Proof. reflexivity. Qed.

Lemma visitChildren_collects (children : list Parser.Node) :
  Forall collects children ->
  forall acc : Parser.Collected Slugger,
    let r := visitChildren toString slug children acc in
    let s := slugged slug (Parser.col_slugger Slugger acc)
                     (flat_map (headingsOf toString) children) in
    Parser.col_codeBlocks Slugger r
    = (Parser.col_codeBlocks Slugger acc ++ flat_map codesOf children)%list
    /\ Parser.col_links Slugger r
       = (Parser.col_links Slugger acc ++ flat_map (linksOf toString) children)%list
    /\ Parser.col_toc Slugger r = (Parser.col_toc Slugger acc ++ fst s)%list
    /\ Parser.col_slugger Slugger r = snd s.
Proof.
  induction 1 as [|child rest Hchild _ IH]; intros acc; cbv zeta.
  - cbn. now rewrite !app_nil_r.
  - rewrite visitChildren_cons. cbn [flat_map].
    destruct (Hchild acc) as [C1 [C2 [C3 C4]]].
    destruct (IH (visit child acc)) as [R1 [R2 [R3 R4]]].
    rewrite R1, R2, R3, R4, C1, C2, C3, C4, slugged_app. cbn [fst snd].
    now rewrite !app_assoc.
Qed.

Lemma codesOf_children (children : list Parser.Node) :
  (fix all (children : list Parser.Node) : list CodeBlock :=
     match children with
     | [] => []
     | child :: rest => (codesOf child ++ all rest)%list
     end) children = flat_map codesOf children.
Proof. induction children as [|c l IH]; [reflexivity | now rewrite IH]. Qed.

Lemma linksOf_children (children : list Parser.Node) :
  (fix all (children : list Parser.Node) : list Link :=
     match children with
     | [] => []
     | child :: rest => (linksOf toString child ++ all rest)%list
     end) children = flat_map (linksOf toString) children.
Proof. induction children as [|c l IH]; [reflexivity | now rewrite IH]. Qed.

Lemma headingsOf_children (children : list Parser.Node) :
  (fix all (children : list Parser.Node) : list (Z * string * Z) :=
     match children with
     | [] => []
     | child :: rest => (headingsOf toString child ++ all rest)%list
     end) children = flat_map (headingsOf toString) children.
Proof. induction children as [|c l IH]; [reflexivity | now rewrite IH]. Qed.

Lemma visit_collects (node : Parser.Node) : collects node.
Proof.
  induction node using Node_induction; intros acc; cbv zeta.
  - (* heading *)
    destruct (visitChildren_collects children H acc) as [R1 [R2 [R3 R4]]].
    change (visit (Parser.heading depth line children) acc)
      with (Parser.pushHeading toString Slugger slug (Parser.heading depth line children)
              depth line (visitChildren toString slug children acc)).
    cbn [codesOf linksOf headingsOf].
    rewrite codesOf_children, linksOf_children, headingsOf_children, slugged_app.
    unfold Parser.pushHeading. rewrite R4. cbn [slugged fst snd].
    destruct (slug _ _) as [sl slugger']. cbn.
    rewrite R1, R2, R3. now rewrite !app_assoc.
  - (* code *)
    cbn. now rewrite !app_nil_r.
  - (* link *)
    destruct (visitChildren_collects children H acc) as [R1 [R2 [R3 R4]]].
    change (visit (Parser.link url children) acc)
      with (Parser.pushLink toString Slugger (Parser.link url children) url
              (visitChildren toString slug children acc)).
    cbn [codesOf linksOf headingsOf].
    rewrite codesOf_children, linksOf_children, headingsOf_children.
    unfold Parser.pushLink. cbn. rewrite R1, R2, R3, R4. now rewrite !app_assoc.
  - (* parent *)
    destruct (visitChildren_collects children H acc) as [R1 [R2 [R3 R4]]].
    change (visit (Parser.parent children) acc)
      with (visitChildren toString slug children acc).
    cbn [codesOf linksOf headingsOf].
    now rewrite codesOf_children, linksOf_children, headingsOf_children.
  - (* leaf *)
    cbn. now rewrite !app_nil_r.
Qed.

End Visit.

Section Slugged.

Variable Slugger : Type.
Variable slug : Slugger -> string -> string * Slugger.

Lemma slugged_keeps (slugger : Slugger) (headings : list (Z * string * Z)) :
  map (fun e => (toc_level e, toc_text e, toc_line e))
      (fst (slugged slug slugger headings)) = headings.
Proof.
  revert slugger; induction headings as [|[[level text] line] rest IH]; intros slugger;
    cbn; [reflexivity|].
  destruct (slug slugger text) as [sl slugger'].
  specialize (IH slugger'). destruct (slugged slug slugger' rest) as [entries final].
  cbn in IH |- *. now rewrite IH.
Qed.

End Slugged.

(** X2.  When the two parsing libraries return, the parsed document holds
    the code blocks of the tree, its links and its headings, each kind in
    the order of the visit (children before their parent) and none lost:
    the outline has one entry per heading, with the heading's depth, text
    and line and with slugs given in that order by one slugger; every link
    is flagged internal by the rule for its target; absent lines count as
    line 0; and the file lists are empty until the disk is read. *)
Theorem parseSkillMd_collects_in_order
  (matter : string -> Outcome (Parser.MatterData * string))
  (remarkParse : string -> Outcome Parser.Node)
  (toString : Parser.Node -> string)
  (Slugger : Type) (newSlugger : Slugger)
  (slug : Slugger -> string -> string * Slugger)
  (content rest : string) (data : Parser.MatterData) (tree : Parser.Node) :
  matter content = Ok (data, rest) ->
  remarkParse rest = Ok tree ->
  exists p,
    Parser.parseSkillMd matter remarkParse toString Slugger newSlugger slug content = Ok p
    /\ body p = rest
    /\ codeBlocks p = codesOf tree
    /\ links p = linksOf toString tree
    /\ toc p = fst (slugged slug newSlugger (headingsOf toString tree))
    /\ map (fun e => (toc_level e, toc_text e, toc_line e)) (toc p)
       = headingsOf toString tree
    /\ Forall (fun l => link_isInternal l = Parser.isInternalHref (link_href l)) (links p)
    /\ files p = mkSkillFiles [] [] [].
Proof.
  intros Hm Ht. unfold Parser.parseSkillMd, bindOutcome. rewrite Hm, Ht.
  eexists. split; [reflexivity|]. cbn.
  destruct (visit_collects toString Slugger slug tree
              (Parser.mkCollected Slugger newSlugger [] [] [])) as [C1 [C2 [C3 _]]].
  cbn in C1, C2, C3. rewrite C1, C2, C3.
  repeat split.
  - apply slugged_keeps.
  - clear. induction tree using Node_induction; cbn [linksOf];
      rewrite ?linksOf_children; try constructor.
    + apply Forall_flat_map. exact H.
    + apply Forall_app. split; [|now repeat constructor].
      apply Forall_flat_map. exact H.
    + apply Forall_flat_map. exact H.
Qed.

(** The sample tree: its heading, its code block and its internal link. *)
Lemma parseSkillMd_collects_in_order_witness :
  exists p,
    Parser.parseSkillMd sampleMatter sampleParse sampleToString nat 0 sampleSlug "text"
    = Ok p
    /\ toc p = [mkTocEntry 1 "Title" "Title" 1]
    /\ codeBlocks p = [mkCodeBlock (Some "sh") 3 "ls"]
    /\ links p = [mkLink "run" "./scripts/run.sh" true].
Proof.
  destruct (parseSkillMd_collects_in_order sampleMatter sampleParse sampleToString
              nat 0 sampleSlug "text" "text"
              (Parser.mkMatterData None None None None None None) sampleTree
              eq_refl eq_refl)
    as [p [Hp [_ [Hc [Hl [Ht _]]]]]].
  exists p. split; [exact Hp|]. split; [exact Ht|]. split; [exact Hc | exact Hl].
Defined.

(* ===================================================================== *)
(** * More on discovery *)

Section ScanEvents.

Variable fs : FileSystem.

Lemma state_eta (st : Discovery.State) :
  st = Discovery.mkState (Discovery.skills st) (Discovery.watcher st)
         (Discovery.searchPaths st) (Discovery.emitted st)
         (Discovery.watchersCreated st) (Discovery.watchersClosed st).
Proof. now destruct st. Qed.

Lemma applyEvents_nil (st : Discovery.State) : applyEvents [] st = st.
Proof. destruct st. unfold applyEvents. cbn. now rewrite app_nil_r. Qed.

Lemma applyEvents_app (a b : list Discovery.Event) (st : Discovery.State) :
  applyEvents b (applyEvents a st) = applyEvents (a ++ b) st.
Proof.
  unfold applyEvents. cbn.
  now rewrite discoveredOf_app, fold_left_app, app_assoc.
Qed.

Lemma scanEntry_applies (searchPath : string) (st : Discovery.State) (entry : Dirent) :
  Discovery.scanEntry fs searchPath st entry
  = applyEvents (entryEvents fs searchPath entry) st.
Proof.
  unfold entryEvents, Discovery.scanEntry.
  destruct (dirent_isDirectory entry); [|now rewrite applyEvents_nil].
  destruct (fs_access fs _); [|now rewrite applyEvents_nil].
  unfold Discovery.discoverSkillFromPath.
  destruct (ParserIO.parseSkillFile fs _) as [p|message].
  - cbn [skill_name]. destruct (Discovery.truthy _).
    + destruct st; reflexivity.
    + now rewrite applyEvents_nil.
  - destruct st; reflexivity.
Qed.

Lemma fold_scanEntry_applies (searchPath : string) (entries : list Dirent)
      (st : Discovery.State) :
  fold_left (Discovery.scanEntry fs searchPath) entries st
  = applyEvents (flat_map (entryEvents fs searchPath) entries) st.
Proof.
  revert st; induction entries as [|e entries IH]; intros st; cbn [fold_left flat_map].
  - now rewrite applyEvents_nil.
  - now rewrite scanEntry_applies, IH, applyEvents_app.
Qed.

Lemma scanPath_applies (st : Discovery.State) (searchPath : string) :
  Discovery.scanPath fs st searchPath = applyEvents (pathEvents fs searchPath) st.
Proof.
  unfold Discovery.scanPath, pathEvents.
  destruct (Discovery.directoryExists fs searchPath); [|now rewrite applyEvents_nil].
  destruct (fs_readdirTyped fs searchPath) as [entries|message].
  - apply fold_scanEntry_applies.
  - destruct st; reflexivity.
Qed.

Lemma fold_scanPath_applies (paths : list string) (st : Discovery.State) :
  fold_left (Discovery.scanPath fs) paths st = applyEvents (scanEvents fs paths) st.
Proof.
  unfold scanEvents.
  revert st; induction paths as [|p paths IH]; intros st; cbn [fold_left flat_map].
  - now rewrite applyEvents_nil.
  - now rewrite scanPath_applies, IH, applyEvents_app.
Qed.

Lemma scan_applies (st : Discovery.State) :
  Discovery.scan fs st = applyEvents (scanEvents fs (Discovery.searchPaths st)) st.
Proof. apply fold_scanPath_applies. Qed.

End ScanEvents.


Section Filing.

Lemma get_insert (m : JsMap.t DiscoveredSkill) (s : DiscoveredSkill) (name : string) :
  JsMap.get (insertRecord m s) name
  = if String.eqb (skill_name s) name then Some s else JsMap.get m name.
Proof.
  unfold insertRecord. destruct (String.eqb_spec (skill_name s) name) as [<-|Hne].
  - apply get_set_same.
  - now apply get_set_other.
Qed.

Lemma find_append {A : Type} (f : A -> bool) (a b : list A) :
  find f (a ++ b) = match find f a with Some x => Some x | None => find f b end.
Proof.
  induction a as [|x a IH]; cbn; [reflexivity|]. now destruct (f x).
Qed.

(** Looking a name up after filing records one after the other. *)
Lemma get_filed (records : list DiscoveredSkill) (m : JsMap.t DiscoveredSkill)
      (name : string) :
  JsMap.get (fold_left insertRecord records m) name
  = match lastNamed name records with
    | Some s => Some s
    | None => JsMap.get m name
    end.
Proof.
  unfold lastNamed.
  revert m; induction records as [|s records IH]; intros m; [reflexivity|].
  cbn [fold_left rev]. rewrite IH, find_append.
  destruct (find _ (rev records)) as [s'|]; [reflexivity|].
  cbn [find]. rewrite get_insert. now destruct (String.eqb (skill_name s) name).
Qed.

Lemma keys_insert_incl (m : JsMap.t DiscoveredSkill) (s : DiscoveredSkill) (k : string) :
  In k (JsMap.keys m) -> In k (JsMap.keys (insertRecord m s)).
Proof.
  unfold insertRecord. rewrite keys_set.
  destruct (in_dec string_dec _ _); [trivial | intros H; apply in_or_app; now left].
Qed.


Lemma keys_filed_incl (records : list DiscoveredSkill) (m : JsMap.t DiscoveredSkill)
      (k : string) :
  In k (JsMap.keys m) -> In k (JsMap.keys (fold_left insertRecord records m)).
Proof.
  revert m; induction records as [|s records IH]; intros m H; [exact H|].
  cbn [fold_left]. apply IH. now apply keys_insert_incl.
Qed.






End Filing.


(** X5.  The last writer wins: after a scan, a name resolves to the record
    of the last discovery the scan announced under that name, and a name
    under which the scan announced nothing resolves as it did before. *)
Theorem scan_last_writer_wins (fs : FileSystem) (st : Discovery.State) (name : string) :
  Discovery.getSkill (Discovery.scan fs st) name
  = match lastNamed name (discoveredOf (scanEvents fs (Discovery.searchPaths st))) with
    | Some skill => Some skill
    | None => Discovery.getSkill st name
    end.
Proof.
  rewrite scan_applies. unfold Discovery.getSkill. cbn. apply get_filed.
Qed.

Section Keeping.

Lemma getSkill_keys (st : Discovery.State) (name : string) :
  Discovery.getSkill st name <> None <-> In name (JsMap.keys (Discovery.skills st)).
Proof.
  unfold Discovery.getSkill. split.
  - intros H. destruct (in_dec string_dec name (JsMap.keys (Discovery.skills st)))
      as [Hin|Hout]; [exact Hin|]. apply get_None_keys in Hout. contradiction.
  - intros Hin Hnone. apply get_None_keys in Hnone. contradiction.
Qed.

Lemma length_set {V : Type} (m : JsMap.t V) (k : string) (v : V) :
  List.length m <= List.length (JsMap.set m k v).
Proof.
  induction m as [|[k' v'] m IH]; cbn; [lia|].
  destruct (String.eqb k' k); cbn; lia.
Qed.

Lemma length_filed (records : list DiscoveredSkill) (m : JsMap.t DiscoveredSkill) :
  List.length m <= List.length (fold_left insertRecord records m).
Proof.
  revert m; induction records as [|s records IH]; intros m; cbn [fold_left]; [lia|].
  etransitivity; [apply (length_set m (skill_name s) s) | apply IH].
Qed.

Lemma length_delete {V : Type} (m : JsMap.t V) (k : string) :
  List.length m <= S (List.length (JsMap.delete m k)).
Proof.
  induction m as [|[k' v'] m IH]; cbn; [lia|].
  destruct (String.eqb k' k); cbn; lia.
Qed.

(** The handlers for files that appear or change file a record or leave
    the registry alone. *)
Lemma upsert_skills (fs : FileSystem) (st : Discovery.State) (e : Discovery.WatchEvent) :
  (forall f, e <> Discovery.FileUnlinked f) ->
  Discovery.skills (Discovery.dispatch fs st e) = Discovery.skills st
  \/ exists skill,
      Discovery.skills (Discovery.dispatch fs st e)
      = insertRecord (Discovery.skills st) skill.
Proof.
  intros Hne. destruct e as [f|f|f|m]; cbn [Discovery.dispatch].
  - unfold Discovery.onAdd.
    destruct (Discovery.discoverSkillFromPath fs st f) as [st1 [skill|]] eqn:E.
    + destruct (discover_Some _ _ _ _ _ E) as [-> _].
      destruct (Discovery.truthy _); [|now left].
      right. exists skill. now destruct (JsMap.get _ _).
    + destruct (discover_None _ _ _ _ E) as [message ->]. now left.
  - unfold Discovery.onChange.
    destruct (Discovery.discoverSkillFromPath fs st f) as [st1 [skill|]] eqn:E.
    + destruct (discover_Some _ _ _ _ _ E) as [-> _].
      destruct (Discovery.truthy _); [|now left].
      right. now exists skill.
    + destruct (discover_None _ _ _ _ E) as [message ->]. now left.
  - now elim (Hne f).
  - now left.
Qed.

End Keeping.

(** X6.  Nothing but the report of a deleted manifest file takes a name
    out of the registry: a scan, a report of a new or changed file, a
    watcher error, [watch] and [close] keep every registered name, also
    when its directory has gone from the disk; and no step takes out more
    than one record. *)
Theorem only_unlink_removes (st : Discovery.State) (op : Discovery.Op) (name : string) :
  (isUnlink op = false ->
   Discovery.getSkill st name <> None ->
   Discovery.getSkill (Discovery.step st op) name <> None)
  /\ List.length (Discovery.skills st)
     <= S (List.length (Discovery.skills (Discovery.step st op))).
Proof.
  split.
  - intros Hop Hin. apply getSkill_keys in Hin. apply getSkill_keys.
    destruct op as [fs| | |fs e]; cbn [Discovery.step].
    + rewrite scan_applies. cbn. now apply keys_filed_incl.
    + unfold Discovery.watch. now destruct (Discovery.watcher st).
    + unfold Discovery.close. now destruct (Discovery.watcher st).
    + unfold Discovery.deliver. destruct (Discovery.watcher st); [|exact Hin].
      destruct (upsert_skills fs st e) as [->|[skill ->]].
      * intros file ->. discriminate Hop.
      * exact Hin.
      * now apply keys_insert_incl.
  - destruct op as [fs| | |fs e]; cbn [Discovery.step].
    + rewrite scan_applies. cbn.
      pose proof (length_filed (discoveredOf (scanEvents fs (Discovery.searchPaths st)))
                    (Discovery.skills st)). lia.
    + unfold Discovery.watch. destruct (Discovery.watcher st); cbn; lia.
    + unfold Discovery.close. destruct (Discovery.watcher st); cbn; lia.
    + unfold Discovery.deliver. destruct (Discovery.watcher st) as [w|]; [|lia].
      destruct e as [f|f|f|m].
      * destruct (upsert_skills fs st (Discovery.FileAdded f)) as [->|[skill ->]];
          [discriminate | lia |].
        pose proof (length_set (Discovery.skills st) (skill_name skill) skill).
        unfold insertRecord. lia.
      * destruct (upsert_skills fs st (Discovery.FileChanged f)) as [->|[skill ->]];
          [discriminate | lia |].
        pose proof (length_set (Discovery.skills st) (skill_name skill) skill).
        unfold insertRecord. lia.
      * cbn [Discovery.dispatch]. unfold Discovery.onUnlink.
        destruct (Discovery.findByManifest _ _) as [[n s]|]; [|lia].
        cbn. apply length_delete.
      * cbn. lia.
Qed.

(** A registry that holds [foo] is scanned on the empty disk: [foo]
    stays. *)
Lemma only_unlink_removes_witness :
  Discovery.getSkill (Discovery.step fooDiscovery (Discovery.DoScan emptyDisk)) "foo"
  <> None.
Proof.
  apply (proj1 (only_unlink_removes fooDiscovery (Discovery.DoScan emptyDisk) "foo")).
  - reflexivity.
  - discriminate.
Defined.

Section GoodRecords.

Lemma listSubdir_noDot (fs : FileSystem) (skillDir subdir : string) :
  noDotFiles (ParserIO.listSubdir fs skillDir subdir).
Proof.
  unfold noDotFiles, ParserIO.listSubdir.
  destruct (fs_isDirectory fs _) as [[|]|]; try constructor.
  destruct (fs_readdir fs _) as [entries|]; [|constructor].
  apply Forall_forall. intros f Hin. apply filter_In in Hin. destruct Hin as [_ H].
  unfold ParserIO.startsWithDot in H. now apply negb_true_iff in H.
Qed.

Lemma discover_good (fs : FileSystem) (st st1 : Discovery.State) (path : string)
      (skill : DiscoveredSkill) :
  Discovery.discoverSkillFromPath fs st path = (st1, Some skill) ->
  Discovery.truthy (skill_name skill) = true ->
  goodRecord (skill_name skill, skill).
Proof.
  unfold Discovery.discoverSkillFromPath.
  destruct (ParserIO.parseSkillFile fs path) as [p|message]; intros H; inversion H.
  subst. cbn. intros Hname. unfold goodRecord. cbn. split; [reflexivity|].
  split; [intros E; rewrite E in Hname; discriminate Hname|].
  split; [reflexivity|].
  eexists. split; [reflexivity|]. cbn.
  repeat split; apply listSubdir_noDot.
Qed.

Lemma insert_good (st : Discovery.State) (skill : DiscoveredSkill) :
  allGood st -> goodRecord (skill_name skill, skill) ->
  Forall goodRecord (JsMap.set (Discovery.skills st) (skill_name skill) skill).
Proof. intros Hst Hs. now apply set_Forall. Qed.

Lemma scanEntry_good (fs : FileSystem) (searchPath : string) (st : Discovery.State)
      (entry : Dirent) :
  allGood st -> allGood (Discovery.scanEntry fs searchPath st entry).
Proof.
  intros Hst. unfold Discovery.scanEntry.
  destruct (dirent_isDirectory entry); [|exact Hst].
  destruct (fs_access fs _); [|exact Hst].
  destruct (Discovery.discoverSkillFromPath fs st _) as [st1 [skill|]] eqn:E.
  - destruct (discover_Some _ _ _ _ _ E) as [-> _].
    destruct (Discovery.truthy (skill_name skill)) eqn:Et; [|exact Hst].
    unfold allGood. cbn. apply insert_good; [exact Hst|].
    now apply (discover_good fs st st _ skill E).
  - destruct (discover_None _ _ _ _ E) as [message ->]. exact Hst.
Qed.

Lemma fold_good {A : Type} (f : Discovery.State -> A -> Discovery.State) (l : list A) :
  (forall st x, allGood st -> allGood (f st x)) ->
  forall st, allGood st -> allGood (fold_left f l st).
Proof.
  intros Hf. induction l as [|x l IH]; intros st Hst; cbn; [exact Hst|].
  apply IH. now apply Hf.
Qed.

Lemma step_good (st : Discovery.State) (op : Discovery.Op) :
  allGood st -> allGood (Discovery.step st op).
Proof.
  intros Hst. destruct op as [fs| | |fs e]; cbn [Discovery.step].
  - apply fold_good; [|exact Hst]. intros st0 p H0. unfold Discovery.scanPath.
    destruct (Discovery.directoryExists fs p); [|exact H0].
    destruct (fs_readdirTyped fs p) as [entries|message]; [|exact H0].
    apply fold_good; [|exact H0]. intros; now apply scanEntry_good.
  - unfold Discovery.watch. now destruct (Discovery.watcher st).
  - unfold Discovery.close. now destruct (Discovery.watcher st).
  - unfold Discovery.deliver. destruct (Discovery.watcher st) as [w|]; [|exact Hst].
    destruct e as [f|f|f|m]; cbn [Discovery.dispatch].
    + unfold Discovery.onAdd.
      destruct (Discovery.discoverSkillFromPath fs st f) as [st1 [skill|]] eqn:E.
      * destruct (discover_Some _ _ _ _ _ E) as [-> _].
        destruct (Discovery.truthy (skill_name skill)) eqn:Et; [|exact Hst].
        assert (Hg := discover_good fs st st f skill E Et).
        destruct (JsMap.get _ _); unfold allGood; cbn; now apply insert_good.
      * destruct (discover_None _ _ _ _ E) as [message ->]. exact Hst.
    + unfold Discovery.onChange.
      destruct (Discovery.discoverSkillFromPath fs st f) as [st1 [skill|]] eqn:E.
      * destruct (discover_Some _ _ _ _ _ E) as [-> _].
        destruct (Discovery.truthy (skill_name skill)) eqn:Et; [|exact Hst].
        assert (Hg := discover_good fs st st f skill E Et).
        unfold allGood; cbn; now apply insert_good.
      * destruct (discover_None _ _ _ _ E) as [message ->]. exact Hst.
    + unfold Discovery.onUnlink.
      destruct (Discovery.findByManifest _ _) as [[n s]|]; [|exact Hst].
      unfold allGood. cbn. now apply delete_Forall.
    + exact Hst.
Qed.

Lemma run_good (defaultPaths customPaths : list string) (ops : list Discovery.Op) :
  allGood (Discovery.run (Discovery.create defaultPaths customPaths) ops).
Proof.
  unfold Discovery.run.
  assert (H0 : allGood (Discovery.create defaultPaths customPaths)) by constructor.
  revert H0. generalize (Discovery.create defaultPaths customPaths).
  induction ops as [|op ops IH]; intros st Hst; cbn; [exact Hst|].
  apply IH. now apply step_good.
Qed.

Lemma get_Some_In {V : Type} (m : JsMap.t V) (k : string) (v : V) :
  JsMap.get m k = Some v -> In (k, v) m.
Proof.
  induction m as [|[k' v'] m IH]; cbn; [discriminate|].
  destruct (String.eqb_spec k' k) as [->|_].
  - intros H; inversion H. now left.
  - intros H. right. now apply IH.
Qed.

End GoodRecords.

(** X7.  Every record the registry ever holds was built from a manifest
    file that parsed: it is filed under its own name, which is not empty
    and is the name of its front matter, as its description is; its
    directory is the directory of its manifest file; and its lists of
    scripts, references and assets, read from the disk, hold no entry that
    starts with a dot. *)
Theorem registered_records_are_built
  (defaultPaths customPaths : list string) (ops : list Discovery.Op)
  (name : string) (skill : DiscoveredSkill) :
  Discovery.getSkill (Discovery.run (Discovery.create defaultPaths customPaths) ops) name
  = Some skill ->
  goodRecord (name, skill).
Proof.
  intros H. apply get_Some_In in H.
  pose proof (run_good defaultPaths customPaths ops) as Hall.
  unfold allGood in Hall. rewrite Forall_forall in Hall. now apply Hall.
Qed.

(** The record of [foo] after a scan of the disk that holds it. *)
Lemma registered_records_are_built_witness : goodRecord ("foo", fooSkill).
Proof.
  apply (registered_records_are_built ["/skills"] [] [Discovery.DoScan fooDisk]).
  reflexivity.
Defined.

Section Books.

Lemma sameWatcher_books (st st' : Discovery.State) :
  sameWatcher st st' -> watcherBooks st -> watcherBooks st'.
Proof.
  intros [Hw [Hp [Hc Hd]]]. unfold watcherBooks. now rewrite Hw, Hp, Hc, Hd.
Qed.

Lemma step_books (st : Discovery.State) (op : Discovery.Op) :
  watcherBooks st -> watcherBooks (Discovery.step st op).
Proof.
  intros Hb. destruct op as [fs| | |fs e]; cbn [Discovery.step].
  - eapply sameWatcher_books; [|exact Hb]. apply scanned_sameWatcher, scan_scanned.
  - unfold Discovery.watch. destruct (Discovery.watcher st) as [w|] eqn:E; [exact Hb|].
    destruct Hb as [Hseq Hopen]. rewrite E in Hopen.
    split; cbn; [exact Hseq|]. now rewrite Hopen.
  - unfold Discovery.close. destruct (Discovery.watcher st) as [w|] eqn:E; [|exact Hb].
    destruct Hb as [Hseq Hopen]. rewrite E in Hopen. destruct Hopen as [Hid [Hc _]].
    split; cbn.
    + rewrite length_app. cbn. rewrite Nat.add_1_r, seq_S. cbn.
      now rewrite <- Hseq, Hid.
    + rewrite length_app. cbn. lia.
  - unfold Discovery.deliver. destruct (Discovery.watcher st) eqn:E; [|exact Hb].
    eapply sameWatcher_books; [apply dispatch_sameWatcher | exact Hb].
Qed.

Lemma run_searchPaths (st : Discovery.State) (ops : list Discovery.Op) :
  Discovery.searchPaths (Discovery.run st ops) = Discovery.searchPaths st.
Proof.
  unfold Discovery.run. revert st; induction ops as [|op ops IH]; intros st; cbn;
    [reflexivity|].
  rewrite IH. destruct op as [fs| | |fs e]; cbn [Discovery.step].
  - now destruct (scanned_sameWatcher _ _ (scan_scanned fs st)) as [_ [H _]].
  - unfold Discovery.watch. now destruct (Discovery.watcher st).
  - unfold Discovery.close. now destruct (Discovery.watcher st).
  - unfold Discovery.deliver. destruct (Discovery.watcher st); [|reflexivity].
    now destruct (dispatch_sameWatcher fs st e) as [_ [H _]].
Qed.

End Books.

(** X8.  The discovery object never leaks a watcher and never holds two:
    in every state it can reach, the watchers it created are the closed
    ones, closed in the order of their creation, and at most one more, the
    open one; the open one watches [SKILL.md] one level below each of the
    search paths the object was created with, which never change. *)
Theorem watchers_are_accounted_for
  (defaultPaths customPaths : list string) (ops : list Discovery.Op) :
  let st := Discovery.run (Discovery.create defaultPaths customPaths) ops in
  watcherBooks st
  /\ Discovery.searchPaths st = (defaultPaths ++ customPaths)%list
  /\ Discovery.watchersCreated st
     = List.length (Discovery.watchersClosed st)
       + match Discovery.watcher st with Some _ => 1 | None => 0 end.
Proof.
  intros st.
  assert (Hb : watcherBooks st).
  { unfold st, Discovery.run.
    assert (H0 : watcherBooks (Discovery.create defaultPaths customPaths))
      by (split; reflexivity).
    revert H0. generalize (Discovery.create defaultPaths customPaths).
    induction ops as [|op ops IH]; intros s Hs; cbn; [exact Hs|].
    apply IH. now apply step_books. }
  split; [exact Hb|]. split; [apply run_searchPaths|].
  destruct Hb as [_ Hopen]. destruct (Discovery.watcher st) as [w|].
  - destruct Hopen as [_ [Hc _]]. lia.
  - lia.
Qed.

(** X9.  While watching, the report of a new or changed manifest file that
    parses to a record with a name files that record: looking the name up
    afterwards gives exactly the record built from the file, every other
    name resolves as before, and one event is emitted. *)
Theorem report_files_the_record
  (fs : FileSystem) (st : Discovery.State) (filePath : string) (skill : DiscoveredSkill)
  (e : Discovery.WatchEvent) :
  Discovery.watcher st <> None ->
  e = Discovery.FileAdded filePath \/ e = Discovery.FileChanged filePath ->
  Discovery.discoverSkillFromPath fs st filePath = (st, Some skill) ->
  skill_name skill <> EmptyString ->
  let st' := Discovery.deliver fs st e in
  Discovery.getSkill st' (skill_name skill) = Some skill
  /\ (forall other, other <> skill_name skill ->
                    Discovery.getSkill st' other = Discovery.getSkill st other)
  /\ List.length (Discovery.emitted st') = S (List.length (Discovery.emitted st))
  /\ skillMdPath skill = filePath
  /\ skill_path skill = NodePath.dirname filePath.
Proof.
  intros Hwatch He Hdisc Hname st'.
  destruct (discover_Some _ _ _ _ _ Hdisc) as [_ [Hbuilt Hpath]].
  assert (Hskills : Discovery.skills st' = insertRecord (Discovery.skills st) skill
                    /\ List.length (Discovery.emitted st')
                       = S (List.length (Discovery.emitted st))).
  { unfold st', Discovery.deliver.
    destruct (Discovery.watcher st) as [w|]; [|now elim Hwatch].
    apply String.eqb_neq in Hname.
    destruct He as [-> | ->]; cbn [Discovery.dispatch];
      unfold Discovery.onAdd, Discovery.onChange, Discovery.truthy;
      rewrite Hdisc, Hname; cbn [negb].
    - destruct (JsMap.get _ _); cbn; rewrite length_app; cbn; split;
        try reflexivity; lia.
    - cbn. rewrite length_app. cbn. split; [reflexivity | lia]. }
  destruct Hskills as [Hs Hl]. unfold Discovery.getSkill. rewrite Hs.
  split; [apply get_set_same|]. split.
  - intros other Hne. apply get_set_other. congruence.
  - split; [exact Hl|]. split; [exact Hpath|]. unfold builtRecord in Hbuilt.
    now rewrite Hbuilt, Hpath.
Qed.

(** While watching the disk that holds [foo], the report that its
    manifest file changed files the record read from it. *)
Lemma report_files_the_record_witness :
  Discovery.getSkill
    (Discovery.deliver fooDisk (Discovery.watch fooDiscovery)
                       (Discovery.FileChanged "/skills/foo/SKILL.md")) "foo"
  = Some fooSkill.
Proof.
  destruct (report_files_the_record fooDisk (Discovery.watch fooDiscovery)
              "/skills/foo/SKILL.md" fooSkill
              (Discovery.FileChanged "/skills/foo/SKILL.md")) as [Hfound _].
  - discriminate.
  - now right.
  - reflexivity.
  - discriminate.
  - exact Hfound.
Defined.

Section Search.




End Search.



(* ===================================================================== *)
(** * More on scripts *)

Section Interpreters.

Lemma last_snoc {A : Type} (l : list A) (x d : A) : last (l ++ [x]) d = x.
Proof.
  induction l as [|y l IH]; [reflexivity|].
  cbn [app]. destruct (l ++ [x])%list eqn:E; [now destruct l | exact IH].
Qed.

Lemma basename_child (dir b : string) :
  plainName b -> NodePath.basename (dir ++ String NodePath.sep b) = b.
Proof.
  intros [Hne [_ [_ Hsplit]]]. unfold NodePath.basename.
  rewrite split_app_sep. unfold NodePath.sep. rewrite Hsplit, filter_app. cbn [filter].
  unfold NodePath.nonEmpty at 2. apply String.eqb_neq in Hne. rewrite Hne. cbn [negb].
  apply last_snoc.
Qed.

Lemma basename_plain (b : string) : plainName b -> NodePath.basename b = b.
Proof.
  intros [Hne [_ [_ Hsplit]]]. unfold NodePath.basename.
  unfold NodePath.sep. rewrite Hsplit. cbn [filter]. unfold NodePath.nonEmpty.
  apply String.eqb_neq in Hne. now rewrite Hne.
Qed.

Lemma basename_childOf (dir b : string) :
  plainName b -> NodePath.basename (childOf dir b) = b.
Proof.
  intros Hb. unfold childOf.
  destruct (String.eqb dir "/").
  - apply (basename_child EmptyString b Hb).
  - destruct (String.eqb dir "."); [now apply basename_plain|].
    now apply basename_child.
Qed.

Lemma extname_childOf (dir b : string) :
  plainName b -> NodePath.extname (childOf dir b) = NodePath.extname b.
Proof.
  intros Hb. unfold NodePath.extname.
  now rewrite basename_childOf, basename_plain.
Qed.

Lemma extname_basename (path : string) :
  plainName (NodePath.basename path) ->
  NodePath.extname (NodePath.basename path) = NodePath.extname path.
Proof.
  intros Hb. unfold NodePath.extname. now rewrite basename_plain.
Qed.

(** What validation returns when it accepts. *)
Lemma validate_accepts (cwd scriptName skillPath : string) :
  Tools.valid (Tools.validateScriptPath cwd scriptName skillPath) = true ->
  let full := childOf (NodePath.resolve cwd [NodePath.join [skillPath; "scripts"]])
                      (NodePath.basename scriptName) in
  Tools.validateScriptPath cwd scriptName skillPath = Tools.mkValidation true None (Some full)
  /\ plainName (NodePath.basename scriptName)
  /\ Tools.allowedExtension (Js.toLowerCase (NodePath.extname scriptName)) = true.
Proof.
  unfold Tools.validateScriptPath.
  destruct (Js.includes (NodePath.normalize scriptName) ".."
            || Js.startsWith (NodePath.normalize scriptName) "/"
            || Js.includes (NodePath.normalize scriptName) "\");
    [intros H; discriminate H|].
  destruct (Tools.allowedExtension (Js.toLowerCase (NodePath.extname scriptName)))
    eqn:Eext; cbn [negb]; [|intros H; discriminate H].
  assert (Hplain := allowed_basename_plain scriptName Eext).
  rewrite (resolve_child cwd _ _ Hplain).
  destruct (Js.startsWith _ _); cbn [negb]; [|intros H; discriminate H].
  intros _. cbv zeta. split; [reflexivity | split; [exact Hplain | reflexivity]].
Qed.

End Interpreters.

(** X11.  A script that passes validation is run by the interpreter of its
    own extension, letters of any case: [bash] for [.sh], [node] for [.js],
    [npx tsx] for [.ts], [python3] for [.py], each on the resolved path;
    the fallback of [getScriptCommand] is never taken for it. *)
Theorem validated_script_has_its_interpreter
  (cwd scriptName skillPath full : string) :
  Tools.validateScriptPath cwd scriptName skillPath
  = Tools.mkValidation true None (Some full) ->
  interpreter (Js.toLowerCase (NodePath.extname scriptName)) full
  = Some (Tools.getScriptCommand full).
Proof.
  intros Hv.
  assert (Hvalid : Tools.valid (Tools.validateScriptPath cwd scriptName skillPath) = true)
    by now rewrite Hv.
  destruct (validate_accepts cwd scriptName skillPath Hvalid) as [Hfull [Hplain Hext]].
  rewrite Hfull in Hv. inversion Hv as [Hf]. clear Hv.
  unfold Tools.getScriptCommand, interpreter.
  rewrite (extname_childOf _ _ Hplain), (extname_basename _ Hplain).
  unfold Tools.allowedExtension, Tools.ALLOWED_EXTENSIONS in Hext. cbn [existsb] in Hext.
  set (ext := Js.toLowerCase (NodePath.extname scriptName)) in *.
  destruct (String.eqb ext ".sh") eqn:E1; [reflexivity|].
  destruct (String.eqb ext ".js") eqn:E2; [reflexivity|].
  destruct (String.eqb ext ".ts") eqn:E3; [reflexivity|].
  destruct (String.eqb ext ".py") eqn:E4; [reflexivity|].
  discriminate Hext.
Qed.

(** The script [Deploy.PY] of [foo] is run by [python3]. *)
Lemma validated_script_has_its_interpreter_witness :
  Tools.getScriptCommand "/skills/foo/scripts/Deploy.PY"
  = ("python3", ["/skills/foo/scripts/Deploy.PY"]).
Proof.
  assert (H := validated_script_has_its_interpreter "/" "Deploy.PY" "/skills/foo"
                 "/skills/foo/scripts/Deploy.PY" eq_refl).
  vm_compute in H. inversion H. reflexivity.
Defined.

(** X12.  [run_skill_script] spawns at most one process, and spawns one
    only when scripts are allowed, the skill is registered, the script name
    passed validation and the resolved file can be accessed; the process is
    the interpreter of the script on the resolved file, followed by the
    caller's arguments, in the skill's directory with the configured
    timeout.  The answer is an error exactly when nothing was spawned. *)
Theorem run_skill_script_spawns_checked
  (sys : Tools.System) (discovery : Discovery.State) (allowScripts : bool)
  (scriptTimeout : Z) (skillName script : string) (scriptArgs : list string) :
  let answer := Tools.run_skill_script sys discovery allowScripts scriptTimeout
                                       skillName script scriptArgs in
  List.length (snd answer) <= 1
  /\ ((exists message, fst answer = Tools.errorResult message) <-> snd answer = [])
  /\ (forall sp, In sp (snd answer) ->
        allowScripts = true
        /\ exists skill full,
            Discovery.getSkill discovery skillName = Some skill
            /\ Tools.validateScriptPath (Tools.sys_cwd sys) script (skill_path skill)
               = Tools.mkValidation true None (Some full)
            /\ Tools.sys_access sys full = true
            /\ sp = Tools.mkSpawn (fst (Tools.getScriptCommand full))
                      (snd (Tools.getScriptCommand full) ++ scriptArgs)%list
                      (skill_path skill) scriptTimeout).
Proof.
  cbv zeta. unfold Tools.run_skill_script.
  destruct allowScripts; cbn [negb];
    [|cbn; split; [lia | split; [split; eauto | intros sp []]]].
  destruct (Discovery.getSkill discovery skillName) as [skill|];
    [|cbn; split; [lia | split; [split; eauto | intros sp []]]].
  destruct (Tools.valid (Tools.validateScriptPath (Tools.sys_cwd sys) script
                           (skill_path skill))) eqn:Ev; cbn [negb];
    [|cbn; split; [lia | split; [split; eauto | intros sp []]]].
  destruct (validate_accepts _ _ _ Ev) as [Hfull _]. rewrite Hfull. cbn [Tools.fullPath].
  set (full := childOf _ _) in *.
  destruct (Tools.sys_access sys full) eqn:Ea; cbn [negb];
    [|cbn; split; [lia | split; [split; eauto | intros sp []]]].
  destruct (Tools.getScriptCommand full) as [command cmdArgs] eqn:Ec.
  destruct (Tools.executeScript _) as [result|]; cbn.
  - split; [lia|]. split; [split; [intros [m H]; discriminate H | discriminate]|].
    intros sp [<-|[]]. split; [reflexivity|]. exists skill, full. rewrite Ec. cbn. repeat split; assumption || reflexivity.
  - split; [lia|]. split; [split; [intros [m H]; discriminate H | discriminate]|].
    intros sp [<-|[]]. split; [reflexivity|]. exists skill, full. rewrite Ec. cbn. repeat split; assumption || reflexivity.
Qed.

(** The script [run.sh] of [foo]: one process, [bash] on the resolved
    file with the caller's argument, in the directory of [foo]. *)
Lemma run_skill_script_spawns_checked_witness :
  snd (Tools.run_skill_script fooSystem fooDiscovery true 30000 "foo" "run.sh" ["-v"])
  = [Tools.mkSpawn "bash" ["/skills/foo/scripts/run.sh"; "-v"] "/skills/foo" 30000].
Proof.
  destruct (run_skill_script_spawns_checked fooSystem fooDiscovery true 30000
              "foo" "run.sh" ["-v"]) as [_ [_ Hspawn]].
  destruct (Hspawn (Tools.mkSpawn "bash" ["/skills/foo/scripts/run.sh"; "-v"]
                      "/skills/foo" 30000)) as [_ _]; [now left | reflexivity].
Defined.

Section Signals.






End Signals.



(* ===================================================================== *)
(** * Listed resources and their reading *)

Section Numbers.

Lemma readDigits_acc (d : Decimal.uint) (acc : positive) :
  Js.readDigits (NilEmpty.string_of_uint d) (Z.pos acc) true
  = Some (Z.pos (Pos.of_uint_acc d acc)).
Proof.
  revert acc; induction d as [|d IH|d IH|d IH|d IH|d IH|d IH|d IH|d IH|d IH|d IH];
    intros acc; cbn [NilEmpty.string_of_uint Js.readDigits Pos.of_uint_acc];
    [reflexivity|..];
    match goal with
    | |- context [Js.isDigit ?c] => change (Js.isDigit c) with true
    end; cbv iota;
    match goal with
    | |- context [Js.digitValue ?c] =>
        let v := eval vm_compute in (Js.digitValue c) in
        change (Js.digitValue c) with v
    end;
    rewrite <- IH; f_equal; lia.
Qed.

Lemma readDigits_uint (d : Decimal.uint) (seen : bool) :
  d <> Decimal.Nil \/ seen = true ->
  Js.readDigits (NilEmpty.string_of_uint d) 0%Z seen
  = Some (Z.of_N (Pos.of_uint d)).
Proof.
  revert seen; induction d as [|d IH|d IH|d IH|d IH|d IH|d IH|d IH|d IH|d IH|d IH];
    intros seen Hseen; cbn [NilEmpty.string_of_uint Js.readDigits Pos.of_uint];
    [destruct Hseen as [H| ->]; [now elim H | reflexivity] | ..];
    match goal with
    | |- context [Js.isDigit ?c] => change (Js.isDigit c) with true
    end; cbv iota;
    match goal with
    | |- context [Js.digitValue ?c] =>
        let v := eval vm_compute in (Js.digitValue c) in
        change (Js.digitValue c) with v
    end;
    first [ apply IH; now right
          | change (10 * 0 + ?v)%Z with v; cbn [Z.of_N]; apply readDigits_acc ].
Qed.

(** A decimal numeral is read back as the number it writes. *)
Lemma parseInt_uint (d : Decimal.uint) :
  d <> Decimal.Nil ->
  Js.parseInt (NilEmpty.string_of_uint d) = Some (Z.of_N (Pos.of_uint d)).
Proof.
  intros Hd. rewrite <- (readDigits_uint d false) by now left.
  destruct d; [now elim Hd | reflexivity..].
Qed.

Lemma to_uint_not_nil (p : positive) : Pos.to_uint p <> Decimal.Nil.
Proof.
  intros H. pose proof (DecimalPos.Unsigned.of_to p) as E.
  rewrite H in E. discriminate E.
Qed.

Lemma parseInt_numberToString (n : nat) :
  Js.parseInt (Js.numberToString (Z.of_nat n)) = Some (Z.of_nat n).
Proof.
  unfold Js.numberToString. destruct (Z.of_nat n) as [|p|p] eqn:E; [reflexivity| |lia].
  cbn [Z.to_int NilZero.string_of_int]. unfold NilZero.string_of_uint.
  pose proof (to_uint_not_nil p) as Hp.
  destruct (Pos.to_uint p) eqn:Ed; [now elim Hp|..];
    rewrite <- Ed; (rewrite parseInt_uint by exact (to_uint_not_nil p));
    now rewrite DecimalPos.Unsigned.of_to.
Qed.

Lemma split_uint (d : Decimal.uint) :
  Js.split "/" (NilEmpty.string_of_uint d) = [NilEmpty.string_of_uint d].
Proof.
  induction d; cbn [NilEmpty.string_of_uint Js.split]; [reflexivity|..];
    match goal with
    | |- context [Ascii.eqb ?c ?s] => change (Ascii.eqb c s) with false
    end; cbv iota; now rewrite IHd.
Qed.

(** The numeral of an index is not empty and holds no separator. *)
Lemma numberToString_segment (n : nat) :
  Js.numberToString (Z.of_nat n) <> EmptyString
  /\ Js.split "/" (Js.numberToString (Z.of_nat n)) = [Js.numberToString (Z.of_nat n)].
Proof.
  unfold Js.numberToString. destruct (Z.of_nat n) as [|p|p] eqn:E;
    [split; [discriminate | reflexivity] | | lia].
  cbn [Z.to_int NilZero.string_of_int]. unfold NilZero.string_of_uint.
  pose proof (to_uint_not_nil p) as Hp.
  destruct (Pos.to_uint p) eqn:Ed; [now elim Hp|..];
    rewrite <- Ed; (split; [|apply split_uint]);
    rewrite Ed; discriminate.
Qed.

End Numbers.

Section UriOfSegments.

Lemma uriSegment_kept (s : string) :
  uriSegment s -> negb (String.eqb s EmptyString) = true.
Proof. intros [Hne _]. apply String.eqb_neq in Hne. now rewrite Hne. Qed.

Lemma pathSegments_one (s : string) : uriSegment s -> pathSegments s = [s].
Proof.
  intros Hs. unfold pathSegments. rewrite (proj2 Hs). cbn [filter].
  now rewrite (uriSegment_kept s Hs).
Qed.

Lemma pathSegments_cons (s rest : string) :
  uriSegment s -> pathSegments (s ++ "/" ++ rest) = s :: pathSegments rest.
Proof.
  intros Hs. unfold pathSegments.
  change (s ++ "/" ++ rest) with (s ++ String "/" rest).
  rewrite split_app_sep, (proj2 Hs). cbn [app filter].
  now rewrite (uriSegment_kept s Hs).
Qed.

Lemma typeName_segment (t : Resources.ResourceType) : uriSegment (Resources.typeName t).
Proof. destruct t; split; (discriminate || reflexivity). Qed.

Lemma parse_content (name : string) :
  uriSegment name ->
  Resources.parseSkillUri ("loadout://" ++ name)
  = Some (Resources.mkParsedSkillUri name Resources.content None).
Proof.
  intros Hn. change ("loadout://" ++ name) with (Resources.scheme ++ name).
  now rewrite parseSkillUri_of_path, pathSegments_one.
Qed.

Lemma parse_manifest (name : string) :
  uriSegment name ->
  Resources.parseSkillUri ("loadout://" ++ name ++ "/manifest")
  = Some (Resources.mkParsedSkillUri name Resources.manifest None).
Proof.
  intros Hn.
  change ("loadout://" ++ name ++ "/manifest")
    with (Resources.scheme ++ name ++ "/" ++ "manifest").
  rewrite parseSkillUri_of_path, pathSegments_cons by exact Hn.
  reflexivity.
Qed.

Lemma parse_section (name slug : string) :
  uriSegment name -> uriSegment slug ->
  Resources.parseSkillUri ("loadout://" ++ name ++ "/section/" ++ slug)
  = Some (Resources.mkParsedSkillUri name Resources.section (Some slug)).
Proof.
  intros Hn Hs.
  change ("loadout://" ++ name ++ "/section/" ++ slug)
    with (Resources.scheme ++ name ++ "/" ++ "section" ++ "/" ++ slug).
  rewrite parseSkillUri_of_path, pathSegments_cons by exact Hn.
  rewrite (pathSegments_cons "section" slug) by (split; (discriminate || reflexivity)).
  rewrite pathSegments_one by exact Hs. reflexivity.
Qed.

Lemma parse_code (name index : string) :
  uriSegment name -> uriSegment index ->
  Resources.parseSkillUri ("loadout://" ++ name ++ "/code/" ++ index)
  = Some (Resources.mkParsedSkillUri name Resources.code (Some index)).
Proof.
  intros Hn Hs.
  change ("loadout://" ++ name ++ "/code/" ++ index)
    with (Resources.scheme ++ name ++ "/" ++ "code" ++ "/" ++ index).
  rewrite parseSkillUri_of_path, pathSegments_cons by exact Hn.
  rewrite (pathSegments_cons "code" index) by (split; (discriminate || reflexivity)).
  rewrite pathSegments_one by exact Hs. reflexivity.
Qed.

(** The files of the three folders: what follows the kind is joined
    back. *)
Lemma parse_file (name : string) (t : Resources.ResourceType) (param : string) :
  uriSegment name -> fileKind t ->
  pathSegments param <> [] ->
  Resources.parseSkillUri ("loadout://" ++ name ++ "/" ++ Resources.typeName t ++ "/" ++ param)
  = Some (Resources.mkParsedSkillUri name t (Some (Js.join "/" (pathSegments param)))).
Proof.
  intros Hn Ht Hp.
  change ("loadout://" ++ name ++ "/" ++ Resources.typeName t ++ "/" ++ param)
    with (Resources.scheme ++ name ++ "/" ++ Resources.typeName t ++ "/" ++ param).
  rewrite parseSkillUri_of_path, pathSegments_cons by exact Hn.
  rewrite pathSegments_cons by apply typeName_segment.
  destruct (pathSegments param) as [|seg rest]; [now elim Hp|].
  destruct Ht as [-> | [-> | ->]]; reflexivity.
Qed.

Lemma append_cancel (p a b : string) : p ++ a = p ++ b -> a = b.
Proof.
  induction p as [|c p IH]; cbn [append]; intros H; [exact H|].
  apply IH. now inversion H.
Qed.

Lemma not_help (name rest : string) :
  uriSegment name -> String.eqb ("loadout://" ++ name ++ "/" ++ rest) "loadout://help" = false.
Proof.
  intros [Hne Hsplit]. apply String.eqb_neq. intros H.
  change ("loadout://" ++ name ++ "/" ++ rest)
    with ("loadout://" ++ (name ++ String "/" rest)) in H.
  change "loadout://help" with ("loadout://" ++ "help") in H.
  apply append_cancel in H.
  assert (Hs : Js.split "/" (name ++ String "/" rest) = Js.split "/" "help")
    by now rewrite H.
  rewrite split_app_sep, Hsplit in Hs.
  pose proof (split_not_nil "/" rest) as Hr.
  destruct (Js.split "/" rest); [now elim Hr | discriminate Hs].
Qed.

End UriOfSegments.

Section Climbing.

Lemma startsWith_app (p s : string) :
  p <> EmptyString -> Js.startsWith (p ++ s) "/" = Js.startsWith p "/".
Proof.
  intros Hp. destruct p as [|a p]; [now elim Hp|].
  unfold Js.startsWith. cbn [append String.prefix].
  destruct (ascii_dec "/" a); [|reflexivity].
  now destruct (p ++ s), p.
Qed.

Lemma list_ascii_app (s t : string) :
  list_ascii_of_string (s ++ t)
  = (list_ascii_of_string s ++ list_ascii_of_string t)%list.
Proof. induction s as [|c s IH]; cbn; [reflexivity | now rewrite IH]. Qed.

Lemma endsWithSlash_app (s b : string) :
  b <> EmptyString -> NodePath.endsWithSlash (s ++ b) = NodePath.endsWithSlash b.
Proof.
  intros Hb. destruct b as [|c b]; [now elim Hb|].
  unfold NodePath.endsWithSlash. rewrite list_ascii_app, rev_app_distr.
  cbn [list_ascii_of_string rev].
  destruct (rev (list_ascii_of_string b)); reflexivity.
Qed.

Lemma normalize_same (p q : string) :
  p <> EmptyString -> q <> EmptyString ->
  Js.startsWith p "/" = Js.startsWith q "/" ->
  NodePath.endsWithSlash p = NodePath.endsWithSlash q ->
  (forall allow,
      fold_left (NodePath.pushSegment allow) (Js.split NodePath.sep p) []
      = fold_left (NodePath.pushSegment allow) (Js.split NodePath.sep q) []) ->
  NodePath.normalize p = NodePath.normalize q.
Proof.
  intros Hp Hq Habs Hend Hfold. unfold NodePath.normalize, NodePath.normalizeString.
  apply String.eqb_neq in Hp, Hq. now rewrite Hp, Hq, Habs, Hend, Hfold.
Qed.

Lemma pushSegment_dotdot (allow : bool) (top : string) (kept : list string) :
  top <> ".." -> NodePath.pushSegment allow (top :: kept) ".." = kept.
Proof.
  intros Ht. unfold NodePath.pushSegment.
  change (String.eqb ".." EmptyString || String.eqb ".." ".") with false.
  change (String.eqb ".." "..") with true. cbv iota.
  apply String.eqb_neq in Ht. now rewrite Ht.
Qed.

(** A folder and a step back out of it cancel. *)
Lemma fold_climbs (allow : bool) (pre : list string) (folder b : string) :
  plainName folder ->
  fold_left (NodePath.pushSegment allow) (pre ++ [folder; ".."; b]) []
  = fold_left (NodePath.pushSegment allow) (pre ++ [b]) [].
Proof.
  intros Hf. rewrite !fold_left_app. cbn [fold_left].
  rewrite (pushSegment_plain allow _ folder Hf).
  rewrite pushSegment_dotdot by (destruct Hf as [_ [_ [H _]]]; exact H).
  reflexivity.
Qed.

Lemma split_climb (folder b : string) :
  plainName folder -> plainName b ->
  Js.split "/" (folder ++ "/" ++ "../" ++ b) = [folder; ".."; b].
Proof.
  intros [_ [_ [_ Hf]]] [_ [_ [_ Hb]]].
  change (folder ++ "/" ++ "../" ++ b) with (folder ++ String "/" (".." ++ String "/" b)).
  rewrite !split_app_sep, Hf, Hb. reflexivity.
Qed.

Lemma join_climbs (dir folder b : string) :
  plainName folder -> plainName b ->
  NodePath.join [dir; folder; "../" ++ b] = NodePath.join [dir; b].
Proof.
  intros Hf Hb.
  destruct (plainName_relative folder Hf) as [Hfrel Hfne].
  destruct (plainName_relative b Hb) as [Hbrel Hbne].
  assert (Hb' : b <> EmptyString) by (destruct Hb as [H _]; exact H).
  assert (Hf' : folder <> EmptyString) by (destruct Hf as [H _]; exact H).
  assert (Nf : NodePath.nonEmpty folder = true)
    by (unfold NodePath.nonEmpty; now rewrite Hfne).
  assert (Nb : NodePath.nonEmpty b = true)
    by (unfold NodePath.nonEmpty; now rewrite Hbne).
  unfold NodePath.join. cbn [filter]. rewrite Nf, Nb.
  change (NodePath.nonEmpty ("../" ++ b)) with true. cbv iota.
  unfold NodePath.nonEmpty.
  destruct (String.eqb_spec dir EmptyString) as [->|Hd]; cbn [negb];
    unfold Js.join; cbn [String.concat].
  - apply normalize_same.
    + destruct folder; [now elim Hf' | discriminate].
    + exact Hb'.
    + rewrite startsWith_app by exact Hf'. now rewrite Hfrel, Hbrel.
    + replace (folder ++ "/" ++ "../" ++ b) with ((folder ++ "/" ++ "../") ++ b)
        by (now rewrite !string_append_assoc).
      apply endsWithSlash_app. exact Hb'.
    + intros allow. unfold NodePath.sep.
      rewrite (split_climb folder b Hf Hb).
      rewrite (proj2 (proj2 (proj2 Hb))).
      apply (fold_climbs allow [] folder b Hf).
  - apply normalize_same.
    + destruct dir; [now elim Hd | discriminate].
    + destruct dir; [now elim Hd | discriminate].
    + now rewrite !startsWith_app by exact Hd.
    + replace (dir ++ "/" ++ folder ++ "/" ++ "../" ++ b)
        with ((dir ++ "/" ++ folder ++ "/" ++ "../") ++ b)
        by (now rewrite !string_append_assoc).
      replace (dir ++ "/" ++ b) with ((dir ++ "/") ++ b)
        by (now rewrite !string_append_assoc).
      now rewrite !endsWithSlash_app by exact Hb'.
    + intros allow. unfold NodePath.sep.
      change (dir ++ "/" ++ folder ++ "/" ++ "../" ++ b)
        with (dir ++ String "/" (folder ++ "/" ++ "../" ++ b)).
      change (dir ++ "/" ++ b) with (dir ++ String "/" b).
      rewrite !split_app_sep, (split_climb folder b Hf Hb).
      rewrite (proj2 (proj2 (proj2 Hb))).
      now apply fold_climbs.
Qed.

End Climbing.

Section Listing.

Variable helpContent : string.
Variable guessMimeType : string -> string.
Variable stringify : SkillManifest -> string.
Variable fs : FileSystem.
Variable discovery : Discovery.State.

Lemma codeResources_nth (name : string) (blocks : list CodeBlock) (k i : nat)
      (block : CodeBlock) :
  nth_error blocks i = Some block ->
  In (Resources.codeResource name (k + i) block) (Resources.codeResources name k blocks).
Proof.
  revert k i; induction blocks as [|b blocks IH]; intros k i H.
  - destruct i; discriminate H.
  - destruct i as [|i]; cbn [nth_error] in H; cbn [Resources.codeResources].
    + inversion H; subst. rewrite Nat.add_0_r. now left.
    + right. rewrite Nat.add_succ_r. apply (IH (S k) i H).
Qed.

(** What is listed for a registered skill is listed. *)
Lemma listed_of_skill (skill : DiscoveredSkill) (r : Resources.Resource) :
  Discovery.getSkill discovery (skill_name skill) = Some skill ->
  In r (Resources.skillResources guessMimeType skill) ->
  In r (Resources.listResources guessMimeType discovery).
Proof.
  intros Hget Hr. unfold Resources.listResources. right.
  apply in_flat_map. exists skill. split; [|exact Hr].
  unfold Discovery.getAllSkills, JsMap.values.
  apply get_Some_In in Hget. now apply (in_map snd) in Hget.
Qed.

Lemma listed_of_parsed (skill : DiscoveredSkill) (p : ParsedSkill)
      (r : Resources.Resource) :
  Discovery.getSkill discovery (skill_name skill) = Some skill ->
  parsed skill = Some p ->
  In r (map (Resources.sectionResource (skill_name skill)) (toc p)
        ++ Resources.codeResources (skill_name skill) 0 (codeBlocks p)
        ++ map (Resources.fileResource guessMimeType (skill_name skill)
                  Resources.references "Reference") (files_references (files p))
        ++ map (Resources.fileResource guessMimeType (skill_name skill)
                  Resources.scripts "Script") (files_scripts (files p))
        ++ map (Resources.fileResource guessMimeType (skill_name skill)
                  Resources.assets "Asset") (files_assets (files p)))%list ->
  In r (Resources.listResources guessMimeType discovery).
Proof.
  intros Hget Hp Hr. apply (listed_of_skill skill r Hget).
  unfold Resources.skillResources. rewrite Hp. right. right. exact Hr.
Qed.

Lemma eqb_append (p a b : string) : String.eqb (p ++ a) (p ++ b) = String.eqb a b.
Proof.
  induction p as [|c p IH]; cbn [append String.eqb]; [reflexivity|].
  now rewrite Ascii.eqb_refl.
Qed.

Lemma readResource_file (name : string) (t : Resources.ResourceType)
      (rest param : string) (skill : DiscoveredSkill) :
  uriSegment name -> fileKind t ->
  pathSegments rest <> [] ->
  Js.join "/" (pathSegments rest) = param -> param <> EmptyString ->
  Discovery.getSkill discovery name = Some skill ->
  let uri := "loadout://" ++ name ++ "/" ++ Resources.typeName t ++ "/" ++ rest in
  Resources.readResource helpContent guessMimeType stringify fs discovery uri
  = fileAnswer guessMimeType fs uri t param
      (NodePath.join [skill_path skill; Resources.typeName t; param]).
Proof.
  intros Hn Ht Hrest Hjoin Hparam Hget uri. unfold Resources.readResource.
  unfold uri at 1. rewrite (not_help name _ Hn).
  unfold uri at 1. rewrite (parse_file name t rest Hn Ht Hrest), Hjoin.
  cbn [Resources.uri_name Resources.uri_type Resources.uri_param].
  rewrite Hget.
  assert (E : Resources.readFileResource guessMimeType fs uri t (Some param) skill
              = fileAnswer guessMimeType fs uri t param
                  (NodePath.join [skill_path skill; Resources.typeName t; param])).
  { unfold Resources.readFileResource. now rewrite (falsy_Some _ Hparam). }
  destruct Ht as [-> | [-> | ->]]; exact E.
Qed.

End Listing.

(** X14.  Every code block of a registered skill is listed, and the URI
    it is listed under reads that very block back, with the MIME type of
    the listing: the index written into the URI is the one [parseInt]
    reads. *)
Theorem listed_code_block_reads_back
  (helpContent : string) (guessMimeType : string -> string)
  (stringify : SkillManifest -> string) (fs : FileSystem)
  (discovery : Discovery.State) (skill : DiscoveredSkill) (p : ParsedSkill)
  (i : nat) (block : CodeBlock) :
  Discovery.getSkill discovery (skill_name skill) = Some skill ->
  uriSegment (skill_name skill) ->
  parsed skill = Some p ->
  nth_error (codeBlocks p) i = Some block ->
  let r := Resources.codeResource (skill_name skill) i block in
  In r (Resources.listResources guessMimeType discovery)
  /\ Resources.readResource helpContent guessMimeType stringify fs discovery
       (Resources.res_uri r)
     = Ok (Resources.mkResourceContents (Resources.res_uri r)
             (Resources.res_mimeType r) (cb_content block)).
Proof.
  intros Hget Hname Hp Hnth r. split.
  - apply (listed_of_parsed guessMimeType discovery skill p r Hget Hp).
    apply in_or_app. right. apply in_or_app. left.
    apply (codeResources_nth (skill_name skill) (codeBlocks p) 0 i block Hnth).
  - unfold r. cbn [Resources.codeResource Resources.res_uri Resources.res_mimeType].
    apply (readResource_code_in_range helpContent guessMimeType stringify fs discovery
             _ (skill_name skill) (Js.numberToString (Z.of_nat i)) skill p i block);
      try assumption.
    + apply parse_code; [exact Hname | apply numberToString_segment].
    + apply parseInt_numberToString.
Qed.

(** The second code block of [foo]. *)
Lemma listed_code_block_reads_back_witness :
  Resources.readResource "help" (fun _ => "text/plain") (fun _ => "{}") emptyDisk
    fooDiscovery "loadout://foo/code/1"
  = Ok (Resources.mkResourceContents "loadout://foo/code/1" "text/plain" "run it").
Proof.
  apply (listed_code_block_reads_back "help" (fun _ => "text/plain") (fun _ => "{}")
           emptyDisk fooDiscovery fooSkill fooDocument 1
           (mkCodeBlock None 4 "run it")).
  - reflexivity.
  - split; [discriminate | reflexivity].
  - reflexivity.
  - reflexivity.
Defined.

(** X15.  Every file listed for a registered skill is listed under a URI
    that reads the file of that name in the folder of its kind below the
    skill's directory; a failure to read it is reported as a missing file
    of that kind and name. *)
Theorem listed_file_reads_its_folder
  (helpContent : string) (guessMimeType : string -> string)
  (stringify : SkillManifest -> string) (fs : FileSystem)
  (discovery : Discovery.State) (skill : DiscoveredSkill) (p : ParsedSkill)
  (t : Resources.ResourceType) (file : string) :
  Discovery.getSkill discovery (skill_name skill) = Some skill ->
  uriSegment (skill_name skill) ->
  parsed skill = Some p ->
  In file (filesOf t (files p)) ->
  uriSegment file ->
  let r := Resources.fileResource guessMimeType (skill_name skill) t (labelOf t) file in
  In r (Resources.listResources guessMimeType discovery)
  /\ Resources.res_mimeType r = guessMimeType file
  /\ Resources.readResource helpContent guessMimeType stringify fs discovery
       (Resources.res_uri r)
     = fileAnswer guessMimeType fs (Resources.res_uri r) t file
         (NodePath.join [skill_path skill; Resources.typeName t; file]).
Proof.
  intros Hget Hname Hp Hin Hfile r.
  assert (Ht : fileKind t).
  { unfold fileKind. destruct t; cbn [filesOf] in Hin; try (now elim Hin); auto. }
  split; [|split].
  - apply (listed_of_parsed guessMimeType discovery skill p r Hget Hp).
    apply in_or_app. right. apply in_or_app. right.
    unfold r. destruct Ht as [-> | [-> | ->]]; cbn [filesOf labelOf] in Hin |- *.
    + apply in_or_app. left. now apply in_map.
    + apply in_or_app. right. apply in_or_app. left. now apply in_map.
    + apply in_or_app. right. apply in_or_app. right. now apply in_map.
  - reflexivity.
  - unfold r. cbn [Resources.fileResource Resources.res_uri].
    apply (readResource_file helpContent guessMimeType stringify fs discovery
             (skill_name skill) t file file skill Hname Ht).
    + rewrite (pathSegments_one file Hfile). discriminate.
    + now rewrite (pathSegments_one file Hfile).
    + exact (proj1 Hfile).
    + exact Hget.
Qed.

(** The reference of [bar]. *)
Lemma listed_file_reads_its_folder_witness :
  Resources.readResource "help" (fun _ => "text/markdown") (fun _ => "{}") barDisk
    barDiscovery "loadout://bar/references/guide.md"
  = Ok (Resources.mkResourceContents "loadout://bar/references/guide.md"
          "text/markdown" "guide").
Proof.
  destruct (listed_file_reads_its_folder "help" (fun _ => "text/markdown")
              (fun _ => "{}") barDisk barDiscovery barSkill
              {| frontmatter := mkFrontmatter "bar" "files" None None None None;
                 body := "text"; toc := []; codeBlocks := []; links := [];
                 files := mkSkillFiles ["run.sh"] ["guide.md"] [] |}
              Resources.references "guide.md")
    as [_ [_ H]].
  - reflexivity.
  - split; [discriminate | reflexivity].
  - reflexivity.
  - now left.
  - split; [discriminate | reflexivity].
  - exact H.
Defined.

(** X16.  After any course of scans and watcher reports, the manifest of
    every skill in the registry is served under its manifest URI, and it
    bears the name the skill is registered under: the refusal of an
    unparsed skill cannot occur. *)
Theorem registered_manifest_is_served
  (helpContent : string) (guessMimeType : string -> string)
  (stringify : SkillManifest -> string) (fs : FileSystem)
  (defaultPaths customPaths : list string) (ops : list Discovery.Op)
  (name : string) (skill : DiscoveredSkill) :
  let st := Discovery.run (Discovery.create defaultPaths customPaths) ops in
  Discovery.getSkill st name = Some skill ->
  uriSegment name ->
  exists p,
    parsed skill = Some p
    /\ m_name (Parser.createManifest p) = name
    /\ Resources.readResource helpContent guessMimeType stringify fs st
         ("loadout://" ++ name ++ "/manifest")
       = Ok (Resources.mkResourceContents ("loadout://" ++ name ++ "/manifest")
               "application/json" (stringify (Parser.createManifest p))).
Proof.
  intros st Hget Hname.
  pose proof (run_good defaultPaths customPaths ops) as Hall.
  unfold allGood in Hall. rewrite Forall_forall in Hall.
  pose proof (Hall (name, skill) (get_Some_In _ _ _ Hget)) as Hgood.
  destruct Hgood as [Hkey [_ [_ [p [Hp [Hfm _]]]]]].
  cbn [fst snd] in Hkey, Hp, Hfm.
  exists p. split; [exact Hp|]. split.
  - cbn [Parser.createManifest m_name]. now rewrite Hfm, <- Hkey.
  - unfold Resources.readResource.
    pose proof (not_help name "manifest" Hname) as Hh.
    change ("loadout://" ++ name ++ "/" ++ "manifest")
      with ("loadout://" ++ name ++ "/manifest") in Hh.
    rewrite Hh, (parse_manifest name Hname).
    cbn [Resources.uri_name Resources.uri_type]. fold st. rewrite Hget, Hp.
    reflexivity.
Qed.

(** The manifest of [foo] after a scan of the disk that holds it. *)
Lemma registered_manifest_is_served_witness :
  exists p,
    m_name (Parser.createManifest p) = "foo"
    /\ Resources.readResource "help" (fun _ => "text/plain") (fun _ => "{}") fooDisk
         (Discovery.run (Discovery.create ["/skills"] []) [Discovery.DoScan fooDisk])
         "loadout://foo/manifest"
       = Ok (Resources.mkResourceContents "loadout://foo/manifest" "application/json" "{}").
Proof.
  destruct (registered_manifest_is_served "help" (fun _ => "text/plain") (fun _ => "{}")
              fooDisk ["/skills"] [] [Discovery.DoScan fooDisk] "foo"
              (mkDiscoveredSkill "foo" "demo" "/skills/foo" "/skills/foo/SKILL.md"
                 (Some fooDocument)))
    as [p [_ [Hn Hr]]].
  - reflexivity.
  - split; [discriminate | reflexivity].
  - exists p. split; [exact Hn | exact Hr].
Defined.

(** X17.  The full content of a registered skill is listed under a URI
    that reads its manifest file, passing on the failure of the disk as
    it is; except for a skill named [help], whose content URI is the one
    of the help resource and reads the help text instead. *)
Theorem listed_content_reads_the_manifest_file
  (helpContent : string) (guessMimeType : string -> string)
  (stringify : SkillManifest -> string) (fs : FileSystem)
  (discovery : Discovery.State) (skill : DiscoveredSkill) :
  Discovery.getSkill discovery (skill_name skill) = Some skill ->
  uriSegment (skill_name skill) ->
  let r := Resources.contentResource skill in
  In r (Resources.listResources guessMimeType discovery)
  /\ Resources.readResource helpContent guessMimeType stringify fs discovery
       (Resources.res_uri r)
     = if String.eqb (skill_name skill) "help" then
         Ok (Resources.mkResourceContents "loadout://help" "text/markdown" helpContent)
       else
         match fs_readFile fs (skillMdPath skill) with
         | Ok text =>
             Ok (Resources.mkResourceContents (Resources.res_uri r) "text/markdown" text)
         | Throw message => Throw message
         end.
Proof.
  intros Hget Hname r. split.
  - apply (listed_of_skill guessMimeType discovery skill r Hget). now left.
  - unfold r. cbn [Resources.contentResource Resources.res_uri].
    unfold Resources.readResource.
    change "loadout://help" with ("loadout://" ++ "help") at 1.
    rewrite eqb_append.
    destruct (String.eqb_spec (skill_name skill) "help") as [E|_].
    + now rewrite E.
    + rewrite (parse_content _ Hname).
      cbn [Resources.uri_name Resources.uri_type]. rewrite Hget.
      now destruct (fs_readFile fs (skillMdPath skill)).
Qed.

(** The content of [bar] is its manifest file. *)
Lemma listed_content_reads_the_manifest_file_witness :
  Resources.readResource "help" (fun _ => "text/plain") (fun _ => "{}") barDisk
    barDiscovery "loadout://bar"
  = Ok (Resources.mkResourceContents "loadout://bar" "text/markdown" "manifest file").
Proof.
  destruct (listed_content_reads_the_manifest_file "help" (fun _ => "text/plain")
              (fun _ => "{}") barDisk barDiscovery barSkill) as [_ H].
  - reflexivity.
  - split; [discriminate | reflexivity].
  - exact H.
Defined.

(** X18.  The files of the three folders are not confined to them: for a
    registered skill, a request for [../b] in a folder reads the entry [b]
    of the skill's directory itself. *)
Theorem file_requests_leave_their_folder
  (helpContent : string) (guessMimeType : string -> string)
  (stringify : SkillManifest -> string) (fs : FileSystem)
  (discovery : Discovery.State) (name : string) (skill : DiscoveredSkill)
  (t : Resources.ResourceType) (b : string) :
  Discovery.getSkill discovery name = Some skill ->
  uriSegment name ->
  fileKind t ->
  plainName b ->
  let uri := "loadout://" ++ name ++ "/" ++ Resources.typeName t ++ "/" ++ "../" ++ b in
  Resources.readResource helpContent guessMimeType stringify fs discovery uri
  = fileAnswer guessMimeType fs uri t ("../" ++ b) (NodePath.join [skill_path skill; b]).
Proof.
  intros Hget Hname Ht Hb uri.
  assert (Hseg : pathSegments ("../" ++ b) = [".."; b]).
  { change ("../" ++ b) with (".." ++ "/" ++ b).
    rewrite pathSegments_cons by (split; [discriminate | reflexivity]).
    rewrite pathSegments_one; [reflexivity|].
    destruct Hb as [H1 [_ [_ H4]]]. now split. }
  assert (Hfolder : plainName (Resources.typeName t)).
  { destruct Ht as [-> | [-> | ->]];
      (split; [discriminate | split; [discriminate | split; [discriminate | reflexivity]]]). }
  rewrite <- (join_climbs (skill_path skill) (Resources.typeName t) b Hfolder Hb).
  apply (readResource_file helpContent guessMimeType stringify fs discovery
           name t ("../" ++ b) ("../" ++ b) skill Hname Ht).
  - rewrite Hseg. discriminate.
  - rewrite Hseg. reflexivity.
  - discriminate.
  - exact Hget.
Qed.

(** A request below [references] that reads the manifest file of
    [bar]. *)
Lemma file_requests_leave_their_folder_witness :
  Resources.readResource "help" (fun _ => "text/markdown") (fun _ => "{}") barDisk
    barDiscovery "loadout://bar/references/../SKILL.md"
  = Ok (Resources.mkResourceContents "loadout://bar/references/../SKILL.md"
          "text/markdown" "manifest file").
Proof.
  apply (file_requests_leave_their_folder "help" (fun _ => "text/markdown")
           (fun _ => "{}") barDisk barDiscovery "bar" barSkill
           Resources.references "SKILL.md").
  - reflexivity.
  - split; [discriminate | reflexivity].
  - now left.
  - split; [discriminate | split; [discriminate | split; [discriminate | reflexivity]]].
Defined.

(** X19.  When every entry of the outline of a registered skill points at
    a line of its body, every section listed for it can be read: the URI
    it is listed under answers with the text [extractSectionContent]
    finds for its slug. *)
Theorem listed_sections_are_readable
  (helpContent : string) (guessMimeType : string -> string)
  (stringify : SkillManifest -> string) (fs : FileSystem)
  (discovery : Discovery.State) (skill : DiscoveredSkill) (p : ParsedSkill)
  (entry : TocEntry) :
  Discovery.getSkill discovery (skill_name skill) = Some skill ->
  uriSegment (skill_name skill) ->
  parsed skill = Some p ->
  outlineInBody p ->
  In entry (toc p) ->
  uriSegment (toc_slug entry) ->
  let r := Resources.sectionResource (skill_name skill) entry in
  In r (Resources.listResources guessMimeType discovery)
  /\ exists text,
      Resources.extractSectionContent (body p) (toc_slug entry) (toc p) = Some text
      /\ Resources.readResource helpContent guessMimeType stringify fs discovery
           (Resources.res_uri r)
         = Ok (Resources.mkResourceContents (Resources.res_uri r) "text/markdown" text).
Proof.
  intros Hget Hname Hp Hout Hin Hslug r. split.
  - apply (listed_of_parsed guessMimeType discovery skill p r Hget Hp).
    apply in_or_app. left. now apply in_map.
  - assert (Hex : exists text,
               Resources.extractSectionContent (body p) (toc_slug entry) (toc p)
               = Some text).
    { unfold Resources.extractSectionContent.
      destruct (find (fun t => String.eqb (toc_slug t) (toc_slug entry)) (toc p))
        as [found|] eqn:Ef.
      - apply find_some in Ef. destruct Ef as [Hfound _].
        unfold outlineInBody in Hout. rewrite Forall_forall in Hout.
        specialize (Hout found Hfound). cbv zeta.
        replace (toc_line found - 1 <? 0)%Z with false
          by (symmetry; apply Z.ltb_ge; lia).
        replace (Z.of_nat (List.length (Js.split LF (body p))) <=? toc_line found - 1)%Z
          with false by (symmetry; apply Z.leb_gt; lia).
        cbn [orb]. eexists. reflexivity.
      - exfalso. apply (find_none _ _ Ef) in Hin. cbv beta in Hin.
        now rewrite String.eqb_refl in Hin. }
    destruct Hex as [text Htext]. exists text. split; [exact Htext|].
    unfold r. cbn [Resources.sectionResource Resources.res_uri].
    unfold Resources.readResource.
    pose proof (not_help (skill_name skill) ("section/" ++ toc_slug entry) Hname) as Hh.
    change ("loadout://" ++ skill_name skill ++ "/" ++ "section/" ++ toc_slug entry)
      with ("loadout://" ++ skill_name skill ++ "/section/" ++ toc_slug entry) in Hh.
    rewrite Hh, (parse_section _ _ Hname Hslug).
    cbn [Resources.uri_name Resources.uri_type Resources.uri_param].
    rewrite Hget, Hp, (falsy_Some _ (proj1 Hslug)), Htext. reflexivity.
Qed.

(** The section [usage] of [foo]. *)
Lemma listed_sections_are_readable_witness :
  exists text,
    Resources.readResource "help" (fun _ => "text/plain") (fun _ => "{}") emptyDisk
      fooDiscovery "loadout://foo/section/usage"
    = Ok (Resources.mkResourceContents "loadout://foo/section/usage" "text/markdown" text).
Proof.
  destruct (listed_sections_are_readable "help" (fun _ => "text/plain") (fun _ => "{}")
              emptyDisk fooDiscovery fooSkill fooDocument
              (mkTocEntry 2 "Usage" "usage" 3))
    as [_ [text [_ H]]].
  - reflexivity.
  - split; [discriminate | reflexivity].
  - reflexivity.
  - unfold outlineInBody. repeat constructor; vm_compute; discriminate.
  - right. now left.
  - split; [discriminate | reflexivity].
  - exists text. exact H.
Defined.
